(** * Hybrid photorealistic / toon shader: a model of the render pipeline

    The renderer is a C++ / OpenGL program whose per-pixel work is written in
    GLSL.  Both sides compute on IEEE floats; this development idealises a
    float as a real number, so the shader functions below are the source
    functions read over [R].  GLSL [int]s and C++ [size_t]/[int]s are [Z] or
    [nat]; the two [unsigned int] frame counters keep their 32-bit
    wrap-around. *)

From Stdlib Require Import Reals Lra Lia ZArith.
From stdpp Require Import base list.

Local Open Scope R_scope.

(** ** GLSL / GLM vocabulary *)

Module GLSL.

Record vec2 := Vec2 { x2 : R; y2 : R }.
Record vec3 := Vec3 { x3 : R; y3 : R; z3 : R }.
Record vec4 := Vec4 { x4 : R; y4 : R; z4 : R; w4 : R }.

(** column-major 4x4 matrix, as GLSL's and GLM's [mat4] *)
Record mat4 := Mat4 { col0 : vec4; col1 : vec4; col2 : vec4; col3 : vec4 }.

Definition splat3 (s : R) : vec3 := Vec3 s s s.
Definition xyz (v : vec4) : vec3 := Vec3 (x4 v) (y4 v) (z4 v).
Definition xy (v : vec3) : vec2 := Vec2 (x3 v) (y3 v).
Definition vec4_of (v : vec3) (w : R) : vec4 := Vec4 (x3 v) (y3 v) (z3 v) w.

Definition add2 (a b : vec2) : vec2 := Vec2 (x2 a + x2 b) (y2 a + y2 b).
Definition sub2 (a b : vec2) : vec2 := Vec2 (x2 a - x2 b) (y2 a - y2 b).
Definition mul2 (a b : vec2) : vec2 := Vec2 (x2 a * x2 b) (y2 a * y2 b).

Definition add3 (a b : vec3) : vec3 := Vec3 (x3 a + x3 b) (y3 a + y3 b) (z3 a + z3 b).
Definition sub3 (a b : vec3) : vec3 := Vec3 (x3 a - x3 b) (y3 a - y3 b) (z3 a - z3 b).
Definition mul3 (a b : vec3) : vec3 := Vec3 (x3 a * x3 b) (y3 a * y3 b) (z3 a * z3 b).
Definition div3 (a b : vec3) : vec3 := Vec3 (x3 a / x3 b) (y3 a / y3 b) (z3 a / z3 b).
Definition scale3 (a : vec3) (s : R) : vec3 := Vec3 (x3 a * s) (y3 a * s) (z3 a * s).
Definition neg3 (a : vec3) : vec3 := Vec3 (- x3 a) (- y3 a) (- z3 a).

Definition dot3 (a b : vec3) : R := x3 a * x3 b + y3 a * y3 b + z3 a * z3 b.
Definition dot4 (a b : vec4) : R := x4 a * x4 b + y4 a * y4 b + z4 a * z4 b + w4 a * w4 b.
Definition cross (a b : vec3) : vec3 :=
  Vec3 (y3 a * z3 b - z3 a * y3 b) (z3 a * x3 b - x3 a * z3 b) (x3 a * y3 b - y3 a * x3 b).
Definition length3 (a : vec3) : R := sqrt (dot3 a a).

(** GLM: [v * inversesqrt(dot(v, v))] *)
Definition normalize (a : vec3) : vec3 := scale3 a (1 / sqrt (dot3 a a)).

(** float comparisons, as booleans *)
Definition fltb (a b : R) : bool := if Rlt_dec a b then true else false.
Definition fleb (a b : R) : bool := if Rle_dec a b then true else false.
Definition fgtb (a b : R) : bool := fltb b a.
Definition fgeb (a b : R) : bool := fleb b a.
Definition feqb (a b : R) : bool := if Req_dec_T a b then true else false.

Definition clamp (x lo hi : R) : R := Rmin (Rmax x lo) hi.
Definition clamp3 (v : vec3) (lo hi : R) : vec3 :=
  Vec3 (clamp (x3 v) lo hi) (clamp (y3 v) lo hi) (clamp (z3 v) lo hi).

(** [mix(x, y, a) = x * (1 - a) + y * a] *)
Definition mix (x y a : R) : R := x * (1 - a) + y * a.
Definition mix3 (x y : vec3) (a : R) : vec3 :=
  Vec3 (mix (x3 x) (x3 y) a) (mix (y3 x) (y3 y) a) (mix (z3 x) (z3 y) a).

(** [t = clamp((x - e0) / (e1 - e0), 0, 1); t * t * (3 - 2 * t)] *)
Definition smoothstep (edge0 edge1 x : R) : R :=
  let t := clamp ((x - edge0) / (edge1 - edge0)) 0 1 in
  t * t * (3 - 2 * t).

Definition floor (x : R) : R := IZR (Int_part x).

(** [round] to the nearest integer; the direction at a half is left to the
    implementation by GLSL, here upwards. *)
Definition round (x : R) : R := floor (x + / 2).

(** [pow(x, y)]; GLSL defines it for [x > 0] and for [x = 0], [y > 0]. *)
Definition pow (x y : R) : R := if feqb x 0 then 0 else Rpower x y.
Definition pow3 (v e : vec3) : vec3 :=
  Vec3 (pow (x3 v) (x3 e)) (pow (y3 v) (y3 e)) (pow (z3 v) (z3 e)).

(** matrix * column vector *)
Definition mulMV (m : mat4) (v : vec4) : vec4 :=
  Vec4 (x4 (col0 m) * x4 v + x4 (col1 m) * y4 v + x4 (col2 m) * z4 v + x4 (col3 m) * w4 v)
       (y4 (col0 m) * x4 v + y4 (col1 m) * y4 v + y4 (col2 m) * z4 v + y4 (col3 m) * w4 v)
       (z4 (col0 m) * x4 v + z4 (col1 m) * y4 v + z4 (col2 m) * z4 v + z4 (col3 m) * w4 v)
       (w4 (col0 m) * x4 v + w4 (col1 m) * y4 v + w4 (col2 m) * z4 v + w4 (col3 m) * w4 v).

(** matrix * matrix: the columns of the right factor are mapped one by one *)
Definition mulMM (a b : mat4) : mat4 :=
  Mat4 (mulMV a (col0 b)) (mulMV a (col1 b)) (mulMV a (col2 b)) (mulMV a (col3 b)).

(** A bound 2D texture: its sampling function and its level-0 size. *)
Record sampler2D := Sampler2D { texture : vec2 -> vec4; textureSize : Z * Z }.
(** A bound cube map, sampled by direction. *)
Record samplerCube := SamplerCube { textureCube : vec3 -> vec4 }.

End GLSL.

Import GLSL.

(** ** The lighting pass shader (hybrid_cel_lighting.frag) *)

Module HybridCelLighting.

(** the shader-side [Light] struct; [type] is 0, 1 or 2 (dir / point / spot) *)
Record Light := MkLight {
  type : Z;
  position : vec3;
  direction : vec3;
  color : vec3;
  intensity : R;
  constant : R;
  linear : R;
  quadratic : R;
  cutOff : R;
  outerCutOff : R;
  castShadows : bool
}.

(** The uniforms of the program.  The arrays have 8 entries in the shader;
    they are read at indices below 8 only. *)
Record Uniforms := MkUniforms {
  gBaseColor : sampler2D;
  gNormal : sampler2D;
  gPosition : sampler2D;
  gQuantization : sampler2D;
  shadowMaps : nat -> sampler2D;
  shadowCubeMaps : nat -> samplerCube;
  lightSpaceMatrices : nat -> mat4;
  shadowBias : R;
  shadowNormalBias : R;
  shadowPCFSamples : Z;
  shadowIntensity : R;
  enablePCF : bool;
  shadowFarPlane : R;
  numLights : Z;
  lights : nat -> Light;
  viewPos : vec3;
  diffuseQuantizationBands : Z;
  specularThreshold1 : R;
  specularThreshold2 : R;
  enableQuantization : bool;
  globalMaterialType : Z
}.

Record GBufferData := MkGBufferData {
  baseColor : vec3;
  materialType : R;
  worldNormal : vec3;
  roughness : R;
  worldPosition : vec3;
  specularShininess : R;
  ambientOcclusion : R;
  edgeWeight : R
}.

(** [c ? 1.0 : 0.0] for the depth comparison [a > b] *)
Definition gtOne (a b : R) : R := if fgtb a b then 1 else 0.

(** The weighting both shadow functions end with:
    [shadow = mix(1.0, 1.0 - shadow, 1.0 - shadowIntensity)]. *)
Definition effectiveShadow (shadow shadowIntensity : R) : R :=
  mix 1 (1 - shadow) (1 - shadowIntensity).

(** [for (float x = x0; x < stop; x += step)]: the values the loop variable
    takes, at most [fuel] of them. *)
Fixpoint floatRange (fuel : nat) (x stop step : R) : list R :=
  match fuel with
  | O => []
  | S fuel' =>
      if fltb x stop then x :: floatRange fuel' (x + step) stop step else []
  end.

Definition sumR (l : list R) : R := foldr Rplus 0 l.

(** the guard of the early [return 1.0] of calculateDirectionalSpotShadow *)
Definition outsideShadowMap (projCoords : vec3) : bool :=
  fgtb (z3 projCoords) 1 || fltb (x3 projCoords) 0 || fgtb (x3 projCoords) 1
  || fltb (y3 projCoords) 0 || fgtb (y3 projCoords) 1.

Section Program.

Variable u : Uniforms.
(** the interpolated input [TexCoords] *)
Variable TexCoords : vec2.

(** light-space transform, perspective divide, remap to [0,1] *)
Definition projectToLight (lightIndex : nat) (p : vec3) : vec3 :=
  let ls := mulMV (lightSpaceMatrices u lightIndex) (vec4_of p 1) in
  let proj := Vec3 (x4 ls / w4 ls) (y4 ls / w4 ls) (z4 ls / w4 ls) in
  add3 (scale3 proj (5 / 10)) (splat3 (5 / 10)).

(** the [shadow] variable of calculateDirectionalSpotShadow just before
    it is weighted *)
Definition directionalSpotShadowTest
    (lightIndex : nat) (fragPos normal lightDir : vec3) : R :=
  let projCoords := projectToLight lightIndex fragPos in
  let bias := Rmax (shadowBias u * (1 - dot3 normal lightDir)) (shadowBias u * (1 / 10)) in
  let offsetPos := add3 fragPos (scale3 normal (shadowNormalBias u)) in
  let offsetProjCoords := projectToLight lightIndex offsetPos in
  let currentDepth := z3 offsetProjCoords in
  let map := shadowMaps u lightIndex in
  if enablePCF u && (0 <? shadowPCFSamples u)%Z then
    let texelSize :=
      Vec2 (1 / IZR (fst (textureSize map))) (1 / IZR (snd (textureSize map))) in
    let k := shadowPCFSamples u in
    let taps := seqZ (- k) (2 * k + 1) in
    let shadow :=
      sumR (x ← taps; y ← taps;
            [gtOne (currentDepth - bias)
                   (x4 (texture map (add2 (xy projCoords)
                                          (mul2 (Vec2 (IZR x) (IZR y)) texelSize))))]) in
    let kernelSize := (k * 2 + 1)%Z in
    shadow / IZR (kernelSize * kernelSize)
  else
    let closestDepth := x4 (texture map (xy projCoords)) in
    gtOne (currentDepth - bias) closestDepth.

Definition calculateDirectionalSpotShadow
    (lightIndex : nat) (fragPos normal lightDir : vec3) : R :=
  let projCoords := projectToLight lightIndex fragPos in
  if outsideShadowMap projCoords
  then 1
  else effectiveShadow (directionalSpotShadowTest lightIndex fragPos normal lightDir)
                       (shadowIntensity u).

(** the [shadow] variable of calculatePointShadow just before it is
    weighted *)
Definition pointShadowTest (lightIndex : nat) (fragPos lightPos : vec3) : R :=
  let fragToLight := sub3 fragPos lightPos in
  let currentDepth := length3 fragToLight in
  let cube := shadowCubeMaps u lightIndex in
  let closestDepth := x4 (textureCube cube fragToLight) * shadowFarPlane u in
  let bias := shadowBias u * (25 / 10) in
  if enablePCF u && (0 <? shadowPCFSamples u)%Z then
    let samples := 4 in
    let offset := 1 / 10 in
    let steps := floatRange 8 (- offset) offset (offset / (samples * (5 / 10))) in
    let shadow :=
      sumR (x ← steps; y ← steps; z ← steps;
            [gtOne (currentDepth - bias)
                   (x4 (textureCube cube (add3 fragToLight (Vec3 x y z)))
                    * shadowFarPlane u)]) in
    shadow / (samples * samples * samples)
  else
    gtOne (currentDepth - bias) closestDepth.

Definition calculatePointShadow (lightIndex : nat) (fragPos lightPos : vec3) : R :=
  effectiveShadow (pointShadowTest lightIndex fragPos lightPos) (shadowIntensity u).

End Program.

Definition quantizeDiffuseIntensity (intensity : R) (bands : Z) : R :=
  if (bands <=? 1)%Z then intensity
  else
    let bandsFloat := IZR bands in
    let intensity := clamp intensity 0 1 in
    floor (intensity * bandsFloat + 5 / 10) / bandsFloat.

Definition quantizeSpecularIntensity (intensity threshold1 threshold2 : R) : R :=
  let intensity := clamp intensity 0 1 in
  let threshold1 := clamp threshold1 0 1 in
  let threshold2 := clamp threshold2 (threshold1 + 1 / 100) 1 in
  if fltb intensity threshold1 then 0
  else if fltb intensity threshold2 then 8 / 10
  else 95 / 100.

Definition hybridCelShading
    (baseColor : vec3) (diffuseIntensity specularIntensity : R) (diffuseBands : Z)
    (specThreshold1 specThreshold2 shadowFactor : R) : vec3 :=
  let diffuseIntensity := diffuseIntensity * shadowFactor in
  let quantizedDiffuse := quantizeDiffuseIntensity diffuseIntensity diffuseBands in
  let diffuseColor := scale3 baseColor quantizedDiffuse in
  let specularIntensity := specularIntensity * shadowFactor in
  let quantizedSpecular :=
    quantizeSpecularIntensity specularIntensity specThreshold1 specThreshold2 in
  let specularColor := splat3 (quantizedSpecular * (6 / 10)) in
  let finalColor := add3 diffuseColor specularColor in
  pow3 finalColor (splat3 1).

(** Blinn-Phong specular *)
Definition calculateSpecularIntensity (lightDir viewDir normal : vec3) (shininess : R) : R :=
  let NdotL := Rmax (dot3 normal lightDir) 0 in
  if fleb NdotL 0 then 0
  else
    let halfwayDir := normalize (add3 lightDir viewDir) in
    let NdotH := Rmax (dot3 normal halfwayDir) 0 in
    let specular := pow NdotH shininess in
    specular * NdotL.

Definition calculateMinnaert (normal lightDir viewDir : vec3) (k : R) : vec3 :=
  let NdotL := Rmax (dot3 normal lightDir) 0 in
  let NdotV := Rmax (dot3 normal viewDir) 0 in
  splat3 (pow (Rmax (NdotL * NdotV) (1 / 1000)) k).

Definition calculateOrenNayar
    (normal lightDir viewDir : vec3) (roughness : R) (albedo : vec3) : vec3 :=
  let sigma2 := roughness * roughness in
  let A := 1 - sigma2 / (2 * (sigma2 + 33 / 100)) in
  let B := 45 / 100 * sigma2 / (sigma2 + 9 / 100) in
  let NdotL := Rmax (dot3 normal lightDir) 0 in
  let NdotV := Rmax (dot3 normal viewDir) 0 in
  let lightProj := sub3 lightDir (scale3 normal NdotL) in
  let viewProj := sub3 viewDir (scale3 normal NdotV) in
  let lightProj := if fgtb (length3 lightProj) (1 / 1000) then normalize lightProj else lightProj in
  let viewProj := if fgtb (length3 viewProj) (1 / 1000) then normalize viewProj else viewProj in
  let deltaAlpha := Rmax 0 (dot3 lightProj viewProj) in
  let '(sinAlpha, tanBeta) :=
    if fltb NdotL NdotV then
      (sqrt (Rmax 0 (1 - NdotL * NdotL)),
       sqrt (Rmax 0 (1 - NdotV * NdotV)) / Rmax NdotV (1 / 1000))
    else
      (sqrt (Rmax 0 (1 - NdotV * NdotV)),
       sqrt (Rmax 0 (1 - NdotL * NdotL)) / Rmax NdotL (1 / 1000)) in
  scale3 (scale3 albedo NdotL) (A + B * deltaAlpha * sinAlpha * tanBeta).

Definition determineTangentFrame (N : vec3) : vec3 * vec3 :=
  let up := if fltb (Rabs (y3 N)) (999999 / 1000000) then Vec3 0 1 0 else Vec3 1 0 0 in
  let T := normalize (cross up N) in
  let B := cross N T in
  (T, B).

Definition pi_shader : R := 314159 / 100000.

Definition calculateAshikhminShirley (N L V : vec3) (nu nv : R) (albedo : vec3) : vec3 :=
  let H := normalize (add3 L V) in
  let '(T, B) := determineTangentFrame N in
  let NdotL := Rmax (dot3 N L) 0 in
  let NdotV := Rmax (dot3 N V) 0 in
  let NdotH := Rmax (dot3 N H) 0 in
  let HdotV := Rmax (dot3 H V) 0 in
  if feqb NdotL 0 || feqb NdotV 0 then splat3 0
  else
    let Rd := (28 * (1 - Rmax (dot3 N L) 0 / 2) * (1 - Rmax (dot3 N V) 0 / 2))
              / (23 * pi_shader) in
    let diffuse :=
      scale3 (scale3 (scale3 albedo Rd) (1 - pow (1 - NdotL / 2) 5))
             (1 - pow (1 - NdotV / 2) 5) in
    let HdotT := dot3 H T in
    let HdotB := dot3 H B in
    let exponent := (nu * HdotT * HdotT + nv * HdotB * HdotB) / (1 - NdotH * NdotH) in
    let numerator := sqrt ((nu + 1) * (nv + 1)) * pow NdotH exponent in
    let denominator := 8 * pi_shader * HdotV * Rmax NdotL NdotV in
    let F0 := splat3 (4 / 100) in
    let F := add3 F0 (scale3 (sub3 (splat3 1) F0) (pow (1 - HdotV) 5)) in
    let specular := scale3 F (numerator / denominator) in
    add3 diffuse specular.

Definition calculateCookTorrance
    (N L V : vec3) (roughness F0_val : R) (albedo : vec3) : vec3 :=
  let H := normalize (add3 L V) in
  let NdotL := Rmax (dot3 N L) 0 in
  let NdotV := Rmax (dot3 N V) 0 in
  if feqb NdotL 0 then splat3 0
  else
    let NdotH := Rmax (dot3 N H) (1 / 1000) in
    let NdotH2 := NdotH * NdotH in
    let m2 := roughness * roughness in
    let r1 := 1 / (4 * m2 * pow NdotH 4) in
    let r2 := (NdotH2 - 1) / (m2 * NdotH2) in
    let D := r1 * exp r2 in
    let HdotV := Rmax (dot3 H V) 0 in
    let NdotH_x2 := 2 * NdotH in
    let G1 := (NdotH_x2 * NdotV) / HdotV in
    let G2 := (NdotH_x2 * NdotL) / HdotV in
    let G := Rmin 1 (Rmin G1 G2) in
    let F0 := splat3 F0_val in
    let F := add3 F0 (scale3 (sub3 (splat3 1) F0) (pow (1 - HdotV) 5)) in
    let numerator := scale3 (scale3 F D) G in
    let denominator := 4 * NdotV * NdotL + 1 / 1000 in
    let kS := scale3 numerator (1 / denominator) in
    let kD := sub3 (splat3 1) F in
    scale3 (add3 (scale3 (mul3 kD albedo) (1 / pi_shader)) kS) NdotL.

Section Shading.

Variable u : Uniforms.
Variable TexCoords : vec2.

Definition sampleGBuffer (texCoords : vec2) : GBufferData :=
  let baseColorData := texture (gBaseColor u) texCoords in
  let normalData := texture (gNormal u) texCoords in
  let positionData := texture (gPosition u) texCoords in
  let quantizationData := texture (gQuantization u) texCoords in
  {| baseColor := xyz baseColorData;
     materialType := w4 baseColorData;
     worldNormal := normalize (xyz normalData);
     roughness := w4 normalData;
     worldPosition := xyz positionData;
     specularShininess := w4 positionData;
     ambientOcclusion := z4 quantizationData;
     edgeWeight := w4 quantizationData |}.

(** One iteration of the light loop of calculateHybridCelShading: the
    [lightContrib] added to [totalLighting], or [None] where the body
    leaves through [continue]. *)
Definition lightContribution (gData : GBufferData) (viewDir : vec3) (i : nat)
    : option vec3 :=
  let materialType := Int_part (materialType gData + 5 / 10) in
  let light := lights u i in
  if fleb (intensity light) 0 then None
  else
    let shouldCastShadows := castShadows light in
    let lightVec := sub3 (position light) (worldPosition gData) in
    let distance := length3 lightVec in
    let pointAttenuation :=
      1 / (constant light + linear light * distance
           + quadratic light * distance * distance) in
    let '(lightDir, attenuation, shadowFactor) :=
      if (type light =? 0)%Z then
        let lightDir := normalize (neg3 (direction light)) in
        (lightDir, 1,
         if shouldCastShadows
         then calculateDirectionalSpotShadow u i (worldPosition gData)
                                             (worldNormal gData) lightDir
         else 1)
      else if (type light =? 1)%Z then
        let lightDir := normalize lightVec in
        (lightDir, pointAttenuation,
         if shouldCastShadows
         then calculatePointShadow u i (worldPosition gData) (position light)
         else 1)
      else if (type light =? 2)%Z then
        let lightDir := normalize lightVec in
        let theta := dot3 lightDir (normalize (neg3 (direction light))) in
        let epsilon := cutOff light - outerCutOff light in
        let intensity := clamp ((theta - outerCutOff light) / epsilon) 0 1 in
        (lightDir, pointAttenuation * intensity,
         if shouldCastShadows
         then calculateDirectionalSpotShadow u i (worldPosition gData)
                                             (worldNormal gData) lightDir
         else 1)
      else
        (* [lightDir] stays uninitialised for any other type tag *)
        (Vec3 0 0 0, 1, 1) in
    if fleb attenuation (1 / 1000) then None
    else
      let extraParams := texture (gQuantization u) TexCoords in
      let '(diffuseIntensity, diffuseColor) :=
        if (materialType =? 0)%Z then
          let NdotL := Rmax (dot3 (worldNormal gData) lightDir) 0 in
          (NdotL, scale3 (baseColor gData) NdotL)
        else if (materialType =? 1)%Z then
          let minnaert :=
            calculateMinnaert (worldNormal gData) lightDir viewDir (x4 extraParams) in
          (x3 minnaert, mul3 (baseColor gData) minnaert)
        else if (materialType =? 2)%Z then
          let orenNayar :=
            calculateOrenNayar (worldNormal gData) lightDir viewDir
                               (y4 extraParams) (baseColor gData) in
          (length3 orenNayar / length3 (add3 (baseColor gData) (splat3 (1 / 1000))),
           orenNayar)
        else if (materialType =? 3)%Z then
          let ashikhmin :=
            calculateAshikhminShirley (worldNormal gData) lightDir viewDir
                                      (x4 extraParams) (y4 extraParams) (baseColor gData) in
          (length3 ashikhmin / length3 (add3 (baseColor gData) (splat3 (1 / 1000))),
           ashikhmin)
        else if (materialType =? 4)%Z then
          let cookTorrance :=
            calculateCookTorrance (worldNormal gData) lightDir viewDir
                                  (x4 extraParams) (y4 extraParams) (baseColor gData) in
          (length3 cookTorrance / length3 (add3 (baseColor gData) (splat3 (1 / 1000))),
           cookTorrance)
        else (0, splat3 0) in
      let diffuseIntensity := diffuseIntensity * (intensity light * attenuation) in
      let diffuseColor := scale3 diffuseColor (intensity light * attenuation) in
      let specularIntensity :=
        if negb (materialType =? 3)%Z && negb (materialType =? 4)%Z then
          calculateSpecularIntensity lightDir viewDir (worldNormal gData)
                                     (specularShininess gData)
          * intensity light * attenuation * (3 / 10)
        else 0 in
      if enableQuantization u then
        let celColor :=
          hybridCelShading (baseColor gData) diffuseIntensity specularIntensity
                           (diffuseQuantizationBands u) (specularThreshold1 u)
                           (specularThreshold2 u) shadowFactor in
        Some (mul3 celColor (color light))
      else
        let finalDiffuse := scale3 diffuseColor shadowFactor in
        let finalSpecular := splat3 (specularIntensity * shadowFactor) in
        Some (mul3 (add3 finalDiffuse finalSpecular) (color light)).

(** [for (int i = 0; i < numLights && i < 8; ++i)], entered at [i] with
    [totalLighting]; [fuel] bounds the number of iterations. *)
Fixpoint lightLoop (fuel : nat) (gData : GBufferData) (viewDir : vec3)
    (i : nat) (totalLighting : vec3) : vec3 :=
  match fuel with
  | O => totalLighting
  | S fuel' =>
      if (Z.of_nat i <? numLights u)%Z && (Z.of_nat i <? 8)%Z then
        lightLoop fuel' gData viewDir (S i)
          (match lightContribution gData viewDir i with
           | Some lightContrib => add3 totalLighting lightContrib
           | None => totalLighting
           end)
      else totalLighting
  end.

(** [totalLighting += lightContrib] for light [i], unless it is skipped *)
Definition accumulate (gData : GBufferData) (viewDir : vec3)
    (totalLighting : vec3) (i : nat) : vec3 :=
  match lightContribution gData viewDir i with
  | Some lightContrib => add3 totalLighting lightContrib
  | None => totalLighting
  end.


Definition calculateHybridCelShading (gData : GBufferData) (viewDir : vec3) : vec3 :=
  let totalLighting := lightLoop 8 gData viewDir 0 (splat3 0) in
  let ambient := scale3 (scale3 (baseColor gData) (1 / 10)) (ambientOcclusion gData) in
  add3 totalLighting ambient.

(** [FragColor] *)
Definition main : vec4 :=
  let gData := sampleGBuffer TexCoords in
  if fltb (length3 (worldNormal gData)) (1 / 10) then
    Vec4 (5 / 100) (5 / 100) (1 / 10) 1
  else
    let viewDir := normalize (sub3 (viewPos u) (worldPosition gData)) in
    let finalColor := calculateHybridCelShading gData viewDir in
    vec4_of finalColor 1.

End Shading.

(** The quantization as the specification words it, for comparison with
    [quantizeDiffuseIntensity]: [round(intensity * N) / N]. *)
Definition quantizeDiffuse_spec (intensity : R) (bands : Z) : R :=
  round (intensity * IZR bands) / IZR bands.

End HybridCelLighting.

(** ** The edge pass shader (edge_detection.frag) *)

Module EdgeDetection.

Record Uniforms := MkUniforms {
  gPosition : sampler2D;
  gNormal : sampler2D;
  gDepth : sampler2D;
  colorTexture : sampler2D;
  edgeFlags : Z;
  depthThreshold : R;
  normalThreshold : R;
  sobelThreshold : R;
  colorThreshold : R;
  edgeColor : vec3;
  screenSize : vec2;
  depthExponent : R;
  normalSplit : R;
  sobelScale : R;
  smoothWidth : R;
  laplacianThreshold : R;
  laplacianScale : R
}.

Definition DEPTH_BASED : Z := 1.
Definition NORMAL_BASED : Z := 2.
Definition SOBEL : Z := 4.
Definition COLOR_BASED : Z := 8.
Definition LAPLACIAN : Z := 16.

Definition computeSobel (tl tm tr ml mr bl bm br : R) : R :=
  let gx := tl * -1 + tr * 1 + ml * -2 + mr * 2 + bl * -1 + br * 1 in
  let gy := tl * -1 + tm * -2 + tr * -1 + bl * 1 + bm * 2 + br * 1 in
  sqrt (gx * gx + gy * gy).

Section Program.

Variable u : Uniforms.
Variable TexCoords : vec2.

Definition getLinearDepth (d : R) : R := pow d (depthExponent u).

Definition getEdgeIntensity (val threshold : R) : R :=
  let edgeW := smoothWidth u * (1 / 100) in
  smoothstep (threshold - edgeW) (threshold + edgeW) val.

(** [vec2 texelSize = 1.0 / screenSize] *)
Definition texelSize : vec2 := Vec2 (1 / x2 (screenSize u)) (1 / y2 (screenSize u)).

Definition depthEdgeDetection : R :=
  let tx := x2 texelSize in
  let ty := y2 texelSize in
  let depth := getLinearDepth (x4 (texture (gDepth u) TexCoords)) in
  let depthN := getLinearDepth (x4 (texture (gDepth u) (add2 TexCoords (Vec2 0 ty)))) in
  let depthS := getLinearDepth (x4 (texture (gDepth u) (sub2 TexCoords (Vec2 0 ty)))) in
  let depthE := getLinearDepth (x4 (texture (gDepth u) (add2 TexCoords (Vec2 tx 0)))) in
  let depthW := getLinearDepth (x4 (texture (gDepth u) (sub2 TexCoords (Vec2 tx 0)))) in
  let depthGradX := Rabs (depthE - depthW) in
  let depthGradY := Rabs (depthN - depthS) in
  let depthGrad := sqrt (depthGradX * depthGradX + depthGradY * depthGradY) in
  getEdgeIntensity depthGrad (depthThreshold u).

Definition normalEdgeDetection : R :=
  let tx := x2 texelSize in
  let ty := y2 texelSize in
  let normal := xyz (texture (gNormal u) TexCoords) in
  let normalN := xyz (texture (gNormal u) (add2 TexCoords (Vec2 0 ty))) in
  let normalS := xyz (texture (gNormal u) (sub2 TexCoords (Vec2 0 ty))) in
  let normalE := xyz (texture (gNormal u) (add2 TexCoords (Vec2 tx 0))) in
  let normalW := xyz (texture (gNormal u) (sub2 TexCoords (Vec2 tx 0))) in
  let dotN := dot3 normal normalN in
  let dotS := dot3 normal normalS in
  let dotE := dot3 normal normalE in
  let dotW := dot3 normal normalW in
  let minDot := Rmin (Rmin dotN dotS) (Rmin dotE dotW) in
  let diffDot := 1 - minDot in
  getEdgeIntensity diffDot (normalThreshold u).

(** the eight neighbours of the 3x3 window, in the order
    tl, tm, tr, ml, mr, bl, bm, br *)
Definition window (tex : sampler2D) : list vec4 :=
  let tx := x2 texelSize in
  let ty := y2 texelSize in
  [ texture tex (add2 TexCoords (Vec2 (- tx) ty));
    texture tex (add2 TexCoords (Vec2 0 ty));
    texture tex (add2 TexCoords (Vec2 tx ty));
    texture tex (add2 TexCoords (Vec2 (- tx) 0));
    texture tex (add2 TexCoords (Vec2 tx 0));
    texture tex (add2 TexCoords (Vec2 (- tx) (- ty)));
    texture tex (add2 TexCoords (Vec2 0 (- ty)));
    texture tex (add2 TexCoords (Vec2 tx (- ty))) ].

Definition sobelOf (f : vec4 -> R) (w : list vec4) : R :=
  match w with
  | [tl; tm; tr; ml; mr; bl; bm; br] =>
      computeSobel (f tl) (f tm) (f tr) (f ml) (f mr) (f bl) (f bm) (f br)
  | _ => 0
  end.

Definition normalSobelDetection : R :=
  let w := window (gNormal u) in
  let magX := sobelOf x4 w in
  let magY := sobelOf y4 w in
  let magZ := sobelOf z4 w in
  let totalSobel := (magX + magY + magZ) * sobelScale u in
  getEdgeIntensity totalSobel (sobelThreshold u).

Definition lumWeights : vec3 := Vec3 (299 / 1000) (587 / 1000) (114 / 1000).

Definition colorEdgeDetection : R :=
  let w := window (colorTexture u) in
  let edgeStr := sobelOf (fun c => dot3 (xyz c) lumWeights) w * sobelScale u in
  getEdgeIntensity edgeStr (colorThreshold u).

Definition laplacianEdgeDetection : R :=
  let tx := x2 texelSize in
  let ty := y2 texelSize in
  let at_ (p : vec2) := getLinearDepth (x4 (texture (gDepth u) p)) in
  let center := at_ TexCoords in
  let n := at_ (add2 TexCoords (Vec2 0 ty)) in
  let s := at_ (sub2 TexCoords (Vec2 0 ty)) in
  let e := at_ (add2 TexCoords (Vec2 tx 0)) in
  let w := at_ (sub2 TexCoords (Vec2 tx 0)) in
  let nw := at_ (add2 TexCoords (Vec2 (- tx) ty)) in
  let ne := at_ (add2 TexCoords (Vec2 tx ty)) in
  let sw := at_ (add2 TexCoords (Vec2 (- tx) (- ty))) in
  let se := at_ (add2 TexCoords (Vec2 tx (- ty))) in
  let laplacian := (n + s + e + w + nw + ne + sw + se) - 8 * center in
  getEdgeIntensity (Rabs laplacian * laplacianScale u) (laplacianThreshold u).

(** [(edgeFlags & flag) != 0] *)
Definition enabled (flag : Z) : bool := negb (Z.land (edgeFlags u) flag =? 0)%Z.

(** the value of [edge] at the end of [main] *)
Definition edgeIntensity : R :=
  let edge := 0 in
  let edge := if enabled DEPTH_BASED then Rmax edge depthEdgeDetection else edge in
  let edge := if enabled NORMAL_BASED then Rmax edge normalEdgeDetection else edge in
  let edge := if enabled SOBEL then Rmax edge normalSobelDetection else edge in
  let edge := if enabled COLOR_BASED then Rmax edge colorEdgeDetection else edge in
  let edge := if enabled LAPLACIAN then Rmax edge laplacianEdgeDetection else edge in
  edge.

(** [FragColor = vec4(edgeColor * edge, edge)] *)
Definition main : vec4 :=
  let edge := edgeIntensity in
  vec4_of (scale3 (edgeColor u) edge) edge.

End Program.

(** A texture with no discontinuity: every sample is the same. *)
Definition flat (tex : sampler2D) : Prop :=
  forall p q : vec2, texture tex p = texture tex q.

(** The lower smoothstep edge [threshold - edgeW] of a technique is not
    negative, if the technique is enabled. *)
Definition clears (u : Uniforms) (flag : Z) (threshold : R) : Prop :=
  enabled u flag = true -> smoothWidth u * (1 / 100) <= threshold.

End EdgeDetection.

(** ** The composite pass shader (composite.frag) *)

Module Composite.

Record Uniforms := MkUniforms {
  lightingTexture : sampler2D;
  edgeTexture : sampler2D;
  enableOutlining : bool
}.

(** [FragColor] *)
Definition main (u : Uniforms) (TexCoords : vec2) : vec4 :=
  let lighting := xyz (texture (lightingTexture u) TexCoords) in
  let edge := texture (edgeTexture u) TexCoords in
  let finalColor := lighting in
  let finalColor :=
    if enableOutlining u then mix3 lighting (xyz edge) (w4 edge) else finalColor in
  vec4_of finalColor 1.

End Composite.

(** ** GLM transforms (right-handed, clip depth in [-1,1], as the build uses
    them) *)

Module GLM.

Definition radians (degrees : R) : R := degrees * (PI / 180).
Definition degrees (radians : R) : R := radians * (180 / PI).

Definition perspective (fovy aspect zNear zFar : R) : mat4 :=
  let tanHalfFovy := tan (fovy / 2) in
  Mat4 (Vec4 (1 / (aspect * tanHalfFovy)) 0 0 0)
       (Vec4 0 (1 / tanHalfFovy) 0 0)
       (Vec4 0 0 (- (zFar + zNear) / (zFar - zNear)) (-1))
       (Vec4 0 0 (- (2 * zFar * zNear) / (zFar - zNear)) 0).

Definition ortho (left right bottom top zNear zFar : R) : mat4 :=
  Mat4 (Vec4 (2 / (right - left)) 0 0 0)
       (Vec4 0 (2 / (top - bottom)) 0 0)
       (Vec4 0 0 (- 2 / (zFar - zNear)) 0)
       (Vec4 (- (right + left) / (right - left))
             (- (top + bottom) / (top - bottom))
             (- (zFar + zNear) / (zFar - zNear)) 1).

Definition lookAt (eye center up : vec3) : mat4 :=
  let f := normalize (sub3 center eye) in
  let s := normalize (cross f up) in
  let u := cross s f in
  Mat4 (Vec4 (x3 s) (x3 u) (- x3 f) 0)
       (Vec4 (y3 s) (y3 u) (- y3 f) 0)
       (Vec4 (z3 s) (z3 u) (- z3 f) 0)
       (Vec4 (- dot3 s eye) (- dot3 u eye) (dot3 f eye) 1).

End GLM.

(** ** Lights and the light registry (Light.h, LightManager) *)

Module Lighting.

Inductive LightType := DIRECTIONAL | POINT | SPOT.

#[global] Instance LightType_eq_dec : EqDecision LightType.
Proof. solve_decision. Defined.

(** [static_cast<int>(light.type)] *)
Definition LightType_to_int (t : LightType) : Z :=
  match t with DIRECTIONAL => 0 | POINT => 1 | SPOT => 2 end.

Record Light := MkLight {
  type : LightType;
  position : vec3;
  direction : vec3;
  color : vec3;
  intensity : R;
  constant : R;
  linear : R;
  quadratic : R;
  cutOff : R;
  outerCutOff : R;
  castShadows : bool;
  isStatic : bool;
  flicker : bool;
  baseIntensity : R;
  baseColor : vec3
}.

(** field assignments *)
Definition set_type (t : LightType) (l : Light) : Light :=
  MkLight t (position l) (direction l) (color l) (intensity l) (constant l) (linear l)
          (quadratic l) (cutOff l) (outerCutOff l) (castShadows l) (isStatic l)
          (flicker l) (baseIntensity l) (baseColor l).
Definition set_position (p : vec3) (l : Light) : Light :=
  MkLight (type l) p (direction l) (color l) (intensity l) (constant l) (linear l)
          (quadratic l) (cutOff l) (outerCutOff l) (castShadows l) (isStatic l)
          (flicker l) (baseIntensity l) (baseColor l).
Definition set_direction (d : vec3) (l : Light) : Light :=
  MkLight (type l) (position l) d (color l) (intensity l) (constant l) (linear l)
          (quadratic l) (cutOff l) (outerCutOff l) (castShadows l) (isStatic l)
          (flicker l) (baseIntensity l) (baseColor l).
Definition set_color (c : vec3) (l : Light) : Light :=
  MkLight (type l) (position l) (direction l) c (intensity l) (constant l) (linear l)
          (quadratic l) (cutOff l) (outerCutOff l) (castShadows l) (isStatic l)
          (flicker l) (baseIntensity l) (baseColor l).
Definition set_intensity (x : R) (l : Light) : Light :=
  MkLight (type l) (position l) (direction l) (color l) x (constant l) (linear l)
          (quadratic l) (cutOff l) (outerCutOff l) (castShadows l) (isStatic l)
          (flicker l) (baseIntensity l) (baseColor l).
Definition set_attenuation (c li q : R) (l : Light) : Light :=
  MkLight (type l) (position l) (direction l) (color l) (intensity l) c li
          q (cutOff l) (outerCutOff l) (castShadows l) (isStatic l)
          (flicker l) (baseIntensity l) (baseColor l).
Definition set_cone (inner outer : R) (l : Light) : Light :=
  MkLight (type l) (position l) (direction l) (color l) (intensity l) (constant l) (linear l)
          (quadratic l) inner outer (castShadows l) (isStatic l)
          (flicker l) (baseIntensity l) (baseColor l).
Definition set_castShadows (b : bool) (l : Light) : Light :=
  MkLight (type l) (position l) (direction l) (color l) (intensity l) (constant l) (linear l)
          (quadratic l) (cutOff l) (outerCutOff l) b (isStatic l)
          (flicker l) (baseIntensity l) (baseColor l).
Definition set_isStatic (b : bool) (l : Light) : Light :=
  MkLight (type l) (position l) (direction l) (color l) (intensity l) (constant l) (linear l)
          (quadratic l) (cutOff l) (outerCutOff l) (castShadows l) b
          (flicker l) (baseIntensity l) (baseColor l).
Definition set_flicker (b : bool) (l : Light) : Light :=
  MkLight (type l) (position l) (direction l) (color l) (intensity l) (constant l) (linear l)
          (quadratic l) (cutOff l) (outerCutOff l) (castShadows l) (isStatic l)
          b (baseIntensity l) (baseColor l).
Definition set_base (i : R) (c : vec3) (l : Light) : Light :=
  MkLight (type l) (position l) (direction l) (color l) (intensity l) (constant l) (linear l)
          (quadratic l) (cutOff l) (outerCutOff l) (castShadows l) (isStatic l)
          (flicker l) i c.

(** the constructor [Light()] *)
Definition Light_default : Light :=
  {| type := POINT;
     position := splat3 0;
     direction := Vec3 0 (-1) 0;
     color := splat3 1;
     intensity := 1;
     constant := 1;
     linear := 9 / 100;
     quadratic := 32 / 1000;
     cutOff := 125 / 10;
     outerCutOff := 15;
     castShadows := true;
     isStatic := false;
     flicker := false;
     baseIntensity := 1;
     baseColor := splat3 1 |}.

Definition createDirectionalLight (direction color : vec3) (intensity : R) : Light :=
  let light := Light_default in
  let light := set_type DIRECTIONAL light in
  let light := set_direction (normalize direction) light in
  let light := set_color color light in
  let light := set_intensity intensity light in
  let light := set_base intensity color light in
  let light := set_castShadows true light in
  light.

Definition createPointLight (position color : vec3) (intensity : R) : Light :=
  let light := Light_default in
  let light := set_type POINT light in
  let light := set_position position light in
  let light := set_color color light in
  let light := set_intensity intensity light in
  let light := set_base intensity color light in
  light.

Definition createSpotLight (position direction color : vec3)
    (cutOff outerCutOff intensity : R) : Light :=
  let light := Light_default in
  let light := set_type SPOT light in
  let light := set_position position light in
  let light := set_direction (normalize direction) light in
  let light := set_color color light in
  let light := set_intensity intensity light in
  let light := set_base intensity color light in
  let light := set_cone cutOff outerCutOff light in
  light.

(** unit length within 1e-5 *)
Definition isUnit (v : vec3) : Prop := Rabs (length3 v - 1) <= 1 / 100000.

(** *** LightManager: the vector [lights] *)

Definition MAX_LIGHTS : nat := 32.

Definition addLight (light : Light) (lights : list Light) : list Light :=
  if (length lights <? MAX_LIGHTS)%nat then lights ++ [light] else lights.

Definition removeLight (index : nat) (lights : list Light) : list Light :=
  if (index <? length lights)%nat then delete index lights else lights.

Definition updateLight (index : nat) (light : Light) (lights : list Light) : list Light :=
  if (index <? length lights)%nat then <[index := light]> lights else lights.

Definition clearLights (lights : list Light) : list Light := [].

(** the constructor [LightManager()] *)
Definition LightManager_init : list Light :=
  let lights := [] in
  let lights :=
    addLight (createDirectionalLight (Vec3 0 (-1) 0) (Vec3 1 1 1) 5) lights in
  let lights :=
    addLight (createPointLight (Vec3 (-3) 3 (-3)) (Vec3 1 (2 / 10) (2 / 10)) 2) lights in
  let lights :=
    addLight (createPointLight (Vec3 3 3 3) (Vec3 (2 / 10) 1 (2 / 10)) 2) lights in
  let lights :=
    addLight (createPointLight (Vec3 0 5 0) (Vec3 (2 / 10) (2 / 10) 1) (15 / 10)) lights in
  lights.

(** *** The per-light widgets of GUI::renderLightingWindow

    One interaction with a widget of light [i]; a slider hands over the
    value the user chose and the widget stores it through the pointer it
    was given. *)
Inductive Widget :=
| CastShadowsCheckbox (b : bool)
| TypeCombo (t : LightType)
| PositionSlider (p : vec3)
| DirectionSlider (d : vec3)
| ColorEdit (c : vec3)
| FlickerCheckbox (b : bool)
| StaticCheckbox (b : bool)
| IntensitySlider (x : R)
| AttenuationSliders (c l q : R)
| SpotSliders (inner outer : R).

Definition typeIs (t : LightType) (l : Light) : bool := bool_decide (type l = t).

Definition editLight (w : Widget) (light : Light) : Light :=
  match w with
  | CastShadowsCheckbox b => set_castShadows b light
  | TypeCombo t => set_type t light
  | PositionSlider p =>
      if negb (typeIs DIRECTIONAL light) then set_position p light else light
  | DirectionSlider d =>
      if negb (typeIs POINT light) then set_direction d light else light
  | ColorEdit c => set_color c light
  | FlickerCheckbox b => set_flicker b light
  | StaticCheckbox b => set_isStatic b light
  | IntensitySlider x => set_intensity x light
  | AttenuationSliders c l q =>
      if negb (typeIs DIRECTIONAL light) then set_attenuation c l q light else light
  | SpotSliders inner outer =>
      if typeIs SPOT light then set_cone inner outer light else light
  end.

(** the widget acts on [lightManager.getLight(i)], for [i] below the count *)
Definition renderLightingWindow_edit (i : nat) (w : Widget) (lights : list Light)
    : list Light :=
  match lights !! i with
  | Some light => <[i := editLight w light]> lights
  | None => lights
  end.

End Lighting.

(** ** The renderer (Renderer.h, Renderer.cpp) *)

Module Renderer.

Definition MAX_SHADOW_CASTING_LIGHTS : nat := 8.

Record ShadowParams := MkShadowParams {
  shadowMapSize : Z;
  cubeShadowMapSize : Z;
  shadowBias : R;
  shadowNormalBias : R;
  shadowPCFSamples : Z;
  shadowIntensity : R;
  enablePCF : bool;
  orthoSize : R;
  nearPlane : R;
  farPlane : R
}.

Definition ShadowParams_default : ShadowParams :=
  {| shadowMapSize := 2048;
     cubeShadowMapSize := 1024;
     shadowBias := 5 / 1000;
     shadowNormalBias := 2 / 100;
     shadowPCFSamples := 2;
     shadowIntensity := 7 / 10;
     enablePCF := true;
     orthoSize := 20;
     nearPlane := 5 / 10;
     farPlane := 50 |}.

(** the global cel-shading fields of [MaterialParams] the lighting pass
    uploads *)
Record MaterialParams := MkMaterialParams {
  enableQuantization : bool;
  diffuseQuantizationBands : Z;
  specularThreshold1 : R;
  specularThreshold2 : R
}.

Record EdgeParams := MkEdgeParams {
  enableOutlining : bool;
  depthThreshold : R;
  normalThreshold : R;
  sobelThreshold : R;
  colorThreshold : R;
  edgeWidth : R;
  edgeColor : vec3;
  depthExponent : R;
  normalSplit : R;
  sobelScale : R;
  smoothWidth : R;
  laplacianThreshold : R;
  laplacianScale : R
}.

(** GL object names are [unsigned int]; 0 is "no object". *)
Record ShadowMapData := MkShadowMapData {
  FBO : N;
  depthMap : N;
  depthCubemap : N;
  lightSpaceMatrix : mat4;
  shadowTransforms : list mat4;
  isActive : bool;
  type : Lighting.LightType;
  size : Z;
  hasRendered : bool
}.

Definition zeroMat : mat4 :=
  Mat4 (Vec4 0 0 0 0) (Vec4 0 0 0 0) (Vec4 0 0 0 0) (Vec4 0 0 0 0).

(** a slot as [shadowMaps.resize(MAX_SHADOW_CASTING_LIGHTS)] creates it *)
Definition ShadowMapData_default : ShadowMapData :=
  {| FBO := 0;
     depthMap := 0;
     depthCubemap := 0;
     lightSpaceMatrix := zeroMat;
     shadowTransforms := replicate 6 zeroMat;
     isActive := false;
     type := Lighting.DIRECTIONAL;
     size := 0;
     hasRendered := false |}.

(** [Stats]: two [unsigned int] counters *)
Record Stats := MkStats { drawCalls : Z; vertexCount : Z }.

Definition UINT_MOD : Z := 2 ^ 32.

(** what the renderer uses of a loaded [Model] *)
Record Model := MkModel {
  getVertexCount : Z;
  hasTexture : bool;
  getDiffuseTexture : N
}.

Record Camera := MkCamera { Position : vec3 }.

(** the six shader programs; [false] is a null pointer *)
Record Shaders := MkShaders {
  geometryShader : bool;
  shadowMapShader : bool;
  pointShadowShader : bool;
  hybridCelShader : bool;
  edgeDetectionShader : bool;
  compositeShader : bool
}.

(** the four colour attachments and the depth attachment of the G-buffer *)
Record GBuffer := MkGBuffer {
  gBaseColor : sampler2D;
  gNormal : sampler2D;
  gPosition : sampler2D;
  gQuantization : sampler2D;
  gDepth : sampler2D
}.

(** What is fixed while frames are rendered.  The two model lists are the
    [unique_ptr<Model>] arguments of the [renderModel] calls of
    renderScene() (with renderDecorations()) and of geometryPass(), in
    program order; [None] is a model that failed to load.  The placement
    matrices of the hard-coded scene are left out.  The three [raster]
    functions stand for the rasteriser: the image a scene draw leaves in
    its render target. *)
Record Setup := MkSetup {
  width : Z;
  height : Z;
  shaders : Shaders;
  sceneModels : list (option Model);
  geometryModels : list (option Model);
  rasterDepth : mat4 -> Z -> sampler2D;
  rasterDepthCube : list mat4 -> vec3 -> R -> Z -> samplerCube;
  rasterGBuffer : Camera -> bool -> GBuffer
}.

Record Renderer := MkRenderer {
  setup : Setup;
  shadowParams : ShadowParams;
  materialParams : MaterialParams;
  globalIlluminationModel : Z;
  edgeParams : EdgeParams;
  edgeDetectionFlags : Z;
  (** [lightManager->lights] *)
  lights : list Lighting.Light;
  shadowMaps : list ShadowMapData;
  stats : Stats;
  (** the function-local [static float totalTime] of updateLights *)
  totalTime : R;
  (** GL: the next unused object name, and the contents of the textures *)
  glNext : N;
  depthTextures : N -> sampler2D;
  cubeTextures : N -> samplerCube;
  gBuffer : GBuffer;
  lightingTexture : sampler2D;
  edgeTexture : sampler2D;
  screen : vec2 -> vec4;
  (** the uniform store of the lighting program *)
  hybridCelUniforms : HybridCelLighting.Uniforms
}.

Definition set_lights (ls : list Lighting.Light) (r : Renderer) : Renderer :=
  MkRenderer (setup r) (shadowParams r) (materialParams r) (globalIlluminationModel r)
    (edgeParams r) (edgeDetectionFlags r) ls (shadowMaps r) (stats r) (totalTime r)
    (glNext r) (depthTextures r) (cubeTextures r) (gBuffer r) (lightingTexture r)
    (edgeTexture r) (screen r) (hybridCelUniforms r).
Definition set_shadowMaps (m : list ShadowMapData) (r : Renderer) : Renderer :=
  MkRenderer (setup r) (shadowParams r) (materialParams r) (globalIlluminationModel r)
    (edgeParams r) (edgeDetectionFlags r) (lights r) m (stats r) (totalTime r)
    (glNext r) (depthTextures r) (cubeTextures r) (gBuffer r) (lightingTexture r)
    (edgeTexture r) (screen r) (hybridCelUniforms r).
Definition set_stats (st : Stats) (r : Renderer) : Renderer :=
  MkRenderer (setup r) (shadowParams r) (materialParams r) (globalIlluminationModel r)
    (edgeParams r) (edgeDetectionFlags r) (lights r) (shadowMaps r) st (totalTime r)
    (glNext r) (depthTextures r) (cubeTextures r) (gBuffer r) (lightingTexture r)
    (edgeTexture r) (screen r) (hybridCelUniforms r).
Definition set_totalTime (t : R) (r : Renderer) : Renderer :=
  MkRenderer (setup r) (shadowParams r) (materialParams r) (globalIlluminationModel r)
    (edgeParams r) (edgeDetectionFlags r) (lights r) (shadowMaps r) (stats r) t
    (glNext r) (depthTextures r) (cubeTextures r) (gBuffer r) (lightingTexture r)
    (edgeTexture r) (screen r) (hybridCelUniforms r).
Definition set_glNext (n : N) (r : Renderer) : Renderer :=
  MkRenderer (setup r) (shadowParams r) (materialParams r) (globalIlluminationModel r)
    (edgeParams r) (edgeDetectionFlags r) (lights r) (shadowMaps r) (stats r) (totalTime r)
    n (depthTextures r) (cubeTextures r) (gBuffer r) (lightingTexture r)
    (edgeTexture r) (screen r) (hybridCelUniforms r).
Definition set_depthTextures (t : N -> sampler2D) (r : Renderer) : Renderer :=
  MkRenderer (setup r) (shadowParams r) (materialParams r) (globalIlluminationModel r)
    (edgeParams r) (edgeDetectionFlags r) (lights r) (shadowMaps r) (stats r) (totalTime r)
    (glNext r) t (cubeTextures r) (gBuffer r) (lightingTexture r)
    (edgeTexture r) (screen r) (hybridCelUniforms r).
Definition set_cubeTextures (t : N -> samplerCube) (r : Renderer) : Renderer :=
  MkRenderer (setup r) (shadowParams r) (materialParams r) (globalIlluminationModel r)
    (edgeParams r) (edgeDetectionFlags r) (lights r) (shadowMaps r) (stats r) (totalTime r)
    (glNext r) (depthTextures r) t (gBuffer r) (lightingTexture r)
    (edgeTexture r) (screen r) (hybridCelUniforms r).
Definition set_gBuffer (g : GBuffer) (r : Renderer) : Renderer :=
  MkRenderer (setup r) (shadowParams r) (materialParams r) (globalIlluminationModel r)
    (edgeParams r) (edgeDetectionFlags r) (lights r) (shadowMaps r) (stats r) (totalTime r)
    (glNext r) (depthTextures r) (cubeTextures r) g (lightingTexture r)
    (edgeTexture r) (screen r) (hybridCelUniforms r).
Definition set_lightingTexture (t : sampler2D) (r : Renderer) : Renderer :=
  MkRenderer (setup r) (shadowParams r) (materialParams r) (globalIlluminationModel r)
    (edgeParams r) (edgeDetectionFlags r) (lights r) (shadowMaps r) (stats r) (totalTime r)
    (glNext r) (depthTextures r) (cubeTextures r) (gBuffer r) t
    (edgeTexture r) (screen r) (hybridCelUniforms r).
Definition set_edgeTexture (t : sampler2D) (r : Renderer) : Renderer :=
  MkRenderer (setup r) (shadowParams r) (materialParams r) (globalIlluminationModel r)
    (edgeParams r) (edgeDetectionFlags r) (lights r) (shadowMaps r) (stats r) (totalTime r)
    (glNext r) (depthTextures r) (cubeTextures r) (gBuffer r) (lightingTexture r)
    t (screen r) (hybridCelUniforms r).
Definition set_screen (t : vec2 -> vec4) (r : Renderer) : Renderer :=
  MkRenderer (setup r) (shadowParams r) (materialParams r) (globalIlluminationModel r)
    (edgeParams r) (edgeDetectionFlags r) (lights r) (shadowMaps r) (stats r) (totalTime r)
    (glNext r) (depthTextures r) (cubeTextures r) (gBuffer r) (lightingTexture r)
    (edgeTexture r) t (hybridCelUniforms r).
Definition set_hybridCelUniforms (u : HybridCelLighting.Uniforms) (r : Renderer)
    : Renderer :=
  MkRenderer (setup r) (shadowParams r) (materialParams r) (globalIlluminationModel r)
    (edgeParams r) (edgeDetectionFlags r) (lights r) (shadowMaps r) (stats r) (totalTime r)
    (glNext r) (depthTextures r) (cubeTextures r) (gBuffer r) (lightingTexture r)
    (edgeTexture r) (screen r) u.

(** *** Observable calls

    The calls that create or free GPU objects, and the draws; sampler
    state, bindings and uniform uploads are not traced. *)
Inductive Event :=
| glGenFramebuffers (name : N)
| glGenTextures (name : N)
| glDeleteFramebuffers (name : N)
| glDeleteTextures (name : N)
(** depth storage for the bound texture; [Some k] is cube face [k] *)
| glTexImage2D (face : option nat) (size : Z)
(** renderShadowMapForLight entered for the light at this index *)
| renderShadowMapForLight_call (lightIndex : nat)
(** [model->draw()] *)
| Model_draw (m : Model)
(** renderQuad() *)
| renderQuad_call.

(** A member function: the renderer after the call and the calls made. *)
Definition Cmd : Type := Renderer -> Renderer * list Event.

Definition skip : Cmd := fun r => (r, []).

Definition andThen (c1 c2 : Cmd) : Cmd :=
  fun r =>
    let '(r1, e1) := c1 r in
    let '(r2, e2) := c2 r1 in
    (r2, e1 ++ e2).

Declare Scope cmd_scope.
Delimit Scope cmd_scope with cmd.
Bind Scope cmd_scope with Cmd.
Notation "c1 ;; c2" := (andThen c1 c2) (at level 100, c2 at level 200) : cmd_scope.

(** [for (size_t i = from; i < from + count; ++i) body(i)] *)
Fixpoint forLoop (count from : nat) (body : nat -> Cmd) : Cmd :=
  match count with
  | O => skip
  | S count' => andThen (body from) (forLoop count' (S from) body)
  end.

Definition run (c : Cmd) (r : Renderer) : Renderer := fst (c r).
Definition calls (c : Cmd) (r : Renderer) : list Event := snd (c r).


(** [for (i = from; i < from + count; ++i) s = body(i, s)], without calls *)
Fixpoint iterate {St : Type} (count from : nat) (body : nat -> St -> St) (s : St) : St :=
  match count with
  | O => s
  | S count' => iterate count' (S from) body (body from s)
  end.

(** [arr[i] = x] on a uniform array *)
Definition upd {A : Type} (arr : nat -> A) (i : nat) (x : A) : nat -> A :=
  fun j => if (j =? i)%nat then x else arr j.

(** *** Shadow-map resources *)

Definition cleanupShadowMap (shadowData : ShadowMapData) : ShadowMapData * list Event :=
  let e1 := if (FBO shadowData =? 0)%N then []
            else [glDeleteFramebuffers (FBO shadowData)] in
  let e2 := if (depthMap shadowData =? 0)%N then []
            else [glDeleteTextures (depthMap shadowData)] in
  let e3 := if (depthCubemap shadowData =? 0)%N then []
            else [glDeleteTextures (depthCubemap shadowData)] in
  ({| FBO := 0;
      depthMap := 0;
      depthCubemap := 0;
      lightSpaceMatrix := lightSpaceMatrix shadowData;
      shadowTransforms := shadowTransforms shadowData;
      isActive := false;
      type := type shadowData;
      size := size shadowData;
      hasRendered := false |},
   e1 ++ e2 ++ e3).

Definition requiredSizeFor (p : ShadowParams) (light : Lighting.Light) : Z :=
  if bool_decide (Lighting.type light = Lighting.POINT)
  then cubeShadowMapSize p else shadowMapSize p.

(** the guard "Reallocate if type or size changed" *)
Definition needsReallocation (p : ShadowParams) (light : Lighting.Light)
    (shadowData : ShadowMapData) : bool :=
  negb (isActive shadowData)
  || negb (bool_decide (type shadowData = Lighting.type light))
  || negb (size shadowData =? requiredSizeFor p light)%Z
  || negb (Lighting.castShadows light).

(** the allocation part of the loop body of updateShadowMaps: a framebuffer
    and a depth texture (cube map for a point light) of the required size *)
Definition allocateShadowMap (light : Lighting.Light) (requiredSize : Z) (next : N)
    (shadowData : ShadowMapData) : ShadowMapData * N * list Event :=
  let fbo := next in
  let tex := N.succ next in
  if bool_decide (Lighting.type light = Lighting.POINT) then
    ({| FBO := fbo;
        depthMap := depthMap shadowData;
        depthCubemap := tex;
        lightSpaceMatrix := lightSpaceMatrix shadowData;
        shadowTransforms := shadowTransforms shadowData;
        isActive := true;
        type := Lighting.type light;
        size := requiredSize;
        hasRendered := hasRendered shadowData |},
     N.succ tex,
     glGenFramebuffers fbo :: glGenTextures tex
       :: map (fun i => glTexImage2D (Some i) requiredSize) (seq 0 6))
  else
    ({| FBO := fbo;
        depthMap := tex;
        depthCubemap := depthCubemap shadowData;
        lightSpaceMatrix := lightSpaceMatrix shadowData;
        shadowTransforms := shadowTransforms shadowData;
        isActive := true;
        type := Lighting.type light;
        size := requiredSize;
        hasRendered := hasRendered shadowData |},
     N.succ tex,
     [glGenFramebuffers fbo; glGenTextures tex; glTexImage2D None requiredSize]).

(** body of the first loop of updateShadowMaps, at index [i] *)
Definition updateShadowMap (i : nat) : Cmd :=
  fun r =>
    match lights r !! i, shadowMaps r !! i with
    | Some light, Some shadowData =>
        let requiredSize := requiredSizeFor (shadowParams r) light in
        if needsReallocation (shadowParams r) light shadowData then
          let '(d1, e1) :=
            if isActive shadowData then cleanupShadowMap shadowData
            else (shadowData, []) in
          if negb (Lighting.castShadows light) then
            (set_shadowMaps (<[i := d1]> (shadowMaps r)) r, e1)
          else
            let '(d2, next, e2) := allocateShadowMap light requiredSize (glNext r) d1 in
            (set_glNext next (set_shadowMaps (<[i := d2]> (shadowMaps r)) r), e1 ++ e2)
        else (r, [])
    | _, _ => (r, [])
    end.

(** body of the second loop of updateShadowMaps *)
Definition removeUnusedShadowMap (i : nat) : Cmd :=
  fun r =>
    match shadowMaps r !! i with
    | Some shadowData =>
        if isActive shadowData then
          let '(d1, e1) := cleanupShadowMap shadowData in
          (set_shadowMaps (<[i := d1]> (shadowMaps r)) r, e1)
        else (r, [])
    | None => (r, [])
    end.

Definition shadowLightCount (r : Renderer) : nat :=
  Nat.min (length (lights r)) MAX_SHADOW_CASTING_LIGHTS.

Definition updateShadowMaps : Cmd :=
  fun r =>
    let lightCount := shadowLightCount r in
    andThen (forLoop lightCount 0 updateShadowMap)
            (forLoop (length (shadowMaps r) - lightCount) lightCount removeUnusedShadowMap)
            r.

(** *** Drawing *)

Definition resetStats : Cmd := fun r => (set_stats (MkStats 0 0) r, []).

Definition renderModel (model : option Model) (shader : bool) : Cmd :=
  fun r =>
    match model with
    | Some m =>
        if shader then
          (set_stats
             (MkStats ((drawCalls (stats r) + 1) mod UINT_MOD)
                      ((vertexCount (stats r) + getVertexCount m) mod UINT_MOD)) r,
           [Model_draw m])
        else (r, [])
    | None => (r, [])
    end.

Definition renderModels (models : list (option Model)) (shader : bool) : Cmd :=
  foldr (fun m rest => andThen (renderModel m shader) rest) skip models.

Definition renderScene (shader : bool) : Cmd :=
  fun r => renderModels (sceneModels (setup r)) shader r.

Definition renderQuad : Cmd := fun r => (r, [renderQuad_call]).

(** *** Shadow pass *)

(** world up, or world X where the direction is nearly parallel to it (the
    render functions write [abs], calculateLightSpaceMatrix writes [fabs];
    both are read as the absolute value of a float) *)
Definition shadowUp (lightDir : vec3) : vec3 :=
  let up := Vec3 0 1 0 in
  if fgtb (Rabs (dot3 lightDir up)) (99 / 100) then Vec3 1 0 0 else up.

Definition directionalLightSpaceMatrix (p : ShadowParams) (light : Lighting.Light) : mat4 :=
  let lightProjection :=
    GLM.ortho (- orthoSize p) (orthoSize p) (- orthoSize p) (orthoSize p)
              (nearPlane p) (farPlane p) in
  let lightDir := normalize (Lighting.direction light) in
  let lightPos := scale3 (neg3 lightDir) (farPlane p * (5 / 10)) in
  let up := shadowUp lightDir in
  let lightView := GLM.lookAt lightPos (splat3 0) up in
  mulMM lightProjection lightView.

(** the matrix renderSpotShadow stores in [shadowData.lightSpaceMatrix] *)
Definition spotLightSpaceMatrix (p : ShadowParams) (light : Lighting.Light) : mat4 :=
  let spotAngle := GLM.degrees (acos (Lighting.cutOff light)) * 2 in
  let lightProjection :=
    GLM.perspective (GLM.radians spotAngle) 1 (nearPlane p) (farPlane p) in
  let lightTarget := add3 (Lighting.position light) (Lighting.direction light) in
  let up := shadowUp (normalize (Lighting.direction light)) in
  let lightView := GLM.lookAt (Lighting.position light) lightTarget up in
  mulMM lightProjection lightView.

Definition pointShadowTransforms (p : ShadowParams) (light : Lighting.Light) : list mat4 :=
  let aspect := 1 in
  let shadowProj := GLM.perspective (GLM.radians 90) aspect (nearPlane p) (farPlane p) in
  let pos := Lighting.position light in
  [ mulMM shadowProj (GLM.lookAt pos (add3 pos (Vec3 1 0 0)) (Vec3 0 (-1) 0));
    mulMM shadowProj (GLM.lookAt pos (add3 pos (Vec3 (-1) 0 0)) (Vec3 0 (-1) 0));
    mulMM shadowProj (GLM.lookAt pos (add3 pos (Vec3 0 1 0)) (Vec3 0 0 1));
    mulMM shadowProj (GLM.lookAt pos (add3 pos (Vec3 0 (-1) 0)) (Vec3 0 0 (-1)));
    mulMM shadowProj (GLM.lookAt pos (add3 pos (Vec3 0 0 1)) (Vec3 0 (-1) 0));
    mulMM shadowProj (GLM.lookAt pos (add3 pos (Vec3 0 0 (-1))) (Vec3 0 (-1) 0)) ].

Definition set_lightSpaceMatrix (m : mat4) (d : ShadowMapData) : ShadowMapData :=
  MkShadowMapData (FBO d) (depthMap d) (depthCubemap d) m (shadowTransforms d)
                  (isActive d) (type d) (size d) (hasRendered d).
Definition set_shadowTransforms (t : list mat4) (d : ShadowMapData) : ShadowMapData :=
  MkShadowMapData (FBO d) (depthMap d) (depthCubemap d) (lightSpaceMatrix d) t
                  (isActive d) (type d) (size d) (hasRendered d).
Definition set_hasRendered (b : bool) (d : ShadowMapData) : ShadowMapData :=
  MkShadowMapData (FBO d) (depthMap d) (depthCubemap d) (lightSpaceMatrix d)
                  (shadowTransforms d) (isActive d) (type d) (size d) b.

(** [shadowData] is [shadowMaps[i]], passed by reference *)
Definition onSlot (i : nat) (f : ShadowMapData -> ShadowMapData) : Cmd :=
  fun r =>
    match shadowMaps r !! i with
    | Some d => (set_shadowMaps (<[i := f d]> (shadowMaps r)) r, [])
    | None => (r, [])
    end.

Definition slotOr (r : Renderer) (i : nat) : ShadowMapData :=
  default ShadowMapData_default (shadowMaps r !! i).

Definition renderFlatShadow (i : nat) (matrix : mat4) : Cmd :=
  (onSlot i (set_lightSpaceMatrix matrix) ;;
   (fun r => renderScene (shadowMapShader (shaders (setup r))) r) ;;
   (fun r =>
      (set_depthTextures
         (fun name =>
            if (name =? depthMap (slotOr r i))%N
            then rasterDepth (setup r) matrix (shadowMapSize (shadowParams r))
            else depthTextures r name) r, [])))%cmd.

Definition renderDirectionalShadow (i : nat) (light : Lighting.Light) : Cmd :=
  fun r => renderFlatShadow i (directionalLightSpaceMatrix (shadowParams r) light) r.

Definition renderSpotShadow (i : nat) (light : Lighting.Light) : Cmd :=
  fun r => renderFlatShadow i (spotLightSpaceMatrix (shadowParams r) light) r.

Definition renderPointShadow (i : nat) (light : Lighting.Light) : Cmd :=
  fun r =>
    if negb (pointShadowShader (shaders (setup r))) then (r, [])
    else
      let transforms := pointShadowTransforms (shadowParams r) light in
      (onSlot i (set_shadowTransforms transforms) ;;
       (fun r => renderScene (pointShadowShader (shaders (setup r))) r) ;;
       (fun r =>
          (set_cubeTextures
             (fun name =>
                if (name =? depthCubemap (slotOr r i))%N
                then rasterDepthCube (setup r) transforms (Lighting.position light)
                                     (farPlane (shadowParams r))
                                     (cubeShadowMapSize (shadowParams r))
                else cubeTextures r name) r, [])))%cmd r.

Definition renderShadowMapForLight (lightIndex : nat) (light : Lighting.Light) : Cmd :=
  andThen (fun r => (r, [renderShadowMapForLight_call lightIndex]))
          (match Lighting.type light with
           | Lighting.DIRECTIONAL => renderDirectionalShadow lightIndex light
           | Lighting.POINT => renderPointShadow lightIndex light
           | Lighting.SPOT => renderSpotShadow lightIndex light
           end).

(** loop body of shadowMapPass *)
Definition shadowMapPass_light (i : nat) : Cmd :=
  fun r =>
    match lights r !! i, shadowMaps r !! i with
    | Some light, Some shadowData =>
        if negb (isActive shadowData) then (r, [])
        else if Lighting.isStatic light && hasRendered shadowData then (r, [])
        else andThen (renderShadowMapForLight i light)
                     (onSlot i (set_hasRendered true)) r
    | _, _ => (r, [])
    end.

Definition shadowMapPass : Cmd :=
  fun r =>
    if negb (shadowMapShader (shaders (setup r)))
       || negb (pointShadowShader (shaders (setup r)))
    then (r, [])
    else forLoop (shadowLightCount r) 0 shadowMapPass_light r.


(** *** Light animation *)

(** [(int)x]: truncation towards zero *)
Definition truncToInt (x : R) : Z :=
  if fleb 0 x then Int_part x else (- Int_part (- x))%Z.

(** the lambda [updateCelestia] of updateLights *)
Definition updateCelestia (light : Lighting.Light) (t startT endT maxI minI : R)
    : Lighting.Light :=
  let tilt := GLM.radians 45 in
  let cosTilt := cos tilt in
  let sinTilt := sin tilt in
  let windowSize := endT - startT in
  let relativeT := t - startT in
  let relativeT := if fltb relativeT 0 then relativeT + 1 else relativeT in
  if fleb relativeT windowSize then
    let windowProgress := relativeT / windowSize in
    let angle := windowProgress * PI in
    let orbitalY := sin angle in
    let orbitalX := cos angle in
    let worldY := orbitalY * cosTilt in
    let worldZ := orbitalY * sinTilt in
    let worldX := orbitalX in
    let dir := Vec3 (- worldX) (- worldY) (- worldZ) in
    let light := Lighting.set_direction (normalize dir) light in
    let ramp := smoothstep 0 (2 / 10) worldY in
    Lighting.set_intensity (mix minI maxI ramp) light
  else
    let light := Lighting.set_intensity 0 light in
    Lighting.set_direction (normalize (Vec3 (-1) 0 0)) light.

(** the body of the flicker loop, for one light *)
Definition flickerLight (totalTime : R) (light : Lighting.Light) : Lighting.Light :=
  if Lighting.flicker light then
    let pos := Lighting.position light in
    let seed := x3 pos * (129898 / 10000) + y3 pos * (78233 / 1000)
                + z3 pos * (43123 / 1000) in
    let timeOffset := totalTime + IZR (Z.rem (truncToInt seed) 100) / 10 in
    let noise := (sin (timeOffset * 3) + sin (timeOffset * (53 / 10) + 12 / 10)
                  + sin (timeOffset * (77 / 10) + 35 / 10)) * (33 / 100) in
    let light :=
      Lighting.set_intensity (Lighting.baseIntensity light * (1 + noise * (8 / 100)))
                             light in
    let colorOffset := Vec3 (noise * (3 / 100)) (noise * (1 / 100)) 0 in
    Lighting.set_color (clamp3 (add3 (Lighting.baseColor light) colorOffset) 0 1) light
  else light.

Definition updateLights (deltaTime : R) : Cmd :=
  fun r =>
    let totalTime := totalTime r + deltaTime in
    let lights :=
      match lights r with
      | sun :: moon :: rest =>
          let cycleSpeed := 1 / 100 in
          let rawTime := totalTime * cycleSpeed in
          let progress := rawTime - floor rawTime in
          let sun := updateCelestia sun progress 0 (55 / 100) 1 0 in
          let moon := updateCelestia moon progress (50 / 100) (105 / 100) (5 / 10) 0 in
          let sun :=
            Lighting.set_castShadows (fgtb (Lighting.intensity sun) (1 / 1000)) sun in
          let moon :=
            Lighting.set_castShadows (fgtb (Lighting.intensity moon) (1 / 1000)) moon in
          sun :: moon :: rest
      | lights => lights
      end in
    let lights := map (flickerLight totalTime) lights in
    (set_lights lights (set_totalTime totalTime r), []).

(** *** Geometry, lighting, edge and composite passes *)

(** the colour [glClear] leaves: the main loop sets
    [glClearColor(0.1, 0.1, 0.1, 1.0)] before every frame *)
Definition clearColor : vec4 := Vec4 (1 / 10) (1 / 10) (1 / 10) 1.

Definition cleared (r : Renderer) : sampler2D :=
  Sampler2D (fun _ => clearColor) (width (setup r), height (setup r)).

Definition geometryPass (camera : Camera) : Cmd :=
  fun r =>
    let shader := geometryShader (shaders (setup r)) in
    let r := set_gBuffer (rasterGBuffer (setup r) camera shader) r in
    if shader then renderModels (geometryModels (setup r)) shader r else (r, []).

Definition toShaderLight (light : Lighting.Light) : HybridCelLighting.Light :=
  {| HybridCelLighting.type := Lighting.LightType_to_int (Lighting.type light);
     HybridCelLighting.position := Lighting.position light;
     HybridCelLighting.direction := Lighting.direction light;
     HybridCelLighting.color := Lighting.color light;
     HybridCelLighting.intensity := Lighting.intensity light;
     HybridCelLighting.constant := Lighting.constant light;
     HybridCelLighting.linear := Lighting.linear light;
     HybridCelLighting.quadratic := Lighting.quadratic light;
     HybridCelLighting.cutOff := Lighting.cutOff light;
     HybridCelLighting.outerCutOff := Lighting.outerCutOff light;
     HybridCelLighting.castShadows := Lighting.castShadows light |}.

(** body of the loop "Bind shadow maps": the sampler and matrix uniforms of
    slot [i]; an inactive slot keeps what earlier frames left there *)
Definition bindShadowMap (r : Renderer) (i : nat)
    (u : (nat -> sampler2D) * (nat -> samplerCube) * (nat -> mat4))
    : (nat -> sampler2D) * (nat -> samplerCube) * (nat -> mat4) :=
  let '(maps, cubes, matrices) := u in
  match lights r !! i, shadowMaps r !! i with
  | Some light, Some shadowData =>
      if negb (isActive shadowData) then u
      else if bool_decide (Lighting.type light = Lighting.POINT) then
        (maps, upd cubes i (cubeTextures r (depthCubemap shadowData)), matrices)
      else
        (upd maps i (depthTextures r (depthMap shadowData)), cubes,
         upd matrices i (lightSpaceMatrix shadowData))
  | _, _ => u
  end.

(** body of the loop "Upload light properties to shader" *)
Definition uploadLight (r : Renderer) (i : nat)
    (arr : nat -> HybridCelLighting.Light) : nat -> HybridCelLighting.Light :=
  match lights r !! i with
  | Some light => upd arr i (toShaderLight light)
  | None => arr
  end.

(** the uniform store of the lighting program after the uploads of
    lightingPass *)
Definition lightingUniforms (r : Renderer) (camera : Camera) : HybridCelLighting.Uniforms :=
  let old := hybridCelUniforms r in
  let lightCount := shadowLightCount r in
  let bound :=
    iterate lightCount 0 (bindShadowMap r)
            (HybridCelLighting.shadowMaps old, HybridCelLighting.shadowCubeMaps old,
             HybridCelLighting.lightSpaceMatrices old) in
  {| HybridCelLighting.gBaseColor := gBaseColor (gBuffer r);
     HybridCelLighting.gNormal := gNormal (gBuffer r);
     HybridCelLighting.gPosition := gPosition (gBuffer r);
     HybridCelLighting.gQuantization := gQuantization (gBuffer r);
     HybridCelLighting.shadowMaps := fst (fst bound);
     HybridCelLighting.shadowCubeMaps := snd (fst bound);
     HybridCelLighting.lightSpaceMatrices := snd bound;
     HybridCelLighting.shadowBias := shadowBias (shadowParams r);
     HybridCelLighting.shadowNormalBias := shadowNormalBias (shadowParams r);
     HybridCelLighting.shadowPCFSamples := shadowPCFSamples (shadowParams r);
     HybridCelLighting.shadowIntensity := shadowIntensity (shadowParams r);
     HybridCelLighting.enablePCF := enablePCF (shadowParams r);
     HybridCelLighting.shadowFarPlane := farPlane (shadowParams r);
     HybridCelLighting.numLights := Z.of_nat lightCount;
     HybridCelLighting.lights :=
       iterate lightCount 0 (uploadLight r) (HybridCelLighting.lights old);
     HybridCelLighting.viewPos := Position camera;
     HybridCelLighting.diffuseQuantizationBands :=
       diffuseQuantizationBands (materialParams r);
     HybridCelLighting.specularThreshold1 := specularThreshold1 (materialParams r);
     HybridCelLighting.specularThreshold2 := specularThreshold2 (materialParams r);
     HybridCelLighting.enableQuantization := enableQuantization (materialParams r);
     HybridCelLighting.globalMaterialType := globalIlluminationModel r |}.

Definition lightingPass (camera : Camera) : Cmd :=
  fun r =>
    if hybridCelShader (shaders (setup r)) then
      let u := lightingUniforms r camera in
      let lit :=
        Sampler2D (HybridCelLighting.main u) (width (setup r), height (setup r)) in
      andThen (fun r => (set_lightingTexture lit (set_hybridCelUniforms u r), []))
              renderQuad r
    else (set_lightingTexture (cleared r) r, []).

Definition edgeUniforms (r : Renderer) : EdgeDetection.Uniforms :=
  {| EdgeDetection.gPosition := gPosition (gBuffer r);
     EdgeDetection.gNormal := gNormal (gBuffer r);
     EdgeDetection.gDepth := gDepth (gBuffer r);
     EdgeDetection.colorTexture := lightingTexture r;
     EdgeDetection.edgeFlags := edgeDetectionFlags r;
     EdgeDetection.depthThreshold := depthThreshold (edgeParams r);
     EdgeDetection.normalThreshold := normalThreshold (edgeParams r);
     EdgeDetection.sobelThreshold := sobelThreshold (edgeParams r);
     EdgeDetection.colorThreshold := colorThreshold (edgeParams r);
     EdgeDetection.edgeColor := edgeColor (edgeParams r);
     EdgeDetection.screenSize := Vec2 (IZR (width (setup r))) (IZR (height (setup r)));
     EdgeDetection.depthExponent := depthExponent (edgeParams r);
     EdgeDetection.normalSplit := normalSplit (edgeParams r);
     EdgeDetection.sobelScale := sobelScale (edgeParams r);
     EdgeDetection.smoothWidth := smoothWidth (edgeParams r);
     EdgeDetection.laplacianThreshold := laplacianThreshold (edgeParams r);
     EdgeDetection.laplacianScale := laplacianScale (edgeParams r) |}.

(** the edge texture is an 8-bit RGBA target; its texels are taken to hold
    the shader's output as it is *)
Definition edgeDetectionPass : Cmd :=
  fun r =>
    if edgeDetectionShader (shaders (setup r)) then
      let edges :=
        Sampler2D (EdgeDetection.main (edgeUniforms r))
                  (width (setup r), height (setup r)) in
      andThen (fun r => (set_edgeTexture edges r, [])) renderQuad r
    else (set_edgeTexture (cleared r) r, []).

Definition compositeUniforms (r : Renderer) : Composite.Uniforms :=
  {| Composite.lightingTexture := lightingTexture r;
     Composite.edgeTexture := edgeTexture r;
     Composite.enableOutlining := enableOutlining (edgeParams r) |}.

Definition compositePass : Cmd :=
  fun r =>
    if compositeShader (shaders (setup r)) then
      andThen (fun r => (set_screen (Composite.main (compositeUniforms r)) r, []))
              renderQuad r
    else (set_screen (fun _ => clearColor) r, []).

(** *** One frame *)

Definition render (camera : Camera) : Cmd :=
  (resetStats ;;
   updateShadowMaps ;;
   updateLights (16 / 1000) ;;
   shadowMapPass ;;
   geometryPass camera ;;
   lightingPass camera ;;
   edgeDetectionPass ;;
   compositePass)%cmd.

(** *** Construction *)

(** a torch of initializeLights: a static, flickering, shadow-casting
    point light *)
Definition torchLight (p : vec3) : Lighting.Light :=
  let t := Lighting.createPointLight p (Vec3 1 (6 / 10) (2 / 10)) 1 in
  let t := Lighting.set_castShadows true t in
  let t := Lighting.set_isStatic true t in
  Lighting.set_flicker true t.

(** sun and moon of initializeLights *)
Definition celestialLight (d c : vec3) : Lighting.Light :=
  let l := Lighting.createDirectionalLight d c 1 in
  let l := Lighting.set_castShadows true l in
  let l := Lighting.set_isStatic false l in
  Lighting.set_flicker false l.

Definition initializeLights : list Lighting.Light :=
  let lights := Lighting.clearLights Lighting.LightManager_init in
  let lights :=
    Lighting.addLight (celestialLight (Vec3 0 (-1) 0) (Vec3 1 1 (984 / 1000))) lights in
  let lights :=
    Lighting.addLight
      (celestialLight (Vec3 0 1 0) (Vec3 (839 / 1000) (863 / 1000) (890 / 1000)))
      lights in
  let lights := Lighting.addLight (torchLight (Vec3 (-6) (19 / 10) (-96 / 10))) lights in
  let lights := Lighting.addLight (torchLight (Vec3 (-96 / 10) (19 / 10) (-6))) lights in
  let lights := Lighting.addLight (torchLight (Vec3 (96 / 10) (19 / 10) 6)) lights in
  let lights := Lighting.addLight (torchLight (Vec3 (-96 / 10) (19 / 10) 6)) lights in
  let lights := Lighting.addLight (torchLight (Vec3 (-16 / 10) (59 / 10) 6)) lights in
  let lights := Lighting.addLight (torchLight (Vec3 6 (59 / 10) (96 / 10))) lights in
  lights.

(** [initializeShadowMapping]: [shadowMaps.resize(MAX_SHADOW_CASTING_LIGHTS)] *)
Definition initializeShadowMapping : list ShadowMapData :=
  replicate MAX_SHADOW_CASTING_LIGHTS ShadowMapData_default.

End Renderer.

(** ** Vocabulary of the shadow-slot properties *)

Module Slots.

(** An inactive slot has not been rendered. *)
Definition coherent (d : Renderer.ShadowMapData) : Prop :=
  Renderer.isActive d = false -> Renderer.hasRendered d = false.

Definition allCoherent (r : Renderer.Renderer) : Prop :=
  forall i d, Renderer.shadowMaps r !! i = Some d -> coherent d.

(** Slot [j] of a light that exists needs nothing from updateShadowMaps:
    it matches its light, or the light casts no shadow and the slot is
    inactive. *)
Definition settledLit (r : Renderer.Renderer) (j : nat) : Prop :=
  match Renderer.lights r !! j, Renderer.shadowMaps r !! j with
  | Some light, Some d =>
      Renderer.needsReallocation (Renderer.shadowParams r) light d = false
      \/ (Lighting.castShadows light = false /\ Renderer.isActive d = false)
  | _, _ => True
  end.

(** Slot [j] beyond the lights is inactive. *)
Definition settledUnused (r : Renderer.Renderer) (j : nat) : Prop :=
  match Renderer.shadowMaps r !! j with
  | Some d => Renderer.isActive d = false
  | None => True
  end.

(** [r'] differs from [r] in its shadow slots, GL names and textures at
    most. *)
Definition sameLights (r r' : Renderer.Renderer) : Prop :=
  Renderer.lights r' = Renderer.lights r
  /\ Renderer.shadowParams r' = Renderer.shadowParams r
  /\ Renderer.setup r' = Renderer.setup r
  /\ length (Renderer.shadowMaps r') = length (Renderer.shadowMaps r).

(** [r'] differs from [r] at most in slot [i] (and GL names, textures,
    statistics). *)
Definition touchesOnly (i : nat) (r r' : Renderer.Renderer) : Prop :=
  sameLights r r'
  /\ forall j, j <> i -> Renderer.shadowMaps r' !! j = Renderer.shadowMaps r !! j.

(** Slot [i] keeps its [isActive] flag, and its [hasRendered] flag too if
    [rendered] is set. *)
Definition keepsFlags (rendered : bool) (i : nat) (r r' : Renderer.Renderer) : Prop :=
  forall d, Renderer.shadowMaps r !! i = Some d ->
    exists d', Renderer.shadowMaps r' !! i = Some d'
               /\ Renderer.isActive d' = Renderer.isActive d
               /\ (rendered = true -> Renderer.hasRendered d' = Renderer.hasRendered d).

(** the counters after the draws among [events], starting from [st] *)
Definition tally (st : Renderer.Stats) (events : list Renderer.Event) : Renderer.Stats :=
  foldl (fun st e =>
           match e with
           | Renderer.Model_draw m =>
               Renderer.MkStats
                 ((Renderer.drawCalls st + 1) mod Renderer.UINT_MOD)
                 ((Renderer.vertexCount st + Renderer.getVertexCount m)
                    mod Renderer.UINT_MOD)
           | _ => st
           end) st events.

Definition isDraw (e : Renderer.Event) : bool :=
  match e with Renderer.Model_draw _ => true | _ => false end.

(** a command whose effect on the counters is that of the model draws it
    issues *)
Definition accounted (c : Renderer.Cmd) : Prop :=
  forall r, Renderer.stats (Renderer.run c r)
            = tally (Renderer.stats r) (Renderer.calls c r).



End Slots.

(** ** Concrete inputs for the examples *)

Module Sample.

Definition zero3 : vec3 := Vec3 0 0 0.
Definition zero4 : vec4 := Vec4 0 0 0 0.

Definition flat2D (c : vec4) : sampler2D := Sampler2D (fun _ => c) (1, 1)%Z.
Definition flatCube (c : vec4) : samplerCube := SamplerCube (fun _ => c).

Definition identity4 : mat4 :=
  Mat4 (Vec4 1 0 0 0) (Vec4 0 1 0 0) (Vec4 0 0 1 0) (Vec4 0 0 0 1).

Definition darkLight : HybridCelLighting.Light :=
  HybridCelLighting.MkLight 1 zero3 (Vec3 0 (-1) 0) zero3 0 1 0 0 0 0 false.

(** Every shadow map stores depth 0, so every fragment away from the light
    fails the depth test; no filtering, no bias. *)
Definition occluded (shadowIntensity : R) : HybridCelLighting.Uniforms :=
  {| HybridCelLighting.gBaseColor := flat2D zero4;
     HybridCelLighting.gNormal := flat2D zero4;
     HybridCelLighting.gPosition := flat2D zero4;
     HybridCelLighting.gQuantization := flat2D zero4;
     HybridCelLighting.shadowMaps := fun _ => flat2D zero4;
     HybridCelLighting.shadowCubeMaps := fun _ => flatCube zero4;
     HybridCelLighting.lightSpaceMatrices := fun _ => identity4;
     HybridCelLighting.shadowBias := 0;
     HybridCelLighting.shadowNormalBias := 0;
     HybridCelLighting.shadowPCFSamples := 0;
     HybridCelLighting.shadowIntensity := shadowIntensity;
     HybridCelLighting.enablePCF := false;
     HybridCelLighting.shadowFarPlane := 50;
     HybridCelLighting.numLights := 0;
     HybridCelLighting.lights := fun _ => darkLight;
     HybridCelLighting.viewPos := zero3;
     HybridCelLighting.diffuseQuantizationBands := 5;
     HybridCelLighting.specularThreshold1 := 3 / 10;
     HybridCelLighting.specularThreshold2 := 7 / 10;
     HybridCelLighting.enableQuantization := true;
     HybridCelLighting.globalMaterialType := 0 |}.

(** Constant G-buffer and lit-scene textures at 1920x1080, depth 1
    everywhere, all other parameters at the defaults of [EdgeParams]. *)
Definition flatScene (normal lit : vec3) (flags : Z) (depthThreshold smoothWidth : R)
    (edgeColor : vec3) : EdgeDetection.Uniforms :=
  {| EdgeDetection.gPosition := flat2D zero4;
     EdgeDetection.gNormal := flat2D (vec4_of normal 0);
     EdgeDetection.gDepth := flat2D (Vec4 1 1 1 1);
     EdgeDetection.colorTexture := flat2D (vec4_of lit 1);
     EdgeDetection.edgeFlags := flags;
     EdgeDetection.depthThreshold := depthThreshold;
     EdgeDetection.normalThreshold := 5 / 10;
     EdgeDetection.sobelThreshold := 3 / 10;
     EdgeDetection.colorThreshold := 2 / 10;
     EdgeDetection.edgeColor := edgeColor;
     EdgeDetection.screenSize := Vec2 1920 1080;
     EdgeDetection.depthExponent := 1;
     EdgeDetection.normalSplit := 5 / 10;
     EdgeDetection.sobelScale := 1;
     EdgeDetection.smoothWidth := smoothWidth;
     EdgeDetection.laplacianThreshold := 5 / 10;
     EdgeDetection.laplacianScale := 1 |}.


Definition crate : Renderer.Model := Renderer.MkModel 3 false 0.

Definition allShaders : Renderer.Shaders :=
  Renderer.MkShaders true true true true true true.

Definition flatGBuffer : Renderer.GBuffer :=
  Renderer.MkGBuffer (flat2D zero4) (flat2D zero4) (flat2D zero4) (flat2D zero4)
                     (flat2D (Vec4 1 1 1 1)).

(** a scene of one model, drawn once by renderScene and once by the
    geometry pass *)
Definition oneCrate : Renderer.Setup :=
  {| Renderer.width := 1920;
     Renderer.height := 1080;
     Renderer.shaders := allShaders;
     Renderer.sceneModels := [Some crate];
     Renderer.geometryModels := [Some crate];
     Renderer.rasterDepth := fun _ _ => flat2D (Vec4 1 1 1 1);
     Renderer.rasterDepthCube := fun _ _ _ _ => flatCube (Vec4 1 1 1 1);
     Renderer.rasterGBuffer := fun _ _ => flatGBuffer |}.

Definition defaultEdgeParams : Renderer.EdgeParams :=
  {| Renderer.enableOutlining := true;
     Renderer.depthThreshold := 1 / 10;
     Renderer.normalThreshold := 5 / 10;
     Renderer.sobelThreshold := 3 / 10;
     Renderer.colorThreshold := 2 / 10;
     Renderer.edgeWidth := 1;
     Renderer.edgeColor := zero3;
     Renderer.depthExponent := 1;
     Renderer.normalSplit := 5 / 10;
     Renderer.sobelScale := 1;
     Renderer.smoothWidth := 1;
     Renderer.laplacianThreshold := 5 / 10;
     Renderer.laplacianScale := 1 |}.

(** the renderer as its constructor leaves it, with the given lights *)
Definition constructed (setup : Renderer.Setup) (lights : list Lighting.Light)
    : Renderer.Renderer :=
  {| Renderer.setup := setup;
     Renderer.shadowParams := Renderer.ShadowParams_default;
     Renderer.materialParams := Renderer.MkMaterialParams true 5 (3 / 10) (7 / 10);
     Renderer.globalIlluminationModel := 0;
     Renderer.edgeParams := defaultEdgeParams;
     Renderer.edgeDetectionFlags := 1;
     Renderer.lights := lights;
     Renderer.shadowMaps := Renderer.initializeShadowMapping;
     Renderer.stats := Renderer.MkStats 0 0;
     Renderer.totalTime := 0;
     Renderer.glNext := 1;
     Renderer.depthTextures := fun _ => flat2D zero4;
     Renderer.cubeTextures := fun _ => flatCube zero4;
     Renderer.gBuffer := flatGBuffer;
     Renderer.lightingTexture := flat2D zero4;
     Renderer.edgeTexture := flat2D zero4;
     Renderer.screen := fun _ => zero4;
     Renderer.hybridCelUniforms := occluded (7 / 10) |}.

Definition camera : Renderer.Camera := Renderer.MkCamera (Vec3 0 0 3).

(** one shadow-casting point light that is neither static nor flickering *)
Definition lamp : Lighting.Light :=
  Lighting.createPointLight (Vec3 0 2 0) (Vec3 1 1 1) 1.

Definition torch : Lighting.Light :=
  Renderer.torchLight (Vec3 (-6) (19 / 10) (-96 / 10)).



End Sample.

From Stdlib Require String.

(** ** Vocabulary: sequences of registry operations *)

Module Registry.

(** A call of one of the mutating member functions of LightManager, or an
    interaction with a per-light widget of the lighting window. *)
Inductive Op :=
| AddLight (light : Lighting.Light)
| RemoveLight (index : nat)
| UpdateLight (index : nat) (light : Lighting.Light)
| ClearLights
| EditLight (index : nat) (w : Lighting.Widget).

Definition apply (op : Op) (lights : list Lighting.Light) : list Lighting.Light :=
  match op with
  | AddLight light => Lighting.addLight light lights
  | RemoveLight index => Lighting.removeLight index lights
  | UpdateLight index light => Lighting.updateLight index light lights
  | ClearLights => Lighting.clearLights lights
  | EditLight index w => Lighting.renderLightingWindow_edit index w lights
  end.

Definition applyAll (ops : list Op) (lights : list Lighting.Light) : list Lighting.Light :=
  foldl (fun ls op => apply op ls) lights ops.

End Registry.

(** ** The point-light depth shader (point_shadow.frag) *)

Module PointShadow.

Record Uniforms := MkUniforms {
  lightPos : vec3;
  farPlane : R
}.

(** [gl_FragDepth] *)
Definition main (u : Uniforms) (FragPos : vec4) : R :=
  let lightDistance := length3 (sub3 (xyz FragPos) (lightPos u)) in
  let lightDistance := lightDistance / farPlane u in
  lightDistance.

End PointShadow.

(** ** The geometry pass shader (geometry.frag) *)

Module Geometry.

Record Uniforms := MkUniforms {
  texture_diffuse1 : sampler2D;
  texture_normal1 : sampler2D;
  texture_roughness1 : sampler2D;
  texture_metallic1 : sampler2D;
  texture_ao1 : sampler2D;
  hasTexture : bool;
  hasNormalMap : bool;
  hasRoughnessMap : bool;
  hasMetallicMap : bool;
  hasAOMap : bool;
  albedo : vec3;
  roughness : R;
  specularShininess : R;
  materialType : Z;
  minnaertK : R;
  orenNayarRoughness : R;
  ashikhminShirleyNu : R;
  ashikhminShirleyNv : R;
  cookTorranceRoughness : R;
  cookTorranceF0 : R;
  intensityCorrection : R;
  ambientOcclusion : R
}.

(** the four colour outputs *)
Record Output := MkOutput {
  gBaseColor : vec4;
  gNormal : vec4;
  gPosition : vec4;
  gQuantization : vec4
}.

Definition main (u : Uniforms) (FragPos Normal : vec3) (TexCoords : vec2) : Output :=
  let baseColor :=
    if hasTexture u
    then scale3 (xyz (texture (texture_diffuse1 u) TexCoords)) (intensityCorrection u)
    else scale3 (albedo u) (intensityCorrection u) in
  let materialRoughness :=
    if hasRoughnessMap u then x4 (texture (texture_roughness1 u) TexCoords)
    else roughness u in
  let materialAO :=
    if hasAOMap u then x4 (texture (texture_ao1 u) TexCoords)
    else ambientOcclusion u in
  let worldNormal := normalize Normal in
  let worldNormal :=
    if hasNormalMap u then
      let normalMap :=
        sub3 (scale3 (xyz (texture (texture_normal1 u) TexCoords)) 2) (splat3 1) in
      normalize Normal
    else worldNormal in
  let param1 := minnaertK u in
  let param2 := orenNayarRoughness u in
  let '(param1, param2) :=
    if (materialType u =? 3)%Z then (ashikhminShirleyNu u, ashikhminShirleyNv u)
    else (param1, param2) in
  let '(param1, param2) :=
    if (materialType u =? 4)%Z then (cookTorranceRoughness u, cookTorranceF0 u)
    else (param1, param2) in
  {| gBaseColor := vec4_of baseColor (IZR (materialType u));
     gNormal := vec4_of worldNormal materialRoughness;
     gPosition := vec4_of FragPos (specularShininess u);
     gQuantization := Vec4 param1 param2 materialAO 1 |}.

End Geometry.

(** ** The camera (Camera.cpp) *)

Module CameraObject.

Inductive Camera_Movement := FORWARD | BACKWARD | LEFT | RIGHT.

Record Camera := MkCamera {
  Position : vec3;
  Front : vec3;
  Up : vec3;
  Right : vec3;
  WorldUp : vec3;
  Yaw : R;
  Pitch : R;
  MovementSpeed : R;
  MouseSensitivity : R;
  Zoom : R
}.

Definition set_Position (p : vec3) (c : Camera) : Camera :=
  MkCamera p (Front c) (Up c) (Right c) (WorldUp c) (Yaw c) (Pitch c)
           (MovementSpeed c) (MouseSensitivity c) (Zoom c).
Definition set_angles (yaw pitch : R) (c : Camera) : Camera :=
  MkCamera (Position c) (Front c) (Up c) (Right c) (WorldUp c) yaw pitch
           (MovementSpeed c) (MouseSensitivity c) (Zoom c).
Definition set_Zoom (z : R) (c : Camera) : Camera :=
  MkCamera (Position c) (Front c) (Up c) (Right c) (WorldUp c) (Yaw c) (Pitch c)
           (MovementSpeed c) (MouseSensitivity c) z.

Definition updateCameraVectors (c : Camera) : Camera :=
  let front :=
    Vec3 (cos (GLM.radians (Yaw c)) * cos (GLM.radians (Pitch c)))
         (sin (GLM.radians (Pitch c)))
         (sin (GLM.radians (Yaw c)) * cos (GLM.radians (Pitch c))) in
  let Front := normalize front in
  let Right := normalize (cross Front (WorldUp c)) in
  let Up := normalize (cross Right Front) in
  MkCamera (Position c) Front Up Right (WorldUp c) (Yaw c) (Pitch c)
           (MovementSpeed c) (MouseSensitivity c) (Zoom c).

(** The first constructor.  [SPEED], [SENSITIVITY] and [ZOOM] are constants
    of Camera.h; [Up] and [Right] have no value before updateCameraVectors
    assigns them. *)
Definition Camera_new (SPEED SENSITIVITY ZOOM : R) (position up : vec3) (yaw pitch : R)
    : Camera :=
  updateCameraVectors
    {| Position := position;
       Front := Vec3 0 0 (-1);
       Up := Vec3 0 0 0;
       Right := Vec3 0 0 0;
       WorldUp := up;
       Yaw := yaw;
       Pitch := pitch;
       MovementSpeed := SPEED;
       MouseSensitivity := SENSITIVITY;
       Zoom := ZOOM |}.

Definition getViewMatrix (c : Camera) : mat4 :=
  GLM.lookAt (Position c) (add3 (Position c) (Front c)) (Up c).

Definition getProjectionMatrix (c : Camera) (aspect_ratio : R) : mat4 :=
  GLM.perspective (GLM.radians (Zoom c)) aspect_ratio (1 / 10) 100.

Definition processKeyboard (direction : Camera_Movement) (deltaTime : R) (c : Camera)
    : Camera :=
  let velocity := MovementSpeed c * deltaTime in
  match direction with
  | FORWARD => set_Position (add3 (Position c) (scale3 (Front c) velocity)) c
  | BACKWARD => set_Position (sub3 (Position c) (scale3 (Front c) velocity)) c
  | LEFT => set_Position (sub3 (Position c) (scale3 (Right c) velocity)) c
  | RIGHT => set_Position (add3 (Position c) (scale3 (Right c) velocity)) c
  end.

Definition processMouseMovement (xoffset yoffset : R) (constrainPitch : bool)
    (c : Camera) : Camera :=
  let xoffset := xoffset * MouseSensitivity c in
  let yoffset := yoffset * MouseSensitivity c in
  let yaw := Yaw c + xoffset in
  let pitch := Pitch c + yoffset in
  let pitch :=
    if constrainPitch then
      let pitch := if fgtb pitch 89 then 89 else pitch in
      if fltb pitch (-89) then -89 else pitch
    else pitch in
  updateCameraVectors (set_angles yaw pitch c).

Definition processMouseScroll (yoffset : R) (c : Camera) : Camera :=
  let zoom := Zoom c - yoffset in
  let zoom := if fltb zoom 1 then 1 else zoom in
  let zoom := if fgtb zoom 45 then 45 else zoom in
  set_Zoom zoom c.

End CameraObject.

(** ** Input handling (main.cpp) *)

Module Main.

(** the keys processInput polls *)
Inductive Key := KEY_ESCAPE | KEY_TAB | KEY_W | KEY_S | KEY_A | KEY_D.

(** The globals of main.cpp the callbacks use, the function-local static
    [tabPressed] of processInput, and the two window properties it sets. *)
Record State := MkState {
  camera : CameraObject.Camera;
  lastX : R;
  lastY : R;
  firstMouse : bool;
  guiMode : bool;
  deltaTime : R;
  tabPressed : bool;
  windowShouldClose : bool;
  cursorDisabled : bool
}.

Definition set_camera (c : CameraObject.Camera) (s : State) : State :=
  MkState c (lastX s) (lastY s) (firstMouse s) (guiMode s) (deltaTime s)
          (tabPressed s) (windowShouldClose s) (cursorDisabled s).
Definition set_last (x y : R) (s : State) : State :=
  MkState (camera s) x y (firstMouse s) (guiMode s) (deltaTime s)
          (tabPressed s) (windowShouldClose s) (cursorDisabled s).
Definition set_firstMouse (b : bool) (s : State) : State :=
  MkState (camera s) (lastX s) (lastY s) b (guiMode s) (deltaTime s)
          (tabPressed s) (windowShouldClose s) (cursorDisabled s).
Definition set_guiMode (b : bool) (s : State) : State :=
  MkState (camera s) (lastX s) (lastY s) (firstMouse s) b (deltaTime s)
          (tabPressed s) (windowShouldClose s) (cursorDisabled s).
Definition set_tabPressed (b : bool) (s : State) : State :=
  MkState (camera s) (lastX s) (lastY s) (firstMouse s) (guiMode s) (deltaTime s)
          b (windowShouldClose s) (cursorDisabled s).
Definition set_windowShouldClose (b : bool) (s : State) : State :=
  MkState (camera s) (lastX s) (lastY s) (firstMouse s) (guiMode s) (deltaTime s)
          (tabPressed s) b (cursorDisabled s).
Definition set_cursorDisabled (b : bool) (s : State) : State :=
  MkState (camera s) (lastX s) (lastY s) (firstMouse s) (guiMode s) (deltaTime s)
          (tabPressed s) (windowShouldClose s) b.

(** [pressed k] is [glfwGetKey(window, k) == GLFW_PRESS]; a key that is not
    pressed is released.  The statements of processInput follow, one by
    one. *)

(** [if (ESC pressed) glfwSetWindowShouldClose(window, true);] *)
Definition processInput_escape (pressed : Key -> bool) (s : State) : State :=
  if pressed KEY_ESCAPE then set_windowShouldClose true s else s.

(** the toggle of GUI mode on a new TAB press *)
Definition processInput_toggle (pressed : Key -> bool) (s : State) : State :=
  if pressed KEY_TAB && negb (tabPressed s) then
    let s := set_guiMode (negb (guiMode s)) s in
    let s :=
      if guiMode s then set_cursorDisabled false s
      else set_firstMouse true (set_cursorDisabled true s) in
    set_tabPressed true s
  else s.

(** [if (TAB released) tabPressed = false;] *)
Definition processInput_release (pressed : Key -> bool) (s : State) : State :=
  if negb (pressed KEY_TAB) then set_tabPressed false s else s.

(** [if (key pressed) camera.processKeyboard(direction, deltaTime);] *)
Definition processInput_key (pressed : Key -> bool) (key : Key)
    (direction : CameraObject.Camera_Movement) (s : State) : State :=
  if pressed key
  then set_camera (CameraObject.processKeyboard direction (deltaTime s) (camera s)) s
  else s.

(** the movement keys, polled in camera mode only *)
Definition processInput_move (pressed : Key -> bool) (s : State) : State :=
  if negb (guiMode s) then
    let s := processInput_key pressed KEY_W CameraObject.FORWARD s in
    let s := processInput_key pressed KEY_S CameraObject.BACKWARD s in
    let s := processInput_key pressed KEY_A CameraObject.LEFT s in
    let s := processInput_key pressed KEY_D CameraObject.RIGHT s in
    s
  else s.

(** what no key changes: the angles and the sensitivity of the camera *)
Definition sameView (s s' : State) : Prop :=
  CameraObject.Yaw (camera s') = CameraObject.Yaw (camera s)
  /\ CameraObject.Pitch (camera s') = CameraObject.Pitch (camera s)
  /\ CameraObject.MouseSensitivity (camera s') = CameraObject.MouseSensitivity (camera s).

Definition processInput (pressed : Key -> bool) (s : State) : State :=
  let s := processInput_escape pressed s in
  let s := processInput_toggle pressed s in
  let s := processInput_release pressed s in
  processInput_move pressed s.

(** [constrainPitch] is the default argument Camera.h declares for
    processMouseMovement, which the call leaves out *)
Definition mouse_callback (constrainPitch : bool) (xpos ypos : R) (s : State) : State :=
  if guiMode s then s
  else
    let xposf := xpos in
    let yposf := ypos in
    let s :=
      if firstMouse s then set_firstMouse false (set_last xposf yposf s) else s in
    let xoffset := xposf - lastX s in
    let yoffset := lastY s - yposf in
    let s := set_last xposf yposf s in
    set_camera (CameraObject.processMouseMovement xoffset yoffset constrainPitch
                                                  (camera s)) s.

Definition scroll_callback (xoffset yoffset : R) (s : State) : State :=
  if negb (guiMode s)
  then set_camera (CameraObject.processMouseScroll yoffset (camera s)) s
  else s.

End Main.

(** ** The G-buffer object (GBuffer.h, GBuffer.cpp) *)

Module GBufferObject.

(** the members of the class; GL object names are [unsigned int], 0 is "no
    object" *)
Record GBuffer := MkGBuffer {
  gBuffer : N;
  gBaseColor : N;
  gNormal : N;
  gPosition : N;
  gQuantization : N;
  gDepth : N;
  rboDepth : N;
  width : Z;
  height : Z
}.

(** the constructor [GBuffer()] *)
Definition GBuffer_new : GBuffer := MkGBuffer 0 0 0 0 0 0 0 0 0.

(** the calls that create or free GL objects, and the texture allocations *)
Inductive Call :=
| glGenFramebuffers (name : N)
| glGenTextures (name : N)
| glTexImage2D (width height : Z)
| glDeleteFramebuffers (name : N)
| glDeleteTextures (name : N)
| glDeleteRenderbuffers (name : N).

(** A member function: the object, the next unused GL name and the calls
    made, from the object and the next unused GL name. *)
Definition Method (A : Type) : Type := GBuffer -> N -> A * GBuffer * N * list Call.

Definition cleanup : Method unit :=
  fun g next =>
    let e1 := if (gBuffer g =? 0)%N then [] else [glDeleteFramebuffers (gBuffer g)] in
    let e2 := if (gBaseColor g =? 0)%N then [] else [glDeleteTextures (gBaseColor g)] in
    let e3 := if (gNormal g =? 0)%N then [] else [glDeleteTextures (gNormal g)] in
    let e4 := if (gPosition g =? 0)%N then [] else [glDeleteTextures (gPosition g)] in
    let e5 :=
      if (gQuantization g =? 0)%N then [] else [glDeleteTextures (gQuantization g)] in
    let e6 := if (gDepth g =? 0)%N then [] else [glDeleteTextures (gDepth g)] in
    let e7 := if (rboDepth g =? 0)%N then [] else [glDeleteRenderbuffers (rboDepth g)] in
    (tt, MkGBuffer 0 0 0 0 0 0 0 (width g) (height g), next,
     e1 ++ e2 ++ e3 ++ e4 ++ e5 ++ e6 ++ e7).

(** [complete] is the outcome of the framebuffer status check of this call *)
Definition init (complete : bool) (windowWidth windowHeight : Z) : Method bool :=
  fun g next =>
    let n0 := next in
    let n1 := N.succ n0 in
    let n2 := N.succ n1 in
    let n3 := N.succ n2 in
    let n4 := N.succ n3 in
    let n5 := N.succ n4 in
    let g := MkGBuffer n0 n1 n2 n3 n4 n5 (rboDepth g) windowWidth windowHeight in
    let next := N.succ n5 in
    let e :=
      [ glGenFramebuffers n0;
        glGenTextures n1; glTexImage2D windowWidth windowHeight;
        glGenTextures n2; glTexImage2D windowWidth windowHeight;
        glGenTextures n3; glTexImage2D windowWidth windowHeight;
        glGenTextures n4; glTexImage2D windowWidth windowHeight;
        glGenTextures n5; glTexImage2D windowWidth windowHeight ] in
    if negb complete then
      let '(_, g, next, e') := cleanup g next in
      (false, g, next, e ++ e')
    else (true, g, next, e).

Definition resize (complete : bool) (newWidth newHeight : Z) : Method unit :=
  fun g next =>
    if (width g =? newWidth)%Z && (height g =? newHeight)%Z then (tt, g, next, [])
    else
      let '(_, g, next, e1) := cleanup g next in
      let '(_, g, next, e2) := init complete newWidth newHeight g next in
      (tt, g, next, e1 ++ e2).

(** *** Vocabulary: which names are in use *)

(** the GL names the object holds *)
Definition held (g : GBuffer) : list N :=
  filter (fun n => n <> 0%N)
         [gBuffer g; gBaseColor g; gNormal g; gPosition g; gQuantization g; gDepth g;
          rboDepth g].

Definition generated (calls : list Call) : list N :=
  omap (fun c => match c with
                 | glGenFramebuffers n | glGenTextures n => Some n
                 | _ => None
                 end) calls.

Definition deleted (calls : list Call) : list N :=
  omap (fun c => match c with
                 | glDeleteFramebuffers n | glDeleteTextures n
                 | glDeleteRenderbuffers n => Some n
                 | _ => None
                 end) calls.

(** the object holds no GL name *)
Definition blank (g : GBuffer) : Prop :=
  gBuffer g = 0%N /\ gBaseColor g = 0%N /\ gNormal g = 0%N /\ gPosition g = 0%N
  /\ gQuantization g = 0%N /\ gDepth g = 0%N /\ rboDepth g = 0%N.

(** Conservation over the calls [e] that lead from [g] to [g']: the names
    generated, with those held before, are the names deleted, with those
    held afterwards. *)
Definition law (g : GBuffer) (e : list Call) (g' : GBuffer) : Prop :=
  generated e ++ held g ≡ₚ deleted e ++ held g'.

(** what the owner of a G-buffer does with it after init: resize it, or
    destroy it *)
Inductive Op :=
| Resize (complete : bool) (newWidth newHeight : Z)
| Destroy.

Definition apply (op : Op) : Method unit :=
  match op with
  | Resize complete newWidth newHeight => resize complete newWidth newHeight
  | Destroy => cleanup
  end.

Fixpoint applyAll (ops : list Op) : Method unit :=
  fun g next =>
    match ops with
    | [] => (tt, g, next, [])
    | op :: rest =>
        let '(_, g, next, e1) := apply op g next in
        let '(_, g, next, e2) := applyAll rest g next in
        (tt, g, next, e1 ++ e2)
    end.

End GBufferObject.

(** ** JSON values, as the preset code uses nlohmann::json *)

Module Json.

Import String.StringSyntax.
Local Open Scope string_scope.
#[local] Set Warnings "-register-all".

(** A JSON value.  [number_integer] stands for both integer kinds of the
    library (signed and unsigned); the conversions used here treat them
    alike.  An object is kept as its list of members; a key occurs once. *)
Inductive json :=
| null
| boolean (b : bool)
| number_integer (n : Z)
| number_float (x : R)
| str (s : String.string)
| array (elements : list json)
| object (members : list (String.string * json)).

(** member lookup *)
Fixpoint find {A : Type} (key : String.string) (members : list (String.string * A)) : option A :=
  match members with
  | [] => None
  | (k, v) :: rest => if String.eqb k key then Some v else find key rest
  end.

(** [x[key] = v] on the members of an object: replace, or add *)
Fixpoint assign {A : Type} (key : String.string) (v : A) (members : list (String.string * A))
    : list (String.string * A) :=
  match members with
  | [] => [(key, v)]
  | (k, v0) :: rest =>
      if String.eqb k key then (k, v) :: rest else (k, v0) :: assign key v rest
  end.

(** [j.contains(key)]: false for everything that is not an object *)
Definition contains (j : json) (key : String.string) : bool :=
  match j with
  | object members => match find key members with Some _ => true | None => false end
  | _ => false
  end.

(** [j[key]] where [j.contains(key)] *)
Definition at_key (j : json) (key : String.string) : option json :=
  match j with
  | object members => find key members
  | _ => None
  end.

(** The implicit conversions [T x = j]; [None] is the type_error exception.
    A number converts to every arithmetic type, a boolean too; only a
    boolean converts to [bool]. *)
Definition get_float (j : json) : option R :=
  match j with
  | number_integer n => Some (IZR n)
  | number_float x => Some x
  | boolean b => Some (if b then 1 else 0)
  | _ => None
  end.

Definition get_int (j : json) : option Z :=
  match j with
  | number_integer n => Some n
  | number_float x => Some (Renderer.truncToInt x)
  | boolean b => Some (if b then 1 else 0)%Z
  | _ => None
  end.

Definition get_bool (j : json) : option bool :=
  match j with
  | boolean b => Some b
  | _ => None
  end.

(** glm::to_json *)
Definition to_json (v : vec3) : json :=
  array [number_float (x3 v); number_float (y3 v); number_float (z3 v)].

(** glm::from_json: [v] is an in-out parameter; [None] is an exception of
    one of the three element conversions *)
Definition from_json (j : json) (v : vec3) : option vec3 :=
  match j with
  | array (j0 :: j1 :: j2 :: _) =>
      match get_float j0, get_float j1, get_float j2 with
      | Some x, Some y, Some z => Some (Vec3 x y z)
      | _, _, _ => None
      end
  | _ => Some v
  end.

(** [glm::vec3 x = j]: from_json on a value-initialised vector *)
Definition get_vec3 (j : json) : option vec3 := from_json j (Vec3 0 0 0).

End Json.

(** ** Presets: the material and parameter members of the renderer, and
    their JSON files (Renderer.h, Renderer.cpp) *)

Module Presets.

Import String.StringSyntax.
Local Open Scope string_scope.

(** [Renderer::MaterialParams], all fields *)
Record MaterialParams := MkMaterialParams {
  roughness : R;
  metallic : R;
  minnaertK : R;
  orenNayarRoughness : R;
  ashikhminShirleyNu : R;
  ashikhminShirleyNv : R;
  cookTorranceRoughness : R;
  cookTorranceF0 : R;
  specularShininess : R;
  albedo : vec3;
  enableQuantization : bool;
  diffuseQuantizationBands : Z;
  specularThreshold1 : R;
  specularThreshold2 : R;
  intensityCorrection : R
}.

(** [MaterialParams()] *)
Definition MaterialParams_default : MaterialParams :=
  {| roughness := 1 / 10;
     metallic := 0;
     minnaertK := 12 / 10;
     orenNayarRoughness := 3 / 10;
     ashikhminShirleyNu := 100;
     ashikhminShirleyNv := 100;
     cookTorranceRoughness := 3 / 10;
     cookTorranceF0 := 5 / 10;
     specularShininess := 32;
     albedo := Vec3 (2 / 10) (7 / 10) (9 / 10);
     enableQuantization := true;
     diffuseQuantizationBands := 5;
     specularThreshold1 := 3 / 10;
     specularThreshold2 := 7 / 10;
     intensityCorrection := 1 |}.

Definition set_roughness (v : R) (p : MaterialParams) : MaterialParams :=
  MkMaterialParams v (metallic p) (minnaertK p) (orenNayarRoughness p)
    (ashikhminShirleyNu p) (ashikhminShirleyNv p) (cookTorranceRoughness p)
    (cookTorranceF0 p) (specularShininess p) (albedo p) (enableQuantization p)
    (diffuseQuantizationBands p) (specularThreshold1 p) (specularThreshold2 p)
    (intensityCorrection p).
Definition set_metallic (v : R) (p : MaterialParams) : MaterialParams :=
  MkMaterialParams (roughness p) v (minnaertK p) (orenNayarRoughness p)
    (ashikhminShirleyNu p) (ashikhminShirleyNv p) (cookTorranceRoughness p)
    (cookTorranceF0 p) (specularShininess p) (albedo p) (enableQuantization p)
    (diffuseQuantizationBands p) (specularThreshold1 p) (specularThreshold2 p)
    (intensityCorrection p).
Definition set_minnaertK (v : R) (p : MaterialParams) : MaterialParams :=
  MkMaterialParams (roughness p) (metallic p) v (orenNayarRoughness p)
    (ashikhminShirleyNu p) (ashikhminShirleyNv p) (cookTorranceRoughness p)
    (cookTorranceF0 p) (specularShininess p) (albedo p) (enableQuantization p)
    (diffuseQuantizationBands p) (specularThreshold1 p) (specularThreshold2 p)
    (intensityCorrection p).
Definition set_orenNayarRoughness (v : R) (p : MaterialParams) : MaterialParams :=
  MkMaterialParams (roughness p) (metallic p) (minnaertK p) v (ashikhminShirleyNu p)
    (ashikhminShirleyNv p) (cookTorranceRoughness p) (cookTorranceF0 p)
    (specularShininess p) (albedo p) (enableQuantization p) (diffuseQuantizationBands p)
    (specularThreshold1 p) (specularThreshold2 p) (intensityCorrection p).
Definition set_ashikhminShirleyNu (v : R) (p : MaterialParams) : MaterialParams :=
  MkMaterialParams (roughness p) (metallic p) (minnaertK p) (orenNayarRoughness p) v
    (ashikhminShirleyNv p) (cookTorranceRoughness p) (cookTorranceF0 p)
    (specularShininess p) (albedo p) (enableQuantization p) (diffuseQuantizationBands p)
    (specularThreshold1 p) (specularThreshold2 p) (intensityCorrection p).
Definition set_ashikhminShirleyNv (v : R) (p : MaterialParams) : MaterialParams :=
  MkMaterialParams (roughness p) (metallic p) (minnaertK p) (orenNayarRoughness p)
    (ashikhminShirleyNu p) v (cookTorranceRoughness p) (cookTorranceF0 p)
    (specularShininess p) (albedo p) (enableQuantization p) (diffuseQuantizationBands p)
    (specularThreshold1 p) (specularThreshold2 p) (intensityCorrection p).
Definition set_cookTorranceRoughness (v : R) (p : MaterialParams) : MaterialParams :=
  MkMaterialParams (roughness p) (metallic p) (minnaertK p) (orenNayarRoughness p)
    (ashikhminShirleyNu p) (ashikhminShirleyNv p) v (cookTorranceF0 p)
    (specularShininess p) (albedo p) (enableQuantization p) (diffuseQuantizationBands p)
    (specularThreshold1 p) (specularThreshold2 p) (intensityCorrection p).
Definition set_cookTorranceF0 (v : R) (p : MaterialParams) : MaterialParams :=
  MkMaterialParams (roughness p) (metallic p) (minnaertK p) (orenNayarRoughness p)
    (ashikhminShirleyNu p) (ashikhminShirleyNv p) (cookTorranceRoughness p) v
    (specularShininess p) (albedo p) (enableQuantization p) (diffuseQuantizationBands p)
    (specularThreshold1 p) (specularThreshold2 p) (intensityCorrection p).
Definition set_specularShininess (v : R) (p : MaterialParams) : MaterialParams :=
  MkMaterialParams (roughness p) (metallic p) (minnaertK p) (orenNayarRoughness p)
    (ashikhminShirleyNu p) (ashikhminShirleyNv p) (cookTorranceRoughness p)
    (cookTorranceF0 p) v (albedo p) (enableQuantization p) (diffuseQuantizationBands p)
    (specularThreshold1 p) (specularThreshold2 p) (intensityCorrection p).
Definition set_albedo (v : vec3) (p : MaterialParams) : MaterialParams :=
  MkMaterialParams (roughness p) (metallic p) (minnaertK p) (orenNayarRoughness p)
    (ashikhminShirleyNu p) (ashikhminShirleyNv p) (cookTorranceRoughness p)
    (cookTorranceF0 p) (specularShininess p) v (enableQuantization p)
    (diffuseQuantizationBands p) (specularThreshold1 p) (specularThreshold2 p)
    (intensityCorrection p).
Definition set_enableQuantization (v : bool) (p : MaterialParams) : MaterialParams :=
  MkMaterialParams (roughness p) (metallic p) (minnaertK p) (orenNayarRoughness p)
    (ashikhminShirleyNu p) (ashikhminShirleyNv p) (cookTorranceRoughness p)
    (cookTorranceF0 p) (specularShininess p) (albedo p) v (diffuseQuantizationBands p)
    (specularThreshold1 p) (specularThreshold2 p) (intensityCorrection p).
Definition set_diffuseQuantizationBands (v : Z) (p : MaterialParams) : MaterialParams :=
  MkMaterialParams (roughness p) (metallic p) (minnaertK p) (orenNayarRoughness p)
    (ashikhminShirleyNu p) (ashikhminShirleyNv p) (cookTorranceRoughness p)
    (cookTorranceF0 p) (specularShininess p) (albedo p) (enableQuantization p) v
    (specularThreshold1 p) (specularThreshold2 p) (intensityCorrection p).
Definition set_specularThreshold1 (v : R) (p : MaterialParams) : MaterialParams :=
  MkMaterialParams (roughness p) (metallic p) (minnaertK p) (orenNayarRoughness p)
    (ashikhminShirleyNu p) (ashikhminShirleyNv p) (cookTorranceRoughness p)
    (cookTorranceF0 p) (specularShininess p) (albedo p) (enableQuantization p)
    (diffuseQuantizationBands p) v (specularThreshold2 p) (intensityCorrection p).
Definition set_specularThreshold2 (v : R) (p : MaterialParams) : MaterialParams :=
  MkMaterialParams (roughness p) (metallic p) (minnaertK p) (orenNayarRoughness p)
    (ashikhminShirleyNu p) (ashikhminShirleyNv p) (cookTorranceRoughness p)
    (cookTorranceF0 p) (specularShininess p) (albedo p) (enableQuantization p)
    (diffuseQuantizationBands p) (specularThreshold1 p) v (intensityCorrection p).
Definition set_intensityCorrection (v : R) (p : MaterialParams) : MaterialParams :=
  MkMaterialParams (roughness p) (metallic p) (minnaertK p) (orenNayarRoughness p)
    (ashikhminShirleyNu p) (ashikhminShirleyNv p) (cookTorranceRoughness p)
    (cookTorranceF0 p) (specularShininess p) (albedo p) (enableQuantization p)
    (diffuseQuantizationBands p) (specularThreshold1 p) (specularThreshold2 p) v.

(** [Renderer::ModelMaterial]; [model] is the IlluminationModel as an int *)
Record ModelMaterial := MkModelMaterial {
  model : Z;
  params : MaterialParams;
  name : String.string
}.

(** the ModelMaterial members of the renderer *)
Inductive Material :=
| floorMaterial
| wallMaterial
| ceilingMaterial
| woodFloorMaterial
| stairMaterial
| torchMaterial
| dirtMaterial
| tableMaterial
| chairMaterial
| stoolMaterial
| barrelMaterial
| woodPalletMaterial
| woodPlanksMaterial
| stoneStackMaterial
| goldBarsMaterial
| metalPartsMaterial
| textilesMaterial
| shelfMaterial
| bedMaterial
| chestMaterial
| bannerMaterial
| candleMaterial
| crateMaterial
| swordShieldMaterial.

#[global] Instance Material_eq_dec : EqDecision Material.
Proof. solve_decision. Defined.

(** the member initialisers of Renderer.h: [{{}, {}, "name"}] *)
Definition Material_default (m : Material) : ModelMaterial :=
  MkModelMaterial 0 MaterialParams_default
    match m with
    | floorMaterial => "Floor"
    | wallMaterial => "Walls"
    | ceilingMaterial => "Ceiling"
    | woodFloorMaterial => "WoodFloor"
    | stairMaterial => "Stair"
    | torchMaterial => "Torch"
    | dirtMaterial => "Grass/Dirt"
    | tableMaterial => "Table"
    | chairMaterial => "Chair"
    | stoolMaterial => "Stool"
    | barrelMaterial => "Barrel"
    | woodPalletMaterial => "Wood Pallet"
    | woodPlanksMaterial => "Wood Planks"
    | stoneStackMaterial => "Stone Stack"
    | goldBarsMaterial => "Gold Bars"
    | metalPartsMaterial => "Metal Parts"
    | textilesMaterial => "Textiles"
    | shelfMaterial => "Shelf"
    | bedMaterial => "Bed"
    | chestMaterial => "Chest"
    | bannerMaterial => "Banner"
    | candleMaterial => "Candles"
    | crateMaterial => "Crates"
    | swordShieldMaterial => "Sword & Shield"
    end.

Definition EdgeParams_default : Renderer.EdgeParams := Sample.defaultEdgeParams.

(** The members of the renderer the preset functions read and write. *)
Record Settings := MkSettings {
  materialParams : MaterialParams;
  globalIlluminationModel : Z;
  edgeParams : Renderer.EdgeParams;
  edgeDetectionFlags : Z;
  shadowParams : Renderer.ShadowParams;
  materials : Material -> ModelMaterial;
  (** [lightManager->lights] *)
  lights : list Lighting.Light
}.

Definition set_materialParams (v : MaterialParams) (s : Settings) : Settings :=
  MkSettings v (globalIlluminationModel s) (edgeParams s) (edgeDetectionFlags s)
             (shadowParams s) (materials s) (lights s).
Definition set_globalIlluminationModel (v : Z) (s : Settings) : Settings :=
  MkSettings (materialParams s) v (edgeParams s) (edgeDetectionFlags s)
             (shadowParams s) (materials s) (lights s).
Definition set_edgeParams (v : Renderer.EdgeParams) (s : Settings) : Settings :=
  MkSettings (materialParams s) (globalIlluminationModel s) v (edgeDetectionFlags s)
             (shadowParams s) (materials s) (lights s).
Definition set_edgeDetectionFlags (v : Z) (s : Settings) : Settings :=
  MkSettings (materialParams s) (globalIlluminationModel s) (edgeParams s) v
             (shadowParams s) (materials s) (lights s).
Definition set_shadowParams (v : Renderer.ShadowParams) (s : Settings) : Settings :=
  MkSettings (materialParams s) (globalIlluminationModel s) (edgeParams s)
             (edgeDetectionFlags s) v (materials s) (lights s).
Definition set_material (m : Material) (v : ModelMaterial) (s : Settings) : Settings :=
  MkSettings (materialParams s) (globalIlluminationModel s) (edgeParams s)
             (edgeDetectionFlags s) (shadowParams s)
             (fun m' => if decide (m' = m) then v else materials s m') (lights s).
Definition set_lights (v : list Lighting.Light) (s : Settings) : Settings :=
  MkSettings (materialParams s) (globalIlluminationModel s) (edgeParams s)
             (edgeDetectionFlags s) (shadowParams s) (materials s) v.

(** assignments to the fields of [edgeParams] and [shadowParams] *)
Definition set_edge_enableOutlining (v : bool) (p : Renderer.EdgeParams) : Renderer.EdgeParams :=
  Renderer.MkEdgeParams v (Renderer.depthThreshold p) (Renderer.normalThreshold p)
    (Renderer.sobelThreshold p) (Renderer.colorThreshold p) (Renderer.edgeWidth p)
    (Renderer.edgeColor p) (Renderer.depthExponent p) (Renderer.normalSplit p)
    (Renderer.sobelScale p) (Renderer.smoothWidth p) (Renderer.laplacianThreshold p)
    (Renderer.laplacianScale p).
Definition set_edge_depthThreshold (v : R) (p : Renderer.EdgeParams) : Renderer.EdgeParams :=
  Renderer.MkEdgeParams (Renderer.enableOutlining p) v (Renderer.normalThreshold p)
    (Renderer.sobelThreshold p) (Renderer.colorThreshold p) (Renderer.edgeWidth p)
    (Renderer.edgeColor p) (Renderer.depthExponent p) (Renderer.normalSplit p)
    (Renderer.sobelScale p) (Renderer.smoothWidth p) (Renderer.laplacianThreshold p)
    (Renderer.laplacianScale p).
Definition set_edge_normalThreshold (v : R) (p : Renderer.EdgeParams) : Renderer.EdgeParams :=
  Renderer.MkEdgeParams (Renderer.enableOutlining p) (Renderer.depthThreshold p) v
    (Renderer.sobelThreshold p) (Renderer.colorThreshold p) (Renderer.edgeWidth p)
    (Renderer.edgeColor p) (Renderer.depthExponent p) (Renderer.normalSplit p)
    (Renderer.sobelScale p) (Renderer.smoothWidth p) (Renderer.laplacianThreshold p)
    (Renderer.laplacianScale p).
Definition set_edge_sobelThreshold (v : R) (p : Renderer.EdgeParams) : Renderer.EdgeParams :=
  Renderer.MkEdgeParams (Renderer.enableOutlining p) (Renderer.depthThreshold p)
    (Renderer.normalThreshold p) v (Renderer.colorThreshold p) (Renderer.edgeWidth p)
    (Renderer.edgeColor p) (Renderer.depthExponent p) (Renderer.normalSplit p)
    (Renderer.sobelScale p) (Renderer.smoothWidth p) (Renderer.laplacianThreshold p)
    (Renderer.laplacianScale p).
Definition set_edge_colorThreshold (v : R) (p : Renderer.EdgeParams) : Renderer.EdgeParams :=
  Renderer.MkEdgeParams (Renderer.enableOutlining p) (Renderer.depthThreshold p)
    (Renderer.normalThreshold p) (Renderer.sobelThreshold p) v (Renderer.edgeWidth p)
    (Renderer.edgeColor p) (Renderer.depthExponent p) (Renderer.normalSplit p)
    (Renderer.sobelScale p) (Renderer.smoothWidth p) (Renderer.laplacianThreshold p)
    (Renderer.laplacianScale p).
Definition set_edge_edgeWidth (v : R) (p : Renderer.EdgeParams) : Renderer.EdgeParams :=
  Renderer.MkEdgeParams (Renderer.enableOutlining p) (Renderer.depthThreshold p)
    (Renderer.normalThreshold p) (Renderer.sobelThreshold p) (Renderer.colorThreshold p)
    v (Renderer.edgeColor p) (Renderer.depthExponent p) (Renderer.normalSplit p)
    (Renderer.sobelScale p) (Renderer.smoothWidth p) (Renderer.laplacianThreshold p)
    (Renderer.laplacianScale p).
Definition set_edge_edgeColor (v : vec3) (p : Renderer.EdgeParams) : Renderer.EdgeParams :=
  Renderer.MkEdgeParams (Renderer.enableOutlining p) (Renderer.depthThreshold p)
    (Renderer.normalThreshold p) (Renderer.sobelThreshold p) (Renderer.colorThreshold p)
    (Renderer.edgeWidth p) v (Renderer.depthExponent p) (Renderer.normalSplit p)
    (Renderer.sobelScale p) (Renderer.smoothWidth p) (Renderer.laplacianThreshold p)
    (Renderer.laplacianScale p).
Definition set_edge_depthExponent (v : R) (p : Renderer.EdgeParams) : Renderer.EdgeParams :=
  Renderer.MkEdgeParams (Renderer.enableOutlining p) (Renderer.depthThreshold p)
    (Renderer.normalThreshold p) (Renderer.sobelThreshold p) (Renderer.colorThreshold p)
    (Renderer.edgeWidth p) (Renderer.edgeColor p) v (Renderer.normalSplit p)
    (Renderer.sobelScale p) (Renderer.smoothWidth p) (Renderer.laplacianThreshold p)
    (Renderer.laplacianScale p).
Definition set_edge_normalSplit (v : R) (p : Renderer.EdgeParams) : Renderer.EdgeParams :=
  Renderer.MkEdgeParams (Renderer.enableOutlining p) (Renderer.depthThreshold p)
    (Renderer.normalThreshold p) (Renderer.sobelThreshold p) (Renderer.colorThreshold p)
    (Renderer.edgeWidth p) (Renderer.edgeColor p) (Renderer.depthExponent p) v
    (Renderer.sobelScale p) (Renderer.smoothWidth p) (Renderer.laplacianThreshold p)
    (Renderer.laplacianScale p).
Definition set_edge_sobelScale (v : R) (p : Renderer.EdgeParams) : Renderer.EdgeParams :=
  Renderer.MkEdgeParams (Renderer.enableOutlining p) (Renderer.depthThreshold p)
    (Renderer.normalThreshold p) (Renderer.sobelThreshold p) (Renderer.colorThreshold p)
    (Renderer.edgeWidth p) (Renderer.edgeColor p) (Renderer.depthExponent p)
    (Renderer.normalSplit p) v (Renderer.smoothWidth p) (Renderer.laplacianThreshold p)
    (Renderer.laplacianScale p).
Definition set_edge_smoothWidth (v : R) (p : Renderer.EdgeParams) : Renderer.EdgeParams :=
  Renderer.MkEdgeParams (Renderer.enableOutlining p) (Renderer.depthThreshold p)
    (Renderer.normalThreshold p) (Renderer.sobelThreshold p) (Renderer.colorThreshold p)
    (Renderer.edgeWidth p) (Renderer.edgeColor p) (Renderer.depthExponent p)
    (Renderer.normalSplit p) (Renderer.sobelScale p) v (Renderer.laplacianThreshold p)
    (Renderer.laplacianScale p).
Definition set_edge_laplacianThreshold (v : R) (p : Renderer.EdgeParams) : Renderer.EdgeParams :=
  Renderer.MkEdgeParams (Renderer.enableOutlining p) (Renderer.depthThreshold p)
    (Renderer.normalThreshold p) (Renderer.sobelThreshold p) (Renderer.colorThreshold p)
    (Renderer.edgeWidth p) (Renderer.edgeColor p) (Renderer.depthExponent p)
    (Renderer.normalSplit p) (Renderer.sobelScale p) (Renderer.smoothWidth p) v
    (Renderer.laplacianScale p).
Definition set_edge_laplacianScale (v : R) (p : Renderer.EdgeParams) : Renderer.EdgeParams :=
  Renderer.MkEdgeParams (Renderer.enableOutlining p) (Renderer.depthThreshold p)
    (Renderer.normalThreshold p) (Renderer.sobelThreshold p) (Renderer.colorThreshold p)
    (Renderer.edgeWidth p) (Renderer.edgeColor p) (Renderer.depthExponent p)
    (Renderer.normalSplit p) (Renderer.sobelScale p) (Renderer.smoothWidth p)
    (Renderer.laplacianThreshold p) v.
Definition set_shadow_shadowMapSize (v : Z) (p : Renderer.ShadowParams)
    : Renderer.ShadowParams :=
  Renderer.MkShadowParams v (Renderer.cubeShadowMapSize p) (Renderer.shadowBias p)
    (Renderer.shadowNormalBias p) (Renderer.shadowPCFSamples p)
    (Renderer.shadowIntensity p) (Renderer.enablePCF p) (Renderer.orthoSize p)
    (Renderer.nearPlane p) (Renderer.farPlane p).
Definition set_shadow_cubeShadowMapSize (v : Z) (p : Renderer.ShadowParams)
    : Renderer.ShadowParams :=
  Renderer.MkShadowParams (Renderer.shadowMapSize p) v (Renderer.shadowBias p)
    (Renderer.shadowNormalBias p) (Renderer.shadowPCFSamples p)
    (Renderer.shadowIntensity p) (Renderer.enablePCF p) (Renderer.orthoSize p)
    (Renderer.nearPlane p) (Renderer.farPlane p).
Definition set_shadow_shadowBias (v : R) (p : Renderer.ShadowParams)
    : Renderer.ShadowParams :=
  Renderer.MkShadowParams (Renderer.shadowMapSize p) (Renderer.cubeShadowMapSize p) v
    (Renderer.shadowNormalBias p) (Renderer.shadowPCFSamples p)
    (Renderer.shadowIntensity p) (Renderer.enablePCF p) (Renderer.orthoSize p)
    (Renderer.nearPlane p) (Renderer.farPlane p).
Definition set_shadow_shadowNormalBias (v : R) (p : Renderer.ShadowParams)
    : Renderer.ShadowParams :=
  Renderer.MkShadowParams (Renderer.shadowMapSize p) (Renderer.cubeShadowMapSize p)
    (Renderer.shadowBias p) v (Renderer.shadowPCFSamples p) (Renderer.shadowIntensity p)
    (Renderer.enablePCF p) (Renderer.orthoSize p) (Renderer.nearPlane p)
    (Renderer.farPlane p).
Definition set_shadow_shadowPCFSamples (v : Z) (p : Renderer.ShadowParams)
    : Renderer.ShadowParams :=
  Renderer.MkShadowParams (Renderer.shadowMapSize p) (Renderer.cubeShadowMapSize p)
    (Renderer.shadowBias p) (Renderer.shadowNormalBias p) v (Renderer.shadowIntensity p)
    (Renderer.enablePCF p) (Renderer.orthoSize p) (Renderer.nearPlane p)
    (Renderer.farPlane p).
Definition set_shadow_shadowIntensity (v : R) (p : Renderer.ShadowParams)
    : Renderer.ShadowParams :=
  Renderer.MkShadowParams (Renderer.shadowMapSize p) (Renderer.cubeShadowMapSize p)
    (Renderer.shadowBias p) (Renderer.shadowNormalBias p) (Renderer.shadowPCFSamples p)
    v (Renderer.enablePCF p) (Renderer.orthoSize p) (Renderer.nearPlane p)
    (Renderer.farPlane p).
Definition set_shadow_enablePCF (v : bool) (p : Renderer.ShadowParams)
    : Renderer.ShadowParams :=
  Renderer.MkShadowParams (Renderer.shadowMapSize p) (Renderer.cubeShadowMapSize p)
    (Renderer.shadowBias p) (Renderer.shadowNormalBias p) (Renderer.shadowPCFSamples p)
    (Renderer.shadowIntensity p) v (Renderer.orthoSize p) (Renderer.nearPlane p)
    (Renderer.farPlane p).

(** *** Statements inside a [try] block

    What a statement sequence leaves behind: the state it reached, and
    whether an exception ended it early. *)
Inductive Outcome (S : Type) :=
| Done (s : S)
| Thrown (s : S).
Arguments Done {S} s.
Arguments Thrown {S} s.

Definition state {S : Type} (o : Outcome S) : S :=
  match o with Done s => s | Thrown s => s end.

Definition thrown {S : Type} (o : Outcome S) : bool :=
  match o with Done _ => false | Thrown _ => true end.

(** [first; next] *)
Definition andThen {S : Type} (first next : S -> Outcome S) : S -> Outcome S :=
  fun s => match first s with Done s1 => next s1 | Thrown s1 => Thrown s1 end.

(** [if (j.contains(key)) field = j[key];] *)
Definition assignIf {S A : Type} (j : Json.json) (key : String.string)
    (get : Json.json -> option A) (store : A -> S -> S) : S -> Outcome S :=
  fun s =>
    if Json.contains j key then
      match Json.at_key j key ≫= get with
      | Some v => Done (store v s)
      | None => Thrown s
      end
    else Done s.

(** a statement sequence on a member [part] of the state, reached through a
    reference *)
Definition within {S A : Type} (part : S -> A) (store : A -> S -> S)
    (body : A -> Outcome A) : S -> Outcome S :=
  fun s =>
    match body (part s) with
    | Done a => Done (store a s)
    | Thrown a => Thrown (store a s)
    end.

(** [if (j.contains(key)) { json& sub = j[key]; body(sub) }] *)
Definition ifContains {S : Type} (j : Json.json) (key : String.string)
    (body : Json.json -> S -> Outcome S) : S -> Outcome S :=
  fun s =>
    if Json.contains j key then
      match Json.at_key j key with
      | Some sub => body sub s
      | None => Done s
      end
    else Done s.

(** an observation [P] of the state that a statement sequence leaves as it
    is, exception or not *)
Definition preserves {S A : Type} (P : S -> A) (step : S -> Outcome S) : Prop :=
  forall s, P (state (step s)) = P s.

Declare Scope try_scope.
Delimit Scope try_scope with try.
Notation "a ;; b" := (andThen a b) (at level 100, b at level 200) : try_scope.

(** *** Material parameters as JSON *)

Definition serializeMaterialParams (params : MaterialParams) : Json.json :=
  Json.object
    [ ("roughness", Json.number_float (roughness params));
      ("metallic", Json.number_float (metallic params));
      ("minnaertK", Json.number_float (minnaertK params));
      ("orenNayarRoughness", Json.number_float (orenNayarRoughness params));
      ("ashikhminShirleyNu", Json.number_float (ashikhminShirleyNu params));
      ("ashikhminShirleyNv", Json.number_float (ashikhminShirleyNv params));
      ("cookTorranceRoughness", Json.number_float (cookTorranceRoughness params));
      ("cookTorranceF0", Json.number_float (cookTorranceF0 params));
      ("specularShininess", Json.number_float (specularShininess params));
      ("albedo", Json.to_json (albedo params));
      ("enableQuantization", Json.boolean (enableQuantization params));
      ("diffuseQuantizationBands", Json.number_integer (diffuseQuantizationBands params));
      ("specularThreshold1", Json.number_float (specularThreshold1 params));
      ("specularThreshold2", Json.number_float (specularThreshold2 params));
      ("intensityCorrection", Json.number_float (intensityCorrection params)) ].

Definition deserializeMaterialParams (j : Json.json)
    : MaterialParams -> Outcome MaterialParams :=
  (assignIf j "roughness" Json.get_float set_roughness ;;
   assignIf j "metallic" Json.get_float set_metallic ;;
   assignIf j "minnaertK" Json.get_float set_minnaertK ;;
   assignIf j "orenNayarRoughness" Json.get_float set_orenNayarRoughness ;;
   assignIf j "ashikhminShirleyNu" Json.get_float set_ashikhminShirleyNu ;;
   assignIf j "ashikhminShirleyNv" Json.get_float set_ashikhminShirleyNv ;;
   assignIf j "cookTorranceRoughness" Json.get_float set_cookTorranceRoughness ;;
   assignIf j "cookTorranceF0" Json.get_float set_cookTorranceF0 ;;
   assignIf j "specularShininess" Json.get_float set_specularShininess ;;
   assignIf j "albedo" Json.get_vec3 set_albedo ;;
   assignIf j "enableQuantization" Json.get_bool set_enableQuantization ;;
   assignIf j "diffuseQuantizationBands" Json.get_int set_diffuseQuantizationBands ;;
   assignIf j "specularThreshold1" Json.get_float set_specularThreshold1 ;;
   assignIf j "specularThreshold2" Json.get_float set_specularThreshold2 ;;
   assignIf j "intensityCorrection" Json.get_float set_intensityCorrection)%try.

(** *** Preset files *)

(** the contents of a preset file: text that does not parse, or a document *)
Inductive File :=
| Unparsable
| Document (root : Json.json).

(** the files [preset_<index>.json], and whether each can be opened for
    writing *)
Record Disk := MkDisk {
  files : Z -> option File;
  writable : Z -> bool
}.

(** the lambda [saveModelMat] *)
Definition saveModelMat (key : String.string) (mat : ModelMaterial)
    (modelsJson : list (String.string * Json.json)) : list (String.string * Json.json) :=
  let matJson := [] in
  let matJson := Json.assign "model" (Json.number_integer (model mat)) matJson in
  let matJson := Json.assign "params" (serializeMaterialParams (params mat)) matJson in
  let matJson := Json.assign "name" (Json.str (name mat)) matJson in
  Json.assign key (Json.object matJson) modelsJson.

(** the document savePreset builds; a [json] variable that is assigned
    members is kept as its member list *)
Definition presetDocument (s : Settings) : Json.json :=
  let root := [] in
  let root :=
    Json.assign "globalParams" (serializeMaterialParams (materialParams s)) root in
  let root :=
    Json.assign "globalIlluminationModel"
                (Json.number_integer (globalIlluminationModel s)) root in
  let edgeJson := [] in
  let edgeJson :=
    Json.assign "enableOutlining" (Json.boolean (Renderer.enableOutlining (edgeParams s))) edgeJson in
  let edgeJson :=
    Json.assign "depthThreshold" (Json.number_float (Renderer.depthThreshold (edgeParams s))) edgeJson in
  let edgeJson :=
    Json.assign "normalThreshold" (Json.number_float (Renderer.normalThreshold (edgeParams s))) edgeJson in
  let edgeJson :=
    Json.assign "sobelThreshold" (Json.number_float (Renderer.sobelThreshold (edgeParams s))) edgeJson in
  let edgeJson :=
    Json.assign "colorThreshold" (Json.number_float (Renderer.colorThreshold (edgeParams s))) edgeJson in
  let edgeJson :=
    Json.assign "edgeWidth" (Json.number_float (Renderer.edgeWidth (edgeParams s))) edgeJson in
  let edgeJson :=
    Json.assign "edgeColor" (Json.to_json (Renderer.edgeColor (edgeParams s))) edgeJson in
  let edgeJson :=
    Json.assign "depthExponent" (Json.number_float (Renderer.depthExponent (edgeParams s))) edgeJson in
  let edgeJson :=
    Json.assign "normalSplit" (Json.number_float (Renderer.normalSplit (edgeParams s))) edgeJson in
  let edgeJson :=
    Json.assign "sobelScale" (Json.number_float (Renderer.sobelScale (edgeParams s))) edgeJson in
  let edgeJson :=
    Json.assign "smoothWidth" (Json.number_float (Renderer.smoothWidth (edgeParams s))) edgeJson in
  let edgeJson :=
    Json.assign "laplacianThreshold" (Json.number_float (Renderer.laplacianThreshold (edgeParams s))) edgeJson in
  let edgeJson :=
    Json.assign "laplacianScale" (Json.number_float (Renderer.laplacianScale (edgeParams s))) edgeJson in
  let root := Json.assign "edgeParams" (Json.object edgeJson) root in
  let root :=
    Json.assign "edgeDetectionFlags" (Json.number_integer (edgeDetectionFlags s)) root in
  let shadowJson := [] in
  let shadowJson :=
    Json.assign "shadowMapSize" (Json.number_integer (Renderer.shadowMapSize (shadowParams s))) shadowJson in
  let shadowJson :=
    Json.assign "cubeShadowMapSize" (Json.number_integer (Renderer.cubeShadowMapSize (shadowParams s))) shadowJson in
  let shadowJson :=
    Json.assign "shadowBias" (Json.number_float (Renderer.shadowBias (shadowParams s))) shadowJson in
  let shadowJson :=
    Json.assign "shadowNormalBias" (Json.number_float (Renderer.shadowNormalBias (shadowParams s))) shadowJson in
  let shadowJson :=
    Json.assign "shadowPCFSamples" (Json.number_integer (Renderer.shadowPCFSamples (shadowParams s))) shadowJson in
  let shadowJson :=
    Json.assign "shadowIntensity" (Json.number_float (Renderer.shadowIntensity (shadowParams s))) shadowJson in
  let shadowJson :=
    Json.assign "enablePCF" (Json.boolean (Renderer.enablePCF (shadowParams s))) shadowJson in
  let root := Json.assign "shadowParams" (Json.object shadowJson) root in
  let modelsJson := [] in
  let modelsJson := saveModelMat "floor" (materials s floorMaterial) modelsJson in
  let modelsJson := saveModelMat "wall" (materials s wallMaterial) modelsJson in
  let modelsJson := saveModelMat "ceiling" (materials s ceilingMaterial) modelsJson in
  let modelsJson := saveModelMat "woodFloor" (materials s woodFloorMaterial) modelsJson in
  let modelsJson := saveModelMat "stair" (materials s stairMaterial) modelsJson in
  let modelsJson := saveModelMat "torch" (materials s torchMaterial) modelsJson in
  let modelsJson := saveModelMat "dirt" (materials s dirtMaterial) modelsJson in
  let modelsJson := saveModelMat "table" (materials s tableMaterial) modelsJson in
  let modelsJson := saveModelMat "chair" (materials s chairMaterial) modelsJson in
  let modelsJson := saveModelMat "stool" (materials s stoolMaterial) modelsJson in
  let modelsJson := saveModelMat "barrel" (materials s barrelMaterial) modelsJson in
  let modelsJson := saveModelMat "shelf" (materials s shelfMaterial) modelsJson in
  let modelsJson := saveModelMat "bed" (materials s bedMaterial) modelsJson in
  let modelsJson := saveModelMat "chest" (materials s chestMaterial) modelsJson in
  let modelsJson := saveModelMat "banner" (materials s bannerMaterial) modelsJson in
  let modelsJson := saveModelMat "candle" (materials s candleMaterial) modelsJson in
  let modelsJson := saveModelMat "crate" (materials s crateMaterial) modelsJson in
  let modelsJson := saveModelMat "swordShield" (materials s swordShieldMaterial) modelsJson in
  let modelsJson := saveModelMat "woodPallet" (materials s woodPalletMaterial) modelsJson in
  let modelsJson := saveModelMat "woodPlanks" (materials s woodPlanksMaterial) modelsJson in
  let modelsJson := saveModelMat "stoneStack" (materials s stoneStackMaterial) modelsJson in
  let modelsJson := saveModelMat "goldBars" (materials s goldBarsMaterial) modelsJson in
  let modelsJson := saveModelMat "metalParts" (materials s metalPartsMaterial) modelsJson in
  let modelsJson := saveModelMat "textiles" (materials s textilesMaterial) modelsJson in
  let root := Json.assign "models" (Json.object modelsJson) root in
  Json.object root.

Definition savePreset (index : Z) (s : Settings) (disk : Disk) : Disk :=
  let root := presetDocument s in
  if writable disk index then
    MkDisk (fun i => if (i =? index)%Z then Some (Document root) else files disk i)
           (writable disk)
  else disk.

Definition set_model (v : Z) (mat : ModelMaterial) : ModelMaterial :=
  MkModelMaterial v (params mat) (name mat).
Definition set_params (v : MaterialParams) (mat : ModelMaterial) : ModelMaterial :=
  MkModelMaterial (model mat) v (name mat).
Definition set_name (v : String.string) (mat : ModelMaterial) : ModelMaterial :=
  MkModelMaterial (model mat) (params mat) v.

(** the lambda [loadModelMat] *)
Definition loadModelMat (mj : Json.json) (key : String.string) (m : Material)
    : Settings -> Outcome Settings :=
  ifContains mj key
    (fun item =>
       within (fun s => materials s m) (set_material m)
         (assignIf item "model" Json.get_int set_model ;;
          ifContains item "params"
            (fun pj => within params set_params (deserializeMaterialParams pj)))%try).

(** the body of the [try] block of loadPreset, after the file was parsed *)
Definition loadDocument (root : Json.json) : Settings -> Outcome Settings :=
  (ifContains root "globalParams"
     (fun gj => within materialParams set_materialParams (deserializeMaterialParams gj)) ;;
   assignIf root "globalIlluminationModel" Json.get_int set_globalIlluminationModel ;;
   ifContains root "edgeParams"
     (fun ej =>
        within edgeParams set_edgeParams
          (assignIf ej "enableOutlining" Json.get_bool set_edge_enableOutlining ;;
           assignIf ej "depthThreshold" Json.get_float set_edge_depthThreshold ;;
           assignIf ej "normalThreshold" Json.get_float set_edge_normalThreshold ;;
           assignIf ej "sobelThreshold" Json.get_float set_edge_sobelThreshold ;;
           assignIf ej "colorThreshold" Json.get_float set_edge_colorThreshold ;;
           assignIf ej "edgeWidth" Json.get_float set_edge_edgeWidth ;;
           assignIf ej "edgeColor" Json.get_vec3 set_edge_edgeColor ;;
           assignIf ej "depthExponent" Json.get_float set_edge_depthExponent ;;
           assignIf ej "normalSplit" Json.get_float set_edge_normalSplit ;;
           assignIf ej "sobelScale" Json.get_float set_edge_sobelScale ;;
           assignIf ej "smoothWidth" Json.get_float set_edge_smoothWidth ;;
           assignIf ej "laplacianThreshold" Json.get_float set_edge_laplacianThreshold ;;
           assignIf ej "laplacianScale" Json.get_float set_edge_laplacianScale)) ;;
   assignIf root "edgeDetectionFlags" Json.get_int set_edgeDetectionFlags ;;
   ifContains root "shadowParams"
     (fun sj =>
        within shadowParams set_shadowParams
          (assignIf sj "shadowMapSize" Json.get_int set_shadow_shadowMapSize ;;
           assignIf sj "cubeShadowMapSize" Json.get_int set_shadow_cubeShadowMapSize ;;
           assignIf sj "shadowBias" Json.get_float set_shadow_shadowBias ;;
           assignIf sj "shadowNormalBias" Json.get_float set_shadow_shadowNormalBias ;;
           assignIf sj "shadowPCFSamples" Json.get_int set_shadow_shadowPCFSamples ;;
           assignIf sj "shadowIntensity" Json.get_float set_shadow_shadowIntensity ;;
           assignIf sj "enablePCF" Json.get_bool set_shadow_enablePCF)) ;;
   ifContains root "models"
     (fun mj =>
        loadModelMat mj "floor" floorMaterial ;;
        loadModelMat mj "wall" wallMaterial ;;
        loadModelMat mj "ceiling" ceilingMaterial ;;
        loadModelMat mj "woodFloor" woodFloorMaterial ;;
        loadModelMat mj "stair" stairMaterial ;;
        loadModelMat mj "torch" torchMaterial ;;
        loadModelMat mj "dirt" dirtMaterial ;;
        loadModelMat mj "table" tableMaterial ;;
        loadModelMat mj "chair" chairMaterial ;;
        loadModelMat mj "stool" stoolMaterial ;;
        loadModelMat mj "barrel" barrelMaterial ;;
        loadModelMat mj "shelf" shelfMaterial ;;
        loadModelMat mj "bed" bedMaterial ;;
        loadModelMat mj "chest" chestMaterial ;;
        loadModelMat mj "banner" bannerMaterial ;;
        loadModelMat mj "candle" candleMaterial ;;
        loadModelMat mj "crate" crateMaterial ;;
        loadModelMat mj "swordShield" swordShieldMaterial ;;
        loadModelMat mj "woodPallet" woodPalletMaterial ;;
        loadModelMat mj "woodPlanks" woodPlanksMaterial ;;
        loadModelMat mj "stoneStack" stoneStackMaterial ;;
        loadModelMat mj "goldBars" goldBarsMaterial ;;
        loadModelMat mj "metalParts" metalPartsMaterial ;;
        loadModelMat mj "textiles" textilesMaterial))%try.

(** A file that is missing leaves everything as it is; so does a file that
    does not parse; an exception while the document is applied is caught,
    and what was assigned before it stays. *)
Definition loadPreset (index : Z) (disk : Disk) (s : Settings) : Settings :=
  match files disk index with
  | None => s
  | Some Unparsable => s
  | Some (Document root) => state (loadDocument root s)
  end.

(** *** Defaults *)

(** the lambda [resetMat] *)
Definition resetMat (mat : ModelMaterial) : ModelMaterial :=
  let savedName := name mat in
  let mat := set_model 0 mat in
  let mat := set_params MaterialParams_default mat in
  set_name savedName mat.

Definition onMaterial (m : Material) (f : ModelMaterial -> ModelMaterial)
    (s : Settings) : Settings :=
  set_material m (f (materials s m)) s.

Definition initializeModelMaterials (s : Settings) : Settings :=
  let s := onMaterial floorMaterial (set_name "Floor") s in
  let s := onMaterial wallMaterial (set_name "Walls") s in
  let s := onMaterial ceilingMaterial (set_name "Ceiling") s in
  let s := onMaterial woodFloorMaterial (set_name "Wood Floor") s in
  let s := onMaterial stairMaterial (set_name "Stairs") s in
  let s := onMaterial dirtMaterial (set_name "Grass/Dirt") s in
  let s := onMaterial tableMaterial (set_name "Table") s in
  let s := onMaterial chairMaterial (set_name "Chair") s in
  let s := onMaterial stoolMaterial (set_name "Stool") s in
  let s := onMaterial barrelMaterial (set_name "Barrel") s in
  let s := onMaterial shelfMaterial (set_name "Shelf") s in
  let s := onMaterial bedMaterial (set_name "Bed") s in
  let s := onMaterial chestMaterial (set_name "Chest") s in
  let s := onMaterial bannerMaterial (set_name "Banner") s in
  let s := onMaterial candleMaterial (set_name "Candles") s in
  let s := onMaterial crateMaterial (set_name "Crates") s in
  let s := onMaterial swordShieldMaterial (set_name "Sword & Shield") s in
  let s := onMaterial woodPalletMaterial (set_name "Wood Pallet") s in
  let s := onMaterial woodPlanksMaterial (set_name "Wood Planks") s in
  let s := onMaterial stoneStackMaterial (set_name "Stone Stack") s in
  let s := onMaterial goldBarsMaterial (set_name "Gold Bars") s in
  let s := onMaterial metalPartsMaterial (set_name "Metal Parts") s in
  let s := onMaterial textilesMaterial (set_name "Textiles") s in
  s.

Definition resetParamsToDefaults (s : Settings) : Settings :=
  let s := set_materialParams MaterialParams_default s in
  let s := set_globalIlluminationModel 0 s in
  let s := set_edgeDetectionFlags EdgeDetection.DEPTH_BASED s in
  let s := set_edgeParams EdgeParams_default s in
  let s := set_shadowParams Renderer.ShadowParams_default s in
  let s := onMaterial floorMaterial resetMat s in
  let s := onMaterial wallMaterial resetMat s in
  let s := onMaterial ceilingMaterial resetMat s in
  let s := onMaterial woodFloorMaterial resetMat s in
  let s := onMaterial stairMaterial resetMat s in
  let s := onMaterial dirtMaterial resetMat s in
  let s := onMaterial tableMaterial resetMat s in
  let s := onMaterial chairMaterial resetMat s in
  let s := onMaterial stoolMaterial resetMat s in
  let s := onMaterial barrelMaterial resetMat s in
  let s := onMaterial shelfMaterial resetMat s in
  let s := onMaterial bedMaterial resetMat s in
  let s := onMaterial chestMaterial resetMat s in
  let s := onMaterial bannerMaterial resetMat s in
  let s := onMaterial candleMaterial resetMat s in
  let s := onMaterial crateMaterial resetMat s in
  let s := onMaterial swordShieldMaterial resetMat s in
  let s := onMaterial woodPalletMaterial resetMat s in
  let s := onMaterial woodPlanksMaterial resetMat s in
  let s := onMaterial stoneStackMaterial resetMat s in
  let s := onMaterial goldBarsMaterial resetMat s in
  let s := onMaterial metalPartsMaterial resetMat s in
  let s := onMaterial textilesMaterial resetMat s in
  initializeModelMaterials s.

Definition initializeLights (s : Settings) : Settings :=
  set_lights Renderer.initializeLights s.

Definition applyPreset (index : Z) (s : Settings) : Settings :=
  let s := resetParamsToDefaults s in
  initializeLights s.

(** the settings of a renderer that was just constructed *)
Definition constructed : Settings :=
  initializeModelMaterials
    {| materialParams := MaterialParams_default;
       globalIlluminationModel := 0;
       edgeParams := EdgeParams_default;
       edgeDetectionFlags := EdgeDetection.DEPTH_BASED;
       shadowParams := Renderer.ShadowParams_default;
       materials := Material_default;
       lights := Renderer.initializeLights |}.

(** *** Material upload (Renderer::setModelMaterial) *)


End Presets.


(** ** Settings the windows of the GUI write (Renderer.h) *)

Module Config.

Definition set_edgeDetectionFlags (flags : Z) (r : Renderer.Renderer) : Renderer.Renderer :=
  Renderer.MkRenderer (Renderer.setup r) (Renderer.shadowParams r)
    (Renderer.materialParams r) (Renderer.globalIlluminationModel r)
    (Renderer.edgeParams r) flags (Renderer.lights r) (Renderer.shadowMaps r)
    (Renderer.stats r) (Renderer.totalTime r) (Renderer.glNext r)
    (Renderer.depthTextures r) (Renderer.cubeTextures r) (Renderer.gBuffer r)
    (Renderer.lightingTexture r) (Renderer.edgeTexture r) (Renderer.screen r)
    (Renderer.hybridCelUniforms r).

Definition setEdgeDetectionFlags (flags : Z) : Renderer.Cmd :=
  fun r => (set_edgeDetectionFlags flags r, []).

Definition getEdgeDetectionFlags (r : Renderer.Renderer) : Z :=
  Renderer.edgeDetectionFlags r.

End Config.

(** ** The global parameters window (GUI::renderGlobalParamsWindow) *)

Module GUI.

(** the five technique checkboxes, in the order of the window *)
Inductive Technique := DepthBased | NormalBased | Sobel | ColorBased | Laplacian.

(** [static_cast<int>(EdgeDetectionType::...)] *)
Definition flagOf (t : Technique) : Z :=
  match t with
  | DepthBased => EdgeDetection.DEPTH_BASED
  | NormalBased => EdgeDetection.NORMAL_BASED
  | Sobel => EdgeDetection.SOBEL
  | ColorBased => EdgeDetection.COLOR_BASED
  | Laplacian => EdgeDetection.LAPLACIAN
  end.

(** the bit of the flag word a technique stands for *)
Definition bitOf (t : Technique) : Z :=
  match t with
  | DepthBased => 0
  | NormalBased => 1
  | Sobel => 2
  | ColorBased => 3
  | Laplacian => 4
  end.

(** [if (ImGui::Checkbox(label, &box)) { if (box) edgeFlags |= F;
    else edgeFlags &= ~F; }]: a click flips [box] and makes the call return
    true *)
Definition techniqueCheckbox (F : Z) (box clicked : bool) (edgeFlags : Z) : Z :=
  if clicked then
    let box := negb box in
    if box then Z.lor edgeFlags F else Z.land edgeFlags (Z.lnot F)
  else edgeFlags.

(** The "Techniques" block of the window.  [headerOpen] is the result of
    the CollapsingHeader call, [clicked] tells which boxes the user clicked
    in this frame. *)
Definition renderGlobalParamsWindow_techniques
    (headerOpen : bool) (clicked : Technique -> bool) : Renderer.Cmd :=
  fun r =>
    let edgeFlags := Config.getEdgeDetectionFlags r in
    if Renderer.enableOutlining (Renderer.edgeParams r) then
      if headerOpen then
        let depthBased := negb (Z.land edgeFlags (flagOf DepthBased) =? 0)%Z in
        let normalBased := negb (Z.land edgeFlags (flagOf NormalBased) =? 0)%Z in
        let sobel := negb (Z.land edgeFlags (flagOf Sobel) =? 0)%Z in
        let colorBased := negb (Z.land edgeFlags (flagOf ColorBased) =? 0)%Z in
        let laplacian := negb (Z.land edgeFlags (flagOf Laplacian) =? 0)%Z in
        let edgeFlags :=
          techniqueCheckbox (flagOf DepthBased) depthBased (clicked DepthBased)
                            edgeFlags in
        let edgeFlags :=
          techniqueCheckbox (flagOf NormalBased) normalBased (clicked NormalBased)
                            edgeFlags in
        let edgeFlags :=
          techniqueCheckbox (flagOf Sobel) sobel (clicked Sobel) edgeFlags in
        let edgeFlags :=
          techniqueCheckbox (flagOf ColorBased) colorBased (clicked ColorBased)
                            edgeFlags in
        let edgeFlags :=
          techniqueCheckbox (flagOf Laplacian) laplacian (clicked Laplacian)
                            edgeFlags in
        Config.setEdgeDetectionFlags edgeFlags r
      else (r, [])
    else (r, []).

End GUI.

(** ** Vocabulary: the lighting uniforms with one light replaced *)

Module Upload.

(** [lights[i] = light] in the uniform store *)
Definition setLight (u : HybridCelLighting.Uniforms) (i : nat)
    (light : HybridCelLighting.Light) : HybridCelLighting.Uniforms :=
  {| HybridCelLighting.gBaseColor := HybridCelLighting.gBaseColor u;
     HybridCelLighting.gNormal := HybridCelLighting.gNormal u;
     HybridCelLighting.gPosition := HybridCelLighting.gPosition u;
     HybridCelLighting.gQuantization := HybridCelLighting.gQuantization u;
     HybridCelLighting.shadowMaps := HybridCelLighting.shadowMaps u;
     HybridCelLighting.shadowCubeMaps := HybridCelLighting.shadowCubeMaps u;
     HybridCelLighting.lightSpaceMatrices := HybridCelLighting.lightSpaceMatrices u;
     HybridCelLighting.shadowBias := HybridCelLighting.shadowBias u;
     HybridCelLighting.shadowNormalBias := HybridCelLighting.shadowNormalBias u;
     HybridCelLighting.shadowPCFSamples := HybridCelLighting.shadowPCFSamples u;
     HybridCelLighting.shadowIntensity := HybridCelLighting.shadowIntensity u;
     HybridCelLighting.enablePCF := HybridCelLighting.enablePCF u;
     HybridCelLighting.shadowFarPlane := HybridCelLighting.shadowFarPlane u;
     HybridCelLighting.numLights := HybridCelLighting.numLights u;
     HybridCelLighting.lights := Renderer.upd (HybridCelLighting.lights u) i light;
     HybridCelLighting.viewPos := HybridCelLighting.viewPos u;
     HybridCelLighting.diffuseQuantizationBands :=
       HybridCelLighting.diffuseQuantizationBands u;
     HybridCelLighting.specularThreshold1 := HybridCelLighting.specularThreshold1 u;
     HybridCelLighting.specularThreshold2 := HybridCelLighting.specularThreshold2 u;
     HybridCelLighting.enableQuantization := HybridCelLighting.enableQuantization u;
     HybridCelLighting.globalMaterialType := HybridCelLighting.globalMaterialType u |}.

(** the same light with the type tag of a point light *)
Definition asPointLight (light : HybridCelLighting.Light) : HybridCelLighting.Light :=
  HybridCelLighting.MkLight 1
    (HybridCelLighting.position light) (HybridCelLighting.direction light)
    (HybridCelLighting.color light) (HybridCelLighting.intensity light)
    (HybridCelLighting.constant light) (HybridCelLighting.linear light)
    (HybridCelLighting.quadratic light) (HybridCelLighting.cutOff light)
    (HybridCelLighting.outerCutOff light) (HybridCelLighting.castShadows light).

End Upload.

Import String.StringSyntax.
Delimit Scope string_scope with string.

(** ** More concrete inputs *)

Module Cases.

(** the uniforms of [Sample.occluded] over a G-buffer whose normal is +Z
    everywhere *)
Definition facingZ (shadowIntensity : R) : HybridCelLighting.Uniforms :=
  let o := Sample.occluded shadowIntensity in
  {| HybridCelLighting.gBaseColor := HybridCelLighting.gBaseColor o;
     HybridCelLighting.gNormal := Sample.flat2D (Vec4 0 0 1 0);
     HybridCelLighting.gPosition := HybridCelLighting.gPosition o;
     HybridCelLighting.gQuantization := HybridCelLighting.gQuantization o;
     HybridCelLighting.shadowMaps := HybridCelLighting.shadowMaps o;
     HybridCelLighting.shadowCubeMaps := HybridCelLighting.shadowCubeMaps o;
     HybridCelLighting.lightSpaceMatrices := HybridCelLighting.lightSpaceMatrices o;
     HybridCelLighting.shadowBias := HybridCelLighting.shadowBias o;
     HybridCelLighting.shadowNormalBias := HybridCelLighting.shadowNormalBias o;
     HybridCelLighting.shadowPCFSamples := HybridCelLighting.shadowPCFSamples o;
     HybridCelLighting.shadowIntensity := HybridCelLighting.shadowIntensity o;
     HybridCelLighting.enablePCF := HybridCelLighting.enablePCF o;
     HybridCelLighting.shadowFarPlane := HybridCelLighting.shadowFarPlane o;
     HybridCelLighting.numLights := HybridCelLighting.numLights o;
     HybridCelLighting.lights := HybridCelLighting.lights o;
     HybridCelLighting.viewPos := HybridCelLighting.viewPos o;
     HybridCelLighting.diffuseQuantizationBands :=
       HybridCelLighting.diffuseQuantizationBands o;
     HybridCelLighting.specularThreshold1 := HybridCelLighting.specularThreshold1 o;
     HybridCelLighting.specularThreshold2 := HybridCelLighting.specularThreshold2 o;
     HybridCelLighting.enableQuantization := HybridCelLighting.enableQuantization o;
     HybridCelLighting.globalMaterialType := HybridCelLighting.globalMaterialType o |}.

(** a depth buffer with a vertical step: 0 left of [x = 1/2], 1 from there on *)
Definition depthStep : sampler2D :=
  Sampler2D (fun p => if fltb (x2 p) (1 / 2) then Vec4 0 0 0 1 else Vec4 1 1 1 1)
            (1920, 1080)%Z.

(** [Sample.flatScene] with the stepped depth buffer, depth technique on *)
Definition steppedScene : EdgeDetection.Uniforms :=
  let f := Sample.flatScene (Vec3 0 0 1) Sample.zero3 EdgeDetection.DEPTH_BASED
                            (1 / 10) 1 Sample.zero3 in
  {| EdgeDetection.gPosition := EdgeDetection.gPosition f;
     EdgeDetection.gNormal := EdgeDetection.gNormal f;
     EdgeDetection.gDepth := depthStep;
     EdgeDetection.colorTexture := EdgeDetection.colorTexture f;
     EdgeDetection.edgeFlags := EdgeDetection.edgeFlags f;
     EdgeDetection.depthThreshold := EdgeDetection.depthThreshold f;
     EdgeDetection.normalThreshold := EdgeDetection.normalThreshold f;
     EdgeDetection.sobelThreshold := EdgeDetection.sobelThreshold f;
     EdgeDetection.colorThreshold := EdgeDetection.colorThreshold f;
     EdgeDetection.edgeColor := EdgeDetection.edgeColor f;
     EdgeDetection.screenSize := EdgeDetection.screenSize f;
     EdgeDetection.depthExponent := EdgeDetection.depthExponent f;
     EdgeDetection.normalSplit := EdgeDetection.normalSplit f;
     EdgeDetection.sobelScale := EdgeDetection.sobelScale f;
     EdgeDetection.smoothWidth := EdgeDetection.smoothWidth f;
     EdgeDetection.laplacianThreshold := EdgeDetection.laplacianThreshold f;
     EdgeDetection.laplacianScale := EdgeDetection.laplacianScale f |}.

(** [Sample.oneCrate] where the two shadow programs failed to load *)
Definition withoutShadowPrograms : Renderer.Setup :=
  {| Renderer.width := Renderer.width Sample.oneCrate;
     Renderer.height := Renderer.height Sample.oneCrate;
     Renderer.shaders := Renderer.MkShaders true false false true true true;
     Renderer.sceneModels := Renderer.sceneModels Sample.oneCrate;
     Renderer.geometryModels := Renderer.geometryModels Sample.oneCrate;
     Renderer.rasterDepth := Renderer.rasterDepth Sample.oneCrate;
     Renderer.rasterDepthCube := Renderer.rasterDepthCube Sample.oneCrate;
     Renderer.rasterGBuffer := Renderer.rasterGBuffer Sample.oneCrate |}.

(** the constructed renderer after every technique checkbox was cleared *)
Definition noTechniques : Renderer.Renderer :=
  Renderer.run (Config.setEdgeDetectionFlags 0)
               (Sample.constructed Sample.oneCrate [Sample.lamp]).

(** a directional light pointing straight down *)
Definition downLight : Lighting.Light :=
  Lighting.set_type Lighting.DIRECTIONAL Lighting.Light_default.

(** the uniforms of [Sample.occluded] where every light-space matrix is the
    one renderDirectionalShadow computes for [downLight] *)
Definition sunlit : HybridCelLighting.Uniforms :=
  let o := Sample.occluded (7 / 10) in
  {| HybridCelLighting.gBaseColor := HybridCelLighting.gBaseColor o;
     HybridCelLighting.gNormal := HybridCelLighting.gNormal o;
     HybridCelLighting.gPosition := HybridCelLighting.gPosition o;
     HybridCelLighting.gQuantization := HybridCelLighting.gQuantization o;
     HybridCelLighting.shadowMaps := HybridCelLighting.shadowMaps o;
     HybridCelLighting.shadowCubeMaps := HybridCelLighting.shadowCubeMaps o;
     HybridCelLighting.lightSpaceMatrices :=
       fun _ => Renderer.directionalLightSpaceMatrix Renderer.ShadowParams_default
                                                     downLight;
     HybridCelLighting.shadowBias := HybridCelLighting.shadowBias o;
     HybridCelLighting.shadowNormalBias := HybridCelLighting.shadowNormalBias o;
     HybridCelLighting.shadowPCFSamples := HybridCelLighting.shadowPCFSamples o;
     HybridCelLighting.shadowIntensity := HybridCelLighting.shadowIntensity o;
     HybridCelLighting.enablePCF := HybridCelLighting.enablePCF o;
     HybridCelLighting.shadowFarPlane := HybridCelLighting.shadowFarPlane o;
     HybridCelLighting.numLights := HybridCelLighting.numLights o;
     HybridCelLighting.lights := HybridCelLighting.lights o;
     HybridCelLighting.viewPos := HybridCelLighting.viewPos o;
     HybridCelLighting.diffuseQuantizationBands :=
       HybridCelLighting.diffuseQuantizationBands o;
     HybridCelLighting.specularThreshold1 := HybridCelLighting.specularThreshold1 o;
     HybridCelLighting.specularThreshold2 := HybridCelLighting.specularThreshold2 o;
     HybridCelLighting.enableQuantization := HybridCelLighting.enableQuantization o;
     HybridCelLighting.globalMaterialType := HybridCelLighting.globalMaterialType o |}.

(** hard shadows: [Sample.occluded] where the cube maps hold the depth
    point_shadow.frag writes for a surface two units from a light at the
    origin *)
Definition lampCube : HybridCelLighting.Uniforms :=
  let o := Sample.occluded (7 / 10) in
  {| HybridCelLighting.gBaseColor := HybridCelLighting.gBaseColor o;
     HybridCelLighting.gNormal := HybridCelLighting.gNormal o;
     HybridCelLighting.gPosition := HybridCelLighting.gPosition o;
     HybridCelLighting.gQuantization := HybridCelLighting.gQuantization o;
     HybridCelLighting.shadowMaps := HybridCelLighting.shadowMaps o;
     HybridCelLighting.shadowCubeMaps :=
       fun _ => SamplerCube
                  (fun _ => let d := PointShadow.main
                                       (PointShadow.MkUniforms Sample.zero3 50)
                                       (Vec4 0 0 2 1) in
                            Vec4 d d d 1);
     HybridCelLighting.lightSpaceMatrices := HybridCelLighting.lightSpaceMatrices o;
     HybridCelLighting.shadowBias := 5 / 1000;
     HybridCelLighting.shadowNormalBias := HybridCelLighting.shadowNormalBias o;
     HybridCelLighting.shadowPCFSamples := HybridCelLighting.shadowPCFSamples o;
     HybridCelLighting.shadowIntensity := HybridCelLighting.shadowIntensity o;
     HybridCelLighting.enablePCF := HybridCelLighting.enablePCF o;
     HybridCelLighting.shadowFarPlane := HybridCelLighting.shadowFarPlane o;
     HybridCelLighting.numLights := HybridCelLighting.numLights o;
     HybridCelLighting.lights := HybridCelLighting.lights o;
     HybridCelLighting.viewPos := HybridCelLighting.viewPos o;
     HybridCelLighting.diffuseQuantizationBands :=
       HybridCelLighting.diffuseQuantizationBands o;
     HybridCelLighting.specularThreshold1 := HybridCelLighting.specularThreshold1 o;
     HybridCelLighting.specularThreshold2 := HybridCelLighting.specularThreshold2 o;
     HybridCelLighting.enableQuantization := HybridCelLighting.enableQuantization o;
     HybridCelLighting.globalMaterialType := HybridCelLighting.globalMaterialType o |}.




(** a white Lambertian pixel at (0,0,1) whose normal is +Y *)
Definition wallPixel : HybridCelLighting.GBufferData :=
  {| HybridCelLighting.baseColor := Vec3 1 1 1;
     HybridCelLighting.materialType := 0;
     HybridCelLighting.worldNormal := Vec3 0 1 0;
     HybridCelLighting.roughness := 1 / 10;
     HybridCelLighting.worldPosition := Vec3 0 0 1;
     HybridCelLighting.specularShininess := 32;
     HybridCelLighting.ambientOcclusion := 1;
     HybridCelLighting.edgeWeight := 1 |}.

(** the light of the "Add Spot Light" button, without shadows, as the
    lighting pass uploads it *)
Definition guiSpot : HybridCelLighting.Light :=
  Renderer.toShaderLight
    (Lighting.set_castShadows false
       (Lighting.createSpotLight (Vec3 0 3 0) (Vec3 0 (-1) 0) (Vec3 1 1 1)
                                 (125 / 10) 15 1)).

(** a frame in which the user clicks the Sobel checkbox *)
Definition clickSobel (t : GUI.Technique) : bool :=
  match t with GUI.Sobel => true | _ => false end.

(** a disk without preset files, on which files can be created *)
Definition emptyDisk : Presets.Disk :=
  Presets.MkDisk (fun _ => None) (fun _ => true).

(** a preset whose illumination model is spelled out instead of numbered *)
Definition badPreset : Json.json :=
  Json.object
    [ ("globalParams"%string,
       Presets.serializeMaterialParams
         (Presets.set_diffuseQuantizationBands 3 Presets.MaterialParams_default));
      ("globalIlluminationModel"%string, Json.str "Minnaert"%string);
      ("edgeDetectionFlags"%string, Json.number_integer 31) ].

Definition badDisk : Presets.Disk :=
  Presets.MkDisk (fun i => if (i =? 0)%Z then Some (Presets.Document badPreset) else None)
                 (fun _ => true).

(** a camera three units in front of the origin, looking down -Z *)
Definition viewer : CameraObject.Camera :=
  CameraObject.Camera_new (25 / 10) (1 / 10) 45 (Vec3 0 0 3) (Vec3 0 1 0) (-90) 0.

(** the program in GUI mode, the cursor in the middle of the window *)
Definition inGui : Main.State :=
  {| Main.camera := viewer;
     Main.lastX := 960;
     Main.lastY := 540;
     Main.firstMouse := false;
     Main.guiMode := true;
     Main.deltaTime := 16 / 1000;
     Main.tabPressed := false;
     Main.windowShouldClose := false;
     Main.cursorDisabled := false |}.

(** only TAB is down *)
Definition tabOnly (k : Main.Key) : bool :=
  match k with Main.KEY_TAB => true | _ => false end.

End Cases.

(** * Properties *)

Import HybridCelLighting.

(** ** Real-number helpers *)

Lemma fltb_true (a b : R) : fltb a b = true <-> a < b.
Proof. unfold fltb. destruct (Rlt_dec a b); split; intros; try done; lra. Qed.

Lemma fltb_false (a b : R) : fltb a b = false <-> b <= a.
Proof. unfold fltb. destruct (Rlt_dec a b); split; intros; try done; lra. Qed.

Lemma fleb_true (a b : R) : fleb a b = true <-> a <= b.
Proof. unfold fleb. destruct (Rle_dec a b); split; intros; try done; lra. Qed.

Lemma fleb_false (a b : R) : fleb a b = false <-> b < a.
Proof. unfold fleb. destruct (Rle_dec a b); split; intros; try done; lra. Qed.

Lemma fgtb_true (a b : R) : fgtb a b = true <-> a > b.
Proof. unfold fgtb. rewrite fltb_true. lra. Qed.

Lemma fgtb_false (a b : R) : fgtb a b = false <-> a <= b.
Proof. unfold fgtb. rewrite fltb_false. lra. Qed.

Lemma floor_unique (x : R) (z : Z) : IZR z <= x < IZR z + 1 -> floor x = IZR z.
Proof.
  intros [Hlo Hhi]. unfold floor. f_equal. symmetry.
  apply Int_part_spec. lra.
Qed.

Lemma clamp_inside (x lo hi : R) : lo <= x <= hi -> clamp x lo hi = x.
Proof.
  intros [Hlo Hhi]. unfold clamp.
  rewrite Rmax_left by lra. rewrite Rmin_left by lra. reflexivity.
Qed.

Lemma clamp_above (x lo hi : R) : lo <= hi -> hi <= x -> clamp x lo hi = hi.
Proof.
  intros Hlh Hx. unfold clamp.
  rewrite Rmax_left by lra. rewrite Rmin_right by lra. reflexivity.
Qed.

Lemma clamp_below (x lo hi : R) : lo <= hi -> x <= lo -> clamp x lo hi = lo.
Proof.
  intros Hlh Hx. unfold clamp.
  rewrite Rmax_right by lra. rewrite Rmin_left by lra. reflexivity.
Qed.

Lemma clamp_bounds (x lo hi : R) : lo <= hi -> lo <= clamp x lo hi <= hi.
Proof.
  intros Hlh. unfold clamp, Rmin, Rmax.
  repeat destruct (Rle_dec _ _); lra.
Qed.

(** ** Shadow weighting *)

Lemma effectiveShadow_unfold (shadow si : R) :
  effectiveShadow shadow si = si + (1 - shadow) * (1 - si).
Proof. unfold effectiveShadow, mix. ring. Qed.

Lemma pointShadowTest_occluded (si : R) :
  pointShadowTest (Sample.occluded si) 0 (Vec3 1 0 0) Sample.zero3 = 1.
Proof.
  unfold pointShadowTest, length3, dot3, sub3, gtOne. simpl.
  replace (_ + _ + _) with (1 * 1) by ring.
  rewrite sqrt_square by lra.
  replace (fgtb _ _) with true; [reflexivity|].
  symmetry. apply fgtb_true. lra.
Qed.

(** The filtered point-shadow loops run over four offsets each; the guard
    [x < offset] ends them, well within the bound of [floatRange]. *)
Lemma floatRange_pointShadow :
  let offset := 1 / 10 in
  let step := offset / (4 * (5 / 10)) in
  floatRange 8 (- offset) offset step
  = [- offset; - offset + step; - offset + step + step; - offset + step + step + step].
Proof.
  cbv zeta. cbn [floatRange].
  repeat match goal with
         | |- context [fltb ?a ?b] =>
             first [ rewrite (proj2 (fltb_true a b)) by lra
                   | rewrite (proj2 (fltb_false a b)) by lra ]
         end.
  reflexivity.
Qed.

(** C1, as the claim states it, fails: a fully occluded fragment (raw test
    result 1) is weighted to 0, not 1, at [shadowIntensity = 0], and to 1, not
    [1 - 1], at [shadowIntensity = 1]; calculatePointShadow returns these
    values. *)
Lemma shadow_intensity_claim_fails :
  effectiveShadow 1 0 <> 1
  /\ effectiveShadow 1 1 <> 1 - 1
  /\ calculatePointShadow (Sample.occluded 0) 0 (Vec3 1 0 0) Sample.zero3 = 0
  /\ calculatePointShadow (Sample.occluded 1) 0 (Vec3 1 0 0) Sample.zero3 = 1.
Proof.
  unfold calculatePointShadow. rewrite !pointShadowTest_occluded.
  rewrite !effectiveShadow_unfold. simpl. repeat split; lra.
Qed.

(** C1 (amended): the weighting has the opposite polarity.  With
    [shadowIntensity = 0] both shadow functions return [1 - rawShadow] (the
    directional/spot one returns 1 from its early exit outside the map); with
    [shadowIntensity = 1] both return 1 whatever the raw test result. *)
Theorem shadow_intensity_endpoints
    (u : Uniforms) (i : nat) (fragPos lightPos normal lightDir : vec3) :
  (shadowIntensity u = 0 ->
     calculatePointShadow u i fragPos lightPos = 1 - pointShadowTest u i fragPos lightPos
     /\ calculateDirectionalSpotShadow u i fragPos normal lightDir
        = if outsideShadowMap (projectToLight u i fragPos) then 1
          else 1 - directionalSpotShadowTest u i fragPos normal lightDir)
  /\ (shadowIntensity u = 1 ->
     calculatePointShadow u i fragPos lightPos = 1
     /\ calculateDirectionalSpotShadow u i fragPos normal lightDir = 1).
Proof.
  unfold calculatePointShadow, calculateDirectionalSpotShadow.
  split; intros ->; rewrite !effectiveShadow_unfold;
    (split; [ring | destruct (outsideShadowMap _); ring]).
Qed.

Lemma shadow_intensity_endpoints_witness :
  calculatePointShadow (Sample.occluded 0) 0 (Vec3 1 0 0) Sample.zero3
  = 1 - pointShadowTest (Sample.occluded 0) 0 (Vec3 1 0 0) Sample.zero3
  /\ calculatePointShadow (Sample.occluded 1) 0 (Vec3 1 0 0) Sample.zero3 = 1.
Proof.
  split.
  - apply (proj1 (shadow_intensity_endpoints (Sample.occluded 0) 0 (Vec3 1 0 0)
                    Sample.zero3 Sample.zero3 Sample.zero3)).
    reflexivity.
  - apply (proj2 (shadow_intensity_endpoints (Sample.occluded 1) 0 (Vec3 1 0 0)
                    Sample.zero3 Sample.zero3 Sample.zero3)).
    reflexivity.
Defined.

(** ** Diffuse quantization *)

Lemma quantize_above_one : quantizeDiffuseIntensity (3 / 2) 2 = 1.
Proof.
  unfold quantizeDiffuseIntensity. simpl.
  rewrite clamp_above by lra.
  rewrite (floor_unique _ 2) by lra. lra.
Qed.

Lemma quantize_spec_above_one : quantizeDiffuse_spec (3 / 2) 2 = 3 / 2.
Proof.
  unfold quantizeDiffuse_spec, round.
  rewrite (floor_unique _ 3) by lra. lra.
Qed.

(** C5, as the claim states it, fails: the code clamps the intensity to
    [0,1] before banding, so an intensity of 1.5 in 2 bands gives 1 where
    [round(1.5 * 2) / 2] is 1.5. *)
Lemma quantize_claim_fails :
  quantizeDiffuseIntensity (3 / 2) 2 <> quantizeDiffuse_spec (3 / 2) 2.
Proof. rewrite quantize_above_one, quantize_spec_above_one. lra. Qed.

(** C5 (amended): with 2 or more bands the function maps the intensity to
    [round(clamp(intensity, 0, 1) * N) / N]; [quantizeDiffuseIntensity(0.73, 5)]
    is 0.8; with 1 band (or fewer) every intensity passes through unchanged. *)
Theorem quantize_diffuse_bands (x : R) (N : Z) :
  quantizeDiffuseIntensity (73 / 100) 5 = 8 / 10
  /\ quantizeDiffuseIntensity x 1 = x
  /\ ((N <= 1)%Z -> quantizeDiffuseIntensity x N = x)
  /\ ((2 <= N)%Z ->
      quantizeDiffuseIntensity x N = quantizeDiffuse_spec (clamp x 0 1) N).
Proof.
  repeat split.
  - unfold quantizeDiffuseIntensity. simpl.
    rewrite clamp_inside by lra.
    rewrite (floor_unique _ 4) by lra. lra.
  - intros H. unfold quantizeDiffuseIntensity.
    destruct (Z.leb_spec N 1); [reflexivity | lia].
  - intros H. unfold quantizeDiffuseIntensity, quantizeDiffuse_spec, round.
    destruct (Z.leb_spec N 1); [lia |].
    do 3 f_equal. lra.
Qed.

Lemma quantize_diffuse_bands_witness :
  quantizeDiffuseIntensity (3 / 2) 0 = 3 / 2
  /\ quantizeDiffuseIntensity (3 / 2) 2 = quantizeDiffuse_spec (clamp (3 / 2) 0 1) 2.
Proof.
  split.
  - apply (proj1 (proj2 (proj2 (quantize_diffuse_bands (3 / 2) 0)))). lia.
  - apply (proj2 (proj2 (proj2 (quantize_diffuse_bands (3 / 2) 2)))). lia.
Defined.

(** ** Edge detection on a flat input *)

Import EdgeDetection.

Lemma smoothstep_below (e0 e1 x : R) : e0 < e1 -> x <= e0 -> smoothstep e0 e1 x = 0.
Proof.
  intros He Hx. unfold smoothstep.
  assert (Hq : (x - e0) / (e1 - e0) <= 0).
  { unfold Rdiv. assert (0 < / (e1 - e0)) by (apply Rinv_0_lt_compat; lra). nra. }
  rewrite clamp_below by lra. ring.
Qed.

Lemma smoothstep_above (e0 e1 x : R) : e0 < e1 -> e1 <= x -> smoothstep e0 e1 x = 1.
Proof.
  intros He Hx. unfold smoothstep.
  assert (Hq : 1 <= (x - e0) / (e1 - e0)).
  { apply Rmult_le_reg_r with (e1 - e0); [lra|].
    unfold Rdiv. rewrite Rmult_assoc, Rinv_l by lra. lra. }
  rewrite clamp_above by lra. ring.
Qed.

Lemma getEdgeIntensity_zero (u : EdgeDetection.Uniforms) (threshold : R) :
  0 < smoothWidth u -> smoothWidth u * (1 / 100) <= threshold ->
  getEdgeIntensity u 0 threshold = 0.
Proof. intros Hw Ht. unfold getEdgeIntensity. apply smoothstep_below; lra. Qed.

Lemma sqrt_zero_sum : sqrt (0 * 0 + 0 * 0) = 0.
Proof. replace (0 * 0 + 0 * 0) with 0 by ring. apply sqrt_0. Qed.

Lemma computeSobel_flat (c : R) : computeSobel c c c c c c c c = 0.
Proof.
  unfold computeSobel.
  replace (c * -1 + c * 1 + c * -2 + c * 2 + c * -1 + c * 1) with 0 by ring.
  replace (c * -1 + c * -2 + c * -1 + c * 1 + c * 2 + c * 1) with 0 by ring.
  apply sqrt_zero_sum.
Qed.

Example computeSobel_vertical_step : computeSobel 0 0 1 0 1 0 0 1 = 4.
Proof.
  unfold computeSobel.
  replace (_ * _ + _ * _) with (4 * 4) by ring.
  apply sqrt_square. lra.
Qed.

Section FlatInput.

Variable u : EdgeDetection.Uniforms.
Variable uv : vec2.

Lemma depth_signal_flat :
  flat (gDepth u) ->
  depthEdgeDetection u uv = getEdgeIntensity u 0 (depthThreshold u).
Proof.
  intros Hf. unfold depthEdgeDetection. cbv zeta.
  rewrite !(Hf (add2 _ _) uv), !(Hf (sub2 _ _) uv).
  rewrite !Rminus_diag, Rabs_R0, sqrt_zero_sum. reflexivity.
Qed.

Lemma normal_signal_flat :
  flat (gNormal u) -> length3 (xyz (texture (gNormal u) uv)) = 1 ->
  normalEdgeDetection u uv = getEdgeIntensity u 0 (normalThreshold u).
Proof.
  intros Hf Hn. unfold normalEdgeDetection. cbv zeta.
  rewrite !(Hf (add2 _ _) uv), !(Hf (sub2 _ _) uv).
  set (n := xyz (texture (gNormal u) uv)) in *.
  assert (Hd : dot3 n n = 1).
  { unfold length3 in Hn.
    assert (0 <= dot3 n n) by (unfold dot3; nra).
    rewrite <- (sqrt_sqrt (dot3 n n)) by assumption. rewrite Hn. ring. }
  rewrite Hd, !Rmin_left by lra.
  rewrite Rminus_diag. reflexivity.
Qed.

Lemma sobelOf_flat (f : vec4 -> R) (tex : sampler2D) :
  flat tex -> sobelOf f (window u uv tex) = 0.
Proof.
  intros Hf. unfold window, sobelOf.
  rewrite !(Hf (add2 _ _) uv). apply computeSobel_flat.
Qed.

Lemma sobel_signal_flat :
  flat (gNormal u) ->
  normalSobelDetection u uv = getEdgeIntensity u 0 (sobelThreshold u).
Proof.
  intros Hf. unfold normalSobelDetection. cbv zeta.
  rewrite !sobelOf_flat by assumption. f_equal. ring.
Qed.

Lemma color_signal_flat :
  flat (colorTexture u) ->
  colorEdgeDetection u uv = getEdgeIntensity u 0 (colorThreshold u).
Proof.
  intros Hf. unfold colorEdgeDetection. cbv zeta.
  rewrite sobelOf_flat by assumption. f_equal. ring.
Qed.

Lemma laplacian_signal_flat :
  flat (gDepth u) ->
  laplacianEdgeDetection u uv = getEdgeIntensity u 0 (laplacianThreshold u).
Proof.
  intros Hf. unfold laplacianEdgeDetection. cbv zeta.
  rewrite !(Hf (add2 _ _) uv), !(Hf (sub2 _ _) uv).
  set (c := getLinearDepth u _).
  replace (c + c + c + c + c + c + c + c - 8 * c) with 0 by ring.
  rewrite Rabs_R0. f_equal. ring.
Qed.

End FlatInput.

Lemma length3_unit_z : length3 (Vec3 0 0 1) = 1.
Proof.
  unfold length3, dot3. simpl.
  replace (0 * 0 + 0 * 0 + 1 * 1) with 1 by ring. apply sqrt_1.
Qed.

(** The edge pass on a window that shows only cleared background: the
    normal buffer is constantly the zero vector, and the dot-product technique
    at its default threshold reports a full edge. *)
Lemma edge_on_cleared_background (uv : vec2) :
  edgeIntensity (Sample.flatScene Sample.zero3 Sample.zero3 NORMAL_BASED (1 / 10) 1
                                  Sample.zero3) uv = 1.
Proof.
  unfold edgeIntensity, enabled. simpl.
  unfold normalEdgeDetection, getEdgeIntensity, dot3. simpl.
  replace (0 * 0 + 0 * 0 + 0 * 0) with 0 by ring.
  rewrite !Rmin_left by lra.
  rewrite smoothstep_above by lra.
  apply Rmax_right. lra.
Qed.

(** The depth technique at the lowest threshold its slider offers (0.001)
    with the default smoothing width: the lower smoothstep edge is negative,
    and a zero signal already gives a partial edge. *)
Lemma edge_at_low_threshold (uv : vec2) :
  edgeIntensity (Sample.flatScene (Vec3 0 0 1) Sample.zero3 DEPTH_BASED (1 / 1000) 1
                                  Sample.zero3) uv = 1701 / 4000.
Proof.
  unfold edgeIntensity, enabled. simpl.
  rewrite depth_signal_flat by (intros p q; reflexivity).
  unfold getEdgeIntensity, smoothstep. simpl.
  replace ((0 - (1 / 1000 - 1 * (1 / 100)))
           / (1 / 1000 + 1 * (1 / 100) - (1 / 1000 - 1 * (1 / 100))))
    with (9 / 20) by lra.
  rewrite clamp_inside by lra.
  rewrite Rmax_right by lra. lra.
Qed.

(** C7, as the claim states it, fails on constant inputs: with a constant
    normal that is not of unit length (the cleared background) the
    dot-product signal is 1, and with a threshold below the smoothing width
    a zero signal is not mapped to 0. *)
Lemma flat_edge_claim_fails :
  let background :=
    Sample.flatScene Sample.zero3 Sample.zero3 NORMAL_BASED (1 / 10) 1 Sample.zero3 in
  let sensitive :=
    Sample.flatScene (Vec3 0 0 1) Sample.zero3 DEPTH_BASED (1 / 1000) 1 Sample.zero3 in
  flat (gDepth background) /\ flat (gNormal background) /\ flat (colorTexture background)
  /\ edgeIntensity background (Vec2 (1 / 2) (1 / 2)) = 1
  /\ edgeIntensity background (Vec2 (1 / 2) (1 / 2)) <> 0
  /\ edgeIntensity sensitive (Vec2 (1 / 2) (1 / 2)) = 1701 / 4000
  /\ edgeIntensity sensitive (Vec2 (1 / 2) (1 / 2)) <> 0.
Proof.
  cbv zeta. rewrite edge_on_cleared_background, edge_at_low_threshold.
  repeat split; try (intros p q; reflexivity); lra.
Qed.

(** C7 (amended): for every constant depth / normal / colour input (whose
    normal has unit length, if the dot-product technique is enabled), every
    combination of enabled techniques, and every setting with a positive
    smoothing width in which each enabled technique's threshold is at least
    [smoothWidth * 0.01], the edge pass outputs edge intensity 0 (and the
    texel (0,0,0,0)) at every pixel. *)
Theorem flat_input_no_edge (u : EdgeDetection.Uniforms) (uv : vec2) :
  flat (gDepth u) -> flat (gNormal u) -> flat (colorTexture u) ->
  (enabled u NORMAL_BASED = true -> length3 (xyz (texture (gNormal u) uv)) = 1) ->
  0 < smoothWidth u ->
  clears u DEPTH_BASED (depthThreshold u) ->
  clears u NORMAL_BASED (normalThreshold u) ->
  clears u SOBEL (sobelThreshold u) ->
  clears u COLOR_BASED (colorThreshold u) ->
  clears u LAPLACIAN (laplacianThreshold u) ->
  edgeIntensity u uv = 0 /\ EdgeDetection.main u uv = Vec4 0 0 0 0.
Proof.
  intros Hd Hn Hc Hunit Hw HD HN HS HC HL.
  unfold clears in *.
  assert (H1 : enabled u DEPTH_BASED = true -> depthEdgeDetection u uv = 0).
  { intros E. rewrite depth_signal_flat by assumption.
    apply getEdgeIntensity_zero; auto. }
  assert (H2 : enabled u NORMAL_BASED = true -> normalEdgeDetection u uv = 0).
  { intros E. rewrite normal_signal_flat by auto.
    apply getEdgeIntensity_zero; auto. }
  assert (H3 : enabled u SOBEL = true -> normalSobelDetection u uv = 0).
  { intros E. rewrite sobel_signal_flat by assumption.
    apply getEdgeIntensity_zero; auto. }
  assert (H4 : enabled u COLOR_BASED = true -> colorEdgeDetection u uv = 0).
  { intros E. rewrite color_signal_flat by assumption.
    apply getEdgeIntensity_zero; auto. }
  assert (H5 : enabled u LAPLACIAN = true -> laplacianEdgeDetection u uv = 0).
  { intros E. rewrite laplacian_signal_flat by assumption.
    apply getEdgeIntensity_zero; auto. }
  assert (Hm : Rmax 0 0 = 0) by (apply Rmax_left; lra).
  assert (He : edgeIntensity u uv = 0).
  { unfold edgeIntensity. cbv zeta.
    destruct (enabled u DEPTH_BASED); [rewrite (H1 eq_refl), Hm|];
    (destruct (enabled u NORMAL_BASED); [rewrite (H2 eq_refl), Hm|]);
    (destruct (enabled u SOBEL); [rewrite (H3 eq_refl), Hm|]);
    (destruct (enabled u COLOR_BASED); [rewrite (H4 eq_refl), Hm|]);
    (destruct (enabled u LAPLACIAN); [rewrite (H5 eq_refl), Hm|]);
    reflexivity. }
  split; [exact He|].
  unfold EdgeDetection.main. cbv zeta. rewrite He.
  unfold vec4_of, scale3. simpl. f_equal; ring.
Qed.

Lemma flat_input_no_edge_witness :
  edgeIntensity (Sample.flatScene (Vec3 0 0 1) (Vec3 1 1 1) 31 (1 / 10) 1 Sample.zero3)
                (Vec2 (1 / 2) (1 / 2)) = 0
  /\ EdgeDetection.main (Sample.flatScene (Vec3 0 0 1) (Vec3 1 1 1) 31 (1 / 10) 1 Sample.zero3)
                (Vec2 (1 / 2) (1 / 2)) = Vec4 0 0 0 0.
Proof.
  apply flat_input_no_edge;
    try (intros p q; reflexivity);
    try (unfold clears; simpl; intros _; lra).
  - intros _. exact length3_unit_z.
  - simpl. lra.
Defined.

(** ** Composite *)





(** In the frame, the composite pass reads the texture the edge pass has
    just written, and its output is what reaches the screen. *)
Lemma compositePass_reads_edgePass (r : Renderer.Renderer) (uv : vec2) :
  Renderer.edgeDetectionShader (Renderer.shaders (Renderer.setup r)) = true ->
  Renderer.compositeShader (Renderer.shaders (Renderer.setup r)) = true ->
  let r1 := Renderer.run Renderer.edgeDetectionPass r in
  texture (Composite.edgeTexture (Renderer.compositeUniforms r1)) uv
  = EdgeDetection.main (Renderer.edgeUniforms r) uv
  /\ texture (Composite.lightingTexture (Renderer.compositeUniforms r1)) uv
     = texture (Renderer.lightingTexture r) uv
  /\ Renderer.screen (Renderer.run Renderer.compositePass r1) uv
     = Composite.main (Renderer.compositeUniforms r1) uv.
Proof.
  intros He Hc r1.
  assert (H1 : r1 = Renderer.set_edgeTexture
                      (Sampler2D (EdgeDetection.main (Renderer.edgeUniforms r))
                                 (Renderer.width (Renderer.setup r),
                                  Renderer.height (Renderer.setup r))) r).
  { unfold r1, Renderer.run, Renderer.edgeDetectionPass. rewrite He. reflexivity. }
  split; [rewrite H1; reflexivity|]. split; [rewrite H1; reflexivity|].
  unfold Renderer.run, Renderer.compositePass.
  replace (Renderer.compositeShader (Renderer.shaders (Renderer.setup r1))) with true
    by (rewrite H1; symmetry; exact Hc).
  reflexivity.
Qed.

(** ** Loops of the renderer *)


Lemma run_andThen (c1 c2 : Renderer.Cmd) (r : Renderer.Renderer) :
  Renderer.run (Renderer.andThen c1 c2) r = Renderer.run c2 (Renderer.run c1 r).
Proof.
  unfold Renderer.run, Renderer.andThen.
  destruct (c1 r) as [r1 e1]. simpl. destruct (c2 r1) as [r2 e2]. reflexivity.
Qed.

Lemma calls_andThen (c1 c2 : Renderer.Cmd) (r : Renderer.Renderer) :
  Renderer.calls (Renderer.andThen c1 c2) r = Renderer.calls c1 r ++ Renderer.calls c2 (Renderer.run c1 r).
Proof.
  unfold Renderer.calls, Renderer.run, Renderer.andThen.
  destruct (c1 r) as [r1 e1]. simpl. destruct (c2 r1) as [r2 e2]. reflexivity.
Qed.

Lemma cmd_eta (c : Renderer.Cmd) (r : Renderer.Renderer) : c r = (Renderer.run c r, Renderer.calls c r).
Proof. unfold Renderer.run, Renderer.calls. destruct (c r); reflexivity. Qed.

Lemma forLoop_S (count from : nat) (body : nat -> Renderer.Cmd) :
  Renderer.forLoop (S count) from body
  = Renderer.andThen (body from) (Renderer.forLoop count (S from) body).
Proof. reflexivity. Qed.

(** A property every iteration in range preserves holds after the loop. *)
Lemma forLoop_preserves (Q : Renderer.Renderer -> Prop) (body : nat -> Renderer.Cmd) :
  forall count from r,
    (forall j r', (from <= j < from + count)%nat -> Q r' -> Q (Renderer.run (body j) r')) ->
    Q r -> Q (Renderer.run (Renderer.forLoop count from body) r).
Proof.
  induction count as [|count IH]; intros from r Hbody HQ.
  - exact HQ.
  - rewrite forLoop_S, run_andThen. apply IH.
    + intros j r' Hj. apply Hbody. lia.
    + apply Hbody; [lia | exact HQ].
Qed.

(** If iteration [i] establishes [Q i] and the other iterations preserve it,
    [Q j] holds after the loop for every [j] in range. *)
Lemma forLoop_establishes (Q : nat -> Renderer.Renderer -> Prop) (body : nat -> Renderer.Cmd) :
  (forall i r, Q i (Renderer.run (body i) r)) ->
  (forall i j r, i <> j -> Q j r -> Q j (Renderer.run (body i) r)) ->
  forall count from r j,
    (from <= j < from + count)%nat -> Q j (Renderer.run (Renderer.forLoop count from body) r).
Proof.
  intros Hown Hother.
  induction count as [|count IH]; intros from r j Hj; [lia|].
  rewrite forLoop_S, run_andThen.
  destruct (decide (j = from)) as [->|Hne].
  - apply (forLoop_preserves (Q from)).
    + intros k r' Hk. apply Hother. lia.
    + apply Hown.
  - apply IH. lia.
Qed.

(** A loop all of whose iterations do nothing does nothing. *)
Lemma forLoop_noop (body : nat -> Renderer.Cmd) (r : Renderer.Renderer) :
  forall count from,
    (forall j, (from <= j < from + count)%nat -> body j r = (r, [])) ->
    Renderer.forLoop count from body r = (r, []).
Proof.
  induction count as [|count IH]; intros from Hbody; [reflexivity|].
  rewrite forLoop_S. unfold Renderer.andThen.
  rewrite (Hbody from) by lia.
  rewrite IH; [reflexivity|]. intros j Hj. apply Hbody. lia.
Qed.



(** ** Shadow reconciliation *)

Lemma set_shadowMaps_same (r : Renderer.Renderer) (i : nat) (d : Renderer.ShadowMapData) :
  Renderer.shadowMaps r !! i = Some d ->
  Renderer.set_shadowMaps (<[i := d]> (Renderer.shadowMaps r)) r = r.
Proof.
  intros H. rewrite list_insert_id by exact H. destruct r; reflexivity.
Qed.

Lemma cleanupShadowMap_inactive (d : Renderer.ShadowMapData) :
  Renderer.isActive (fst (Renderer.cleanupShadowMap d)) = false
  /\ Renderer.hasRendered (fst (Renderer.cleanupShadowMap d)) = false.
Proof. split; reflexivity. Qed.

Lemma allocateShadowMap_spec (light : Lighting.Light) (sz : Z) (n : N) (d : Renderer.ShadowMapData) :
  let d' := fst (fst (Renderer.allocateShadowMap light sz n d)) in
  Renderer.isActive d' = true /\ Renderer.type d' = Lighting.type light /\ Renderer.size d' = sz
  /\ Renderer.hasRendered d' = Renderer.hasRendered d.
Proof.
  unfold Renderer.allocateShadowMap. destruct (bool_decide _); simpl; auto.
Qed.

Lemma needsReallocation_false (p : Renderer.ShadowParams) (light : Lighting.Light)
    (d : Renderer.ShadowMapData) :
  Renderer.needsReallocation p light d = false <->
  Renderer.isActive d = true /\ Renderer.type d = Lighting.type light
  /\ Renderer.size d = Renderer.requiredSizeFor p light /\ Lighting.castShadows light = true.
Proof.
  unfold Renderer.needsReallocation.
  rewrite !orb_false_iff, !negb_false_iff, bool_decide_eq_true, Z.eqb_eq. tauto.
Qed.

Lemma updateShadowMap_frame (i : nat) (r : Renderer.Renderer) :
  Slots.sameLights r (Renderer.run (Renderer.updateShadowMap i) r)
  /\ forall j, j <> i ->
       Renderer.shadowMaps (Renderer.run (Renderer.updateShadowMap i) r) !! j = Renderer.shadowMaps r !! j.
Proof.
  unfold Renderer.run, Renderer.updateShadowMap, Slots.sameLights.
  destruct (Renderer.lights r !! i) as [light|]; [|simpl; auto].
  destruct (Renderer.shadowMaps r !! i) as [d|]; [|simpl; auto].
  destruct (Renderer.needsReallocation _ _ _); [|simpl; auto].
  destruct (Renderer.isActive d); simpl;
    (destruct (Lighting.castShadows light); simpl;
     [ match goal with
       | |- context [Renderer.allocateShadowMap ?a ?b ?c ?e] =>
           destruct (Renderer.allocateShadowMap a b c e) as [[d2 next] e2]
       end; simpl
     | ]);
    rewrite length_insert; repeat split; auto;
    intros j Hj; apply list_lookup_insert_ne; auto.
Qed.

Lemma updateShadowMap_settles (i : nat) (r : Renderer.Renderer) :
  Slots.settledLit (Renderer.run (Renderer.updateShadowMap i) r) i.
Proof.
  unfold Renderer.run, Renderer.updateShadowMap, Slots.settledLit.
  destruct (Renderer.lights r !! i) as [light|] eqn:El; [|simpl; rewrite El; exact I].
  destruct (Renderer.shadowMaps r !! i) as [d|] eqn:Ed;
    [|simpl; rewrite El, Ed; exact I].
  assert (Hlt : (i < length (Renderer.shadowMaps r))%nat) by (eapply lookup_lt_Some; eauto).
  destruct (Renderer.needsReallocation _ _ _) eqn:En;
    [|simpl; rewrite El, Ed; left; exact En].
  destruct (Renderer.isActive d) eqn:Ea; simpl;
    (destruct (Lighting.castShadows light) eqn:Ec; simpl;
     [ match goal with
       | |- context [Renderer.allocateShadowMap ?a ?b ?c ?e] =>
           pose proof (allocateShadowMap_spec a b c e) as Hspec;
           destruct (Renderer.allocateShadowMap a b c e) as [[d2 next] e2]
       end; simpl in *
     | ]);
    rewrite El, list_lookup_insert_eq by exact Hlt.
  - left. apply needsReallocation_false. tauto.
  - right. split; [exact Ec | reflexivity].
  - left. apply needsReallocation_false. tauto.
  - right. split; [exact Ec | exact Ea].
Qed.

Lemma updateShadowMap_noop (i : nat) (r : Renderer.Renderer) :
  Slots.settledLit r i -> Renderer.updateShadowMap i r = (r, []).
Proof.
  unfold Slots.settledLit, Renderer.updateShadowMap.
  destruct (Renderer.lights r !! i) as [light|]; [|reflexivity].
  destruct (Renderer.shadowMaps r !! i) as [d|] eqn:Ed; [|reflexivity].
  intros [Hn | [Hc Ha]].
  - rewrite Hn. reflexivity.
  - assert (Hn : Renderer.needsReallocation (Renderer.shadowParams r) light d = true).
    { unfold Renderer.needsReallocation. rewrite Hc. simpl. apply orb_true_r. }
    rewrite Hn, Ha, Hc. simpl. rewrite set_shadowMaps_same by exact Ed. reflexivity.
Qed.

Lemma removeUnusedShadowMap_frame (i : nat) (r : Renderer.Renderer) :
  Slots.sameLights r (Renderer.run (Renderer.removeUnusedShadowMap i) r)
  /\ forall j, j <> i ->
       Renderer.shadowMaps (Renderer.run (Renderer.removeUnusedShadowMap i) r) !! j = Renderer.shadowMaps r !! j.
Proof.
  unfold Renderer.run, Renderer.removeUnusedShadowMap, Slots.sameLights.
  destruct (Renderer.shadowMaps r !! i) as [d|]; [|simpl; auto].
  destruct (Renderer.isActive d); simpl; [|auto].
  rewrite length_insert; repeat split; auto.
  intros j Hj; apply list_lookup_insert_ne; auto.
Qed.

Lemma removeUnusedShadowMap_settles (i : nat) (r : Renderer.Renderer) :
  Slots.settledUnused (Renderer.run (Renderer.removeUnusedShadowMap i) r) i.
Proof.
  unfold Renderer.run, Renderer.removeUnusedShadowMap, Slots.settledUnused.
  destruct (Renderer.shadowMaps r !! i) as [d|] eqn:Ed; [|simpl; rewrite Ed; exact I].
  assert (Hlt : (i < length (Renderer.shadowMaps r))%nat) by (eapply lookup_lt_Some; eauto).
  destruct (Renderer.isActive d) eqn:Ea; simpl.
  - rewrite list_lookup_insert_eq by exact Hlt. reflexivity.
  - rewrite Ed. exact Ea.
Qed.

Lemma removeUnusedShadowMap_noop (i : nat) (r : Renderer.Renderer) :
  Slots.settledUnused r i -> Renderer.removeUnusedShadowMap i r = (r, []).
Proof.
  unfold Slots.settledUnused, Renderer.removeUnusedShadowMap.
  destruct (Renderer.shadowMaps r !! i) as [d|]; [|reflexivity].
  intros ->. reflexivity.
Qed.

Lemma sameLights_refl (r : Renderer.Renderer) : Slots.sameLights r r.
Proof. unfold Slots.sameLights. auto. Qed.

Lemma sameLights_trans (r1 r2 r3 : Renderer.Renderer) :
  Slots.sameLights r1 r2 -> Slots.sameLights r2 r3 -> Slots.sameLights r1 r3.
Proof.
  unfold Slots.sameLights. intros (A1 & A2 & A3 & A4) (B1 & B2 & B3 & B4).
  repeat split; congruence.
Qed.

Lemma shadowLightCount_same (r r' : Renderer.Renderer) :
  Slots.sameLights r r' -> Renderer.shadowLightCount r' = Renderer.shadowLightCount r.
Proof. intros (H & _). unfold Renderer.shadowLightCount. rewrite H. reflexivity. Qed.

Lemma settledLit_transfer (r r' : Renderer.Renderer) (j : nat) :
  Slots.sameLights r r' -> Renderer.shadowMaps r' !! j = Renderer.shadowMaps r !! j ->
  Slots.settledLit r j -> Slots.settledLit r' j.
Proof.
  intros (Hl & Hp & _) Hs. unfold Slots.settledLit. rewrite Hl, Hp, Hs. auto.
Qed.

Lemma settledUnused_transfer (r r' : Renderer.Renderer) (j : nat) :
  Renderer.shadowMaps r' !! j = Renderer.shadowMaps r !! j ->
  Slots.settledUnused r j -> Slots.settledUnused r' j.
Proof. intros Hs. unfold Slots.settledUnused. rewrite Hs. auto. Qed.

Lemma updateShadowMap_loop_sameLights (r0 : Renderer.Renderer) (count from : nat) (r : Renderer.Renderer) :
  Slots.sameLights r0 r ->
  Slots.sameLights r0 (Renderer.run (Renderer.forLoop count from Renderer.updateShadowMap) r).
Proof.
  apply (forLoop_preserves (Slots.sameLights r0)).
  intros j r' _ H. eapply sameLights_trans; [exact H|]. apply updateShadowMap_frame.
Qed.

Lemma removeUnused_loop_sameLights (r0 : Renderer.Renderer) (count from : nat) (r : Renderer.Renderer) :
  Slots.sameLights r0 r ->
  Slots.sameLights r0 (Renderer.run (Renderer.forLoop count from Renderer.removeUnusedShadowMap) r).
Proof.
  apply (forLoop_preserves (Slots.sameLights r0)).
  intros j r' _ H. eapply sameLights_trans; [exact H|]. apply removeUnusedShadowMap_frame.
Qed.

(** What updateShadowMaps leaves behind: the same lights and parameters,
    every slot of an existing light settled, every other slot inactive. *)
Lemma updateShadowMaps_settled (r : Renderer.Renderer) :
  Slots.sameLights r (Renderer.run Renderer.updateShadowMaps r)
  /\ (forall j, (j < Renderer.shadowLightCount r)%nat ->
        Slots.settledLit (Renderer.run Renderer.updateShadowMaps r) j)
  /\ (forall j, (Renderer.shadowLightCount r <= j)%nat ->
        Slots.settledUnused (Renderer.run Renderer.updateShadowMaps r) j).
Proof.
  unfold Renderer.updateShadowMaps. unfold Renderer.run at 1 2 3. cbv beta zeta.
  fold (Renderer.run (Renderer.andThen
                  (Renderer.forLoop (Renderer.shadowLightCount r) 0 Renderer.updateShadowMap)
                  (Renderer.forLoop (length (Renderer.shadowMaps r) - Renderer.shadowLightCount r)
                              (Renderer.shadowLightCount r) Renderer.removeUnusedShadowMap)) r).
  rewrite run_andThen.
  set (lc := Renderer.shadowLightCount r).
  set (r1 := Renderer.run (Renderer.forLoop lc 0 Renderer.updateShadowMap) r).
  assert (H1 : Slots.sameLights r r1)
    by (apply updateShadowMap_loop_sameLights, sameLights_refl).
  assert (S1 : forall j, (j < lc)%nat -> Slots.settledLit r1 j).
  { intros j Hj. unfold r1.
    apply (forLoop_establishes (fun k r' => Slots.settledLit r' k) Renderer.updateShadowMap).
    - apply updateShadowMap_settles.
    - intros i k r' Hne Hs. eapply settledLit_transfer; [| |exact Hs].
      + apply updateShadowMap_frame.
      + apply updateShadowMap_frame. auto.
    - lia. }
  split; [|split].
  - apply removeUnused_loop_sameLights. exact H1.
  - intros j Hj.
    apply (forLoop_preserves (fun r' => Slots.settledLit r' j)); [|auto].
    intros i r' Hi Hs. eapply settledLit_transfer; [| |exact Hs].
    + apply removeUnusedShadowMap_frame.
    + apply removeUnusedShadowMap_frame. lia.
  - intros j Hj.
    destruct (decide (j < length (Renderer.shadowMaps r))%nat) as [Hlt|Hge].
    + apply (forLoop_establishes (fun k r' => Slots.settledUnused r' k)
               Renderer.removeUnusedShadowMap).
      * apply removeUnusedShadowMap_settles.
      * intros i k r' Hne Hs. eapply settledUnused_transfer; [|exact Hs].
        apply removeUnusedShadowMap_frame. auto.
      * lia.
    + unfold Slots.settledUnused.
      rewrite (lookup_ge_None_2 _ j); [exact I|].
      pose proof (removeUnused_loop_sameLights r
                    (length (Renderer.shadowMaps r) - lc) lc r1 H1) as (_ & _ & _ & Hlen).
      rewrite Hlen. lia.
Qed.

(** On a freshly constructed renderer with one shadow-casting point light
    the first run allocates a framebuffer and a cube map with its six faces;
    the second run is silent. *)
Example updateShadowMaps_first_run_sample :
  let fresh := Sample.constructed Sample.oneCrate [Sample.lamp] in
  Renderer.calls Renderer.updateShadowMaps fresh
  = Renderer.glGenFramebuffers 1 :: Renderer.glGenTextures 2
      :: map (fun k => Renderer.glTexImage2D (Some k) 1024) (seq 0 6)
  /\ Renderer.calls Renderer.updateShadowMaps (Renderer.run Renderer.updateShadowMaps fresh)
     = [].
Proof. split; reflexivity. Qed.

(** C8: shadow reconciliation is idempotent.  Run on the state a first run
    leaves, updateShadowMaps changes nothing and makes no call at all: no
    glDelete* (teardown) and no glGen* / glTexImage2D (allocation). *)
Theorem updateShadowMaps_idempotent (r : Renderer.Renderer) :
  Renderer.updateShadowMaps (Renderer.run Renderer.updateShadowMaps r)
  = (Renderer.run Renderer.updateShadowMaps r, []).
Proof.
  destruct (updateShadowMaps_settled r) as (Hsame & Hlit & Hunused).
  set (r1 := Renderer.run Renderer.updateShadowMaps r) in *.
  unfold Renderer.updateShadowMaps at 1. cbv beta zeta.
  rewrite (shadowLightCount_same r r1 Hsame).
  unfold Renderer.andThen.
  rewrite forLoop_noop
    by (intros j Hj; apply updateShadowMap_noop, Hlit; lia).
  rewrite forLoop_noop
    by (intros j Hj; apply removeUnusedShadowMap_noop, Hunused; lia).
  reflexivity.
Qed.

(** ** Shadow pass *)




Lemma renderModels_frame (models : list (option Renderer.Model)) (shader : bool) :
  forall r,
    Slots.sameLights r (Renderer.run (Renderer.renderModels models shader) r)
    /\ Renderer.shadowMaps (Renderer.run (Renderer.renderModels models shader) r)
       = Renderer.shadowMaps r.
Proof.
  induction models as [|m models IH]; intros r.
  - split; [apply sameLights_refl | reflexivity].
  - simpl. rewrite run_andThen.
    set (r1 := Renderer.run (Renderer.renderModel m shader) r).
    assert (H1 : Slots.sameLights r r1 /\ Renderer.shadowMaps r1 = Renderer.shadowMaps r).
    { unfold r1, Renderer.run, Renderer.renderModel.
      destruct m; [destruct shader|]; simpl;
        (split; [apply sameLights_refl || (unfold Slots.sameLights; auto) | reflexivity]). }
    destruct H1 as [H1 H2]. destruct (IH r1) as [H3 H4]. split.
    + eapply sameLights_trans; eauto.
    + congruence.
Qed.


Lemma touchesOnly_refl (i : nat) (r : Renderer.Renderer) : Slots.touchesOnly i r r.
Proof. split; [apply sameLights_refl | auto]. Qed.

Lemma touchesOnly_trans (i : nat) (r1 r2 r3 : Renderer.Renderer) :
  Slots.touchesOnly i r1 r2 -> Slots.touchesOnly i r2 r3 -> Slots.touchesOnly i r1 r3.
Proof.
  intros [A1 A2] [B1 B2]. split.
  - eapply sameLights_trans; eauto.
  - intros j Hj. rewrite B2, A2; auto.
Qed.

Lemma keepsFlags_refl (b : bool) (i : nat) (r : Renderer.Renderer) : Slots.keepsFlags b i r r.
Proof. intros d Hd. exists d. auto. Qed.

Lemma keepsFlags_trans (b : bool) (i : nat) (r1 r2 r3 : Renderer.Renderer) :
  Slots.keepsFlags b i r1 r2 -> Slots.keepsFlags b i r2 r3 -> Slots.keepsFlags b i r1 r3.
Proof.
  intros A B d Hd. destruct (A d Hd) as (d2 & H2 & Ha2 & Hr2).
  destruct (B d2 H2) as (d3 & H3 & Ha3 & Hr3).
  exists d3. repeat split; [exact H3 | congruence |].
  intros Hb. rewrite Hr3, Hr2; auto.
Qed.

(** commands that leave lights and slots alone *)
Lemma inert_touchesOnly (i : nat) (r r' : Renderer.Renderer) :
  Slots.sameLights r r' -> Renderer.shadowMaps r' = Renderer.shadowMaps r ->
  Slots.touchesOnly i r r' /\ Slots.keepsFlags true i r r'.
Proof.
  intros Hs Hm. split.
  - split; [exact Hs|]. intros j _. rewrite Hm. reflexivity.
  - intros d Hd. exists d. rewrite Hm. auto.
Qed.

Lemma onSlot_frame (i : nat) (f : Renderer.ShadowMapData -> Renderer.ShadowMapData)
    (b : bool) (r : Renderer.Renderer) :
  (forall d, Renderer.isActive (f d) = Renderer.isActive d) ->
  (b = true -> forall d, Renderer.hasRendered (f d) = Renderer.hasRendered d) ->
  Slots.touchesOnly i r (Renderer.run (Renderer.onSlot i f) r)
  /\ Slots.keepsFlags b i r (Renderer.run (Renderer.onSlot i f) r).
Proof.
  intros Ha Hr. unfold Renderer.run, Renderer.onSlot.
  destruct (Renderer.shadowMaps r !! i) as [d|] eqn:Ed; simpl.
  - assert (Hlt : (i < length (Renderer.shadowMaps r))%nat) by (eapply lookup_lt_Some; eauto).
    split; [split|].
    + unfold Slots.sameLights. simpl. rewrite length_insert. auto.
    + intros j Hj. simpl. apply list_lookup_insert_ne. auto.
    + intros d0 Hd0. exists (f d). simpl. rewrite list_lookup_insert_eq by exact Hlt.
      assert (d0 = d) by congruence. subst d0. auto.
  - split; [apply touchesOnly_refl | apply keepsFlags_refl].
Qed.

Lemma renderScene_frame (i : nat) (shader : bool) (r : Renderer.Renderer) :
  Slots.touchesOnly i r (Renderer.run (Renderer.renderScene shader) r)
  /\ Slots.keepsFlags true i r (Renderer.run (Renderer.renderScene shader) r).
Proof.
  apply inert_touchesOnly; apply (renderModels_frame _ shader r).
Qed.

Lemma renderFlatShadow_frame (i : nat) (m : mat4) (r : Renderer.Renderer) :
  Slots.touchesOnly i r (Renderer.run (Renderer.renderFlatShadow i m) r)
  /\ Slots.keepsFlags true i r (Renderer.run (Renderer.renderFlatShadow i m) r).
Proof.
  unfold Renderer.renderFlatShadow. rewrite !run_andThen.
  set (r1 := Renderer.run (Renderer.onSlot i (Renderer.set_lightSpaceMatrix m)) r).
  destruct (onSlot_frame i (Renderer.set_lightSpaceMatrix m) true r) as [A1 A2];
    [reflexivity | reflexivity |]. fold r1 in A1, A2.
  destruct (renderScene_frame i
              (Renderer.shadowMapShader (Renderer.shaders (Renderer.setup r1))) r1)
    as [B1 B2].
  set (r2 := Renderer.run (Renderer.renderScene _) r1) in *.
  change (Renderer.run (fun r0 => Renderer.renderScene
            (Renderer.shadowMapShader (Renderer.shaders (Renderer.setup r0))) r0) r1)
    with r2.
  match goal with
  | |- Slots.touchesOnly i r ?r3 /\ _ =>
      assert (C : Slots.touchesOnly i r2 r3 /\ Slots.keepsFlags true i r2 r3)
        by (apply inert_touchesOnly; [unfold Slots.sameLights; auto | reflexivity])
  end.
  destruct C as [C1 C2]. split.
  - eapply touchesOnly_trans; [|exact C1]. eapply touchesOnly_trans; eauto.
  - eapply keepsFlags_trans; [|exact C2]. eapply keepsFlags_trans; eauto.
Qed.

Lemma fst_run (c : Renderer.Cmd) (r : Renderer.Renderer) : fst (c r) = Renderer.run c r.
Proof. reflexivity. Qed.

Lemma snd_calls (c : Renderer.Cmd) (r : Renderer.Renderer) : snd (c r) = Renderer.calls c r.
Proof. reflexivity. Qed.

Lemma renderPointShadow_frame (i : nat) (light : Lighting.Light) (r : Renderer.Renderer) :
  Slots.touchesOnly i r (Renderer.run (Renderer.renderPointShadow i light) r)
  /\ Slots.keepsFlags true i r (Renderer.run (Renderer.renderPointShadow i light) r).
Proof.
  unfold Renderer.renderPointShadow, Renderer.run. cbv beta.
  destruct (negb (Renderer.pointShadowShader (Renderer.shaders (Renderer.setup r)))).
  { split; [apply touchesOnly_refl | apply keepsFlags_refl]. }
  set (t := Renderer.pointShadowTransforms (Renderer.shadowParams r) light).
  rewrite !fst_run, !run_andThen.
  set (r1 := Renderer.run (Renderer.onSlot i (Renderer.set_shadowTransforms t)) r).
  destruct (onSlot_frame i (Renderer.set_shadowTransforms t) true r) as [A1 A2];
    [reflexivity | reflexivity |]. fold r1 in A1, A2.
  destruct (renderScene_frame i
              (Renderer.pointShadowShader (Renderer.shaders (Renderer.setup r1))) r1)
    as [B1 B2].
  set (r2 := Renderer.run (Renderer.renderScene _) r1) in *.
  change (Renderer.run (fun r0 => Renderer.renderScene
            (Renderer.pointShadowShader (Renderer.shaders (Renderer.setup r0))) r0) r1)
    with r2.
  match goal with
  | |- Slots.touchesOnly i r ?r3 /\ _ =>
      assert (C : Slots.touchesOnly i r2 r3 /\ Slots.keepsFlags true i r2 r3)
        by (apply inert_touchesOnly; [unfold Slots.sameLights; auto | reflexivity])
  end.
  destruct C as [C1 C2]. split.
  - eapply touchesOnly_trans; [|exact C1]. eapply touchesOnly_trans; eauto.
  - eapply keepsFlags_trans; [|exact C2]. eapply keepsFlags_trans; eauto.
Qed.

Lemma renderShadowMapForLight_frame (i : nat) (light : Lighting.Light)
    (r : Renderer.Renderer) :
  Slots.touchesOnly i r (Renderer.run (Renderer.renderShadowMapForLight i light) r)
  /\ Slots.keepsFlags true i r (Renderer.run (Renderer.renderShadowMapForLight i light) r).
Proof.
  unfold Renderer.renderShadowMapForLight. rewrite run_andThen.
  change (Renderer.run (fun r0 => (r0, [Renderer.renderShadowMapForLight_call i])) r)
    with r.
  unfold Renderer.renderDirectionalShadow, Renderer.renderSpotShadow.
  destruct (Lighting.type light).
  - apply (renderFlatShadow_frame i _ r).
  - apply renderPointShadow_frame.
  - apply (renderFlatShadow_frame i _ r).
Qed.

Lemma shadowMapPass_light_frame (i : nat) (r : Renderer.Renderer) :
  Slots.touchesOnly i r (Renderer.run (Renderer.shadowMapPass_light i) r)
  /\ Slots.keepsFlags false i r (Renderer.run (Renderer.shadowMapPass_light i) r).
Proof.
  assert (Hid : Slots.touchesOnly i r r /\ Slots.keepsFlags false i r r)
    by (split; [apply touchesOnly_refl | apply keepsFlags_refl]).
  unfold Renderer.shadowMapPass_light, Renderer.run. cbv beta.
  destruct (Renderer.lights r !! i) as [light|]; [|exact Hid].
  destruct (Renderer.shadowMaps r !! i) as [d|]; [|exact Hid].
  destruct (negb (Renderer.isActive d)); [exact Hid|].
  destruct (Lighting.isStatic light && Renderer.hasRendered d); [exact Hid|].
  rewrite !fst_run, run_andThen.
  destruct (renderShadowMapForLight_frame i light r) as [A1 A2].
  set (r1 := Renderer.run (Renderer.renderShadowMapForLight i light) r) in *.
  destruct (onSlot_frame i (Renderer.set_hasRendered true) false r1) as [B1 B2];
    [reflexivity | discriminate |].
  split.
  - eapply touchesOnly_trans; eauto.
  - eapply keepsFlags_trans; [|exact B2].
    intros d0 Hd0. destruct (A2 d0 Hd0) as (d' & H1 & H2 & _).
    exists d'. repeat split; auto. discriminate.
Qed.









(** ** Light animation leaves the shadow bookkeeping alone *)

Lemma flickerLight_shape (t : R) (l : Lighting.Light) :
  Lighting.isStatic (Renderer.flickerLight t l) = Lighting.isStatic l
  /\ Lighting.type (Renderer.flickerLight t l) = Lighting.type l.
Proof. unfold Renderer.flickerLight. destruct (Lighting.flicker l); split; reflexivity. Qed.

Lemma updateCelestia_shape (l : Lighting.Light) (t s e hi lo : R) :
  Lighting.isStatic (Renderer.updateCelestia l t s e hi lo) = Lighting.isStatic l
  /\ Lighting.type (Renderer.updateCelestia l t s e hi lo) = Lighting.type l.
Proof.
  unfold Renderer.updateCelestia. cbv zeta.
  destruct (fleb _ _); split; reflexivity.
Qed.

Lemma updateLights_frame (dt : R) (r : Renderer.Renderer) :
  Renderer.shadowMaps (Renderer.run (Renderer.updateLights dt) r) = Renderer.shadowMaps r
  /\ Renderer.setup (Renderer.run (Renderer.updateLights dt) r) = Renderer.setup r
  /\ Renderer.shadowParams (Renderer.run (Renderer.updateLights dt) r)
     = Renderer.shadowParams r
  /\ length (Renderer.lights (Renderer.run (Renderer.updateLights dt) r))
     = length (Renderer.lights r)
  /\ forall i l, Renderer.lights r !! i = Some l ->
       exists l', Renderer.lights (Renderer.run (Renderer.updateLights dt) r) !! i = Some l'
                  /\ Lighting.isStatic l' = Lighting.isStatic l
                  /\ Lighting.type l' = Lighting.type l.
Proof.
  unfold Renderer.run, Renderer.updateLights. cbv zeta. simpl.
  repeat split.
  - rewrite length_map. destruct (Renderer.lights r) as [|sun [|moon rest]]; reflexivity.
  - intros i l Hl. rewrite list_lookup_fmap.
    destruct (Renderer.lights r) as [|sun [|moon rest]].
    + rewrite lookup_nil in Hl. discriminate.
    + rewrite Hl. simpl. eexists. split; [reflexivity|]. apply flickerLight_shape.
    + destruct i as [|[|i]]; simpl in *.
      * injection Hl as <-. eexists. split; [reflexivity|].
        destruct (flickerLight_shape (Renderer.totalTime r + dt)
          (Lighting.set_castShadows
             (fgtb (Lighting.intensity
                      (Renderer.updateCelestia sun
                         ((Renderer.totalTime r + dt) * (1 / 100)
                          - floor ((Renderer.totalTime r + dt) * (1 / 100)))
                         0 (55 / 100) 1 0)) (1 / 1000))
             (Renderer.updateCelestia sun
                ((Renderer.totalTime r + dt) * (1 / 100)
                 - floor ((Renderer.totalTime r + dt) * (1 / 100)))
                0 (55 / 100) 1 0))) as [-> ->].
        simpl. apply updateCelestia_shape.
      * injection Hl as <-. eexists. split; [reflexivity|].
        destruct (flickerLight_shape (Renderer.totalTime r + dt)
          (Lighting.set_castShadows
             (fgtb (Lighting.intensity
                      (Renderer.updateCelestia moon
                         ((Renderer.totalTime r + dt) * (1 / 100)
                          - floor ((Renderer.totalTime r + dt) * (1 / 100)))
                         (50 / 100) (105 / 100) (5 / 10) 0)) (1 / 1000))
             (Renderer.updateCelestia moon
                ((Renderer.totalTime r + dt) * (1 / 100)
                 - floor ((Renderer.totalTime r + dt) * (1 / 100)))
                (50 / 100) (105 / 100) (5 / 10) 0))) as [-> ->].
        simpl. apply updateCelestia_shape.
      * rewrite Hl. simpl. eexists. split; [reflexivity|]. apply flickerLight_shape.
Qed.

(** ** The shadow pass, slot by slot *)






(** ** Reconciliation, slot by slot *)











(** ** Inactive slots are never marked rendered

    The slots start out inactive and not rendered; cleanupShadowMap clears
    both flags together, and the shadow pass sets [hasRendered] on active
    slots only.  So [Slots.allCoherent] holds from construction on, frame
    after frame. *)

Lemma allCoherent_initial (r : Renderer.Renderer) :
  Renderer.shadowMaps r = Renderer.initializeShadowMapping -> Slots.allCoherent r.
Proof.
  intros Hm i d Hd. rewrite Hm in Hd.
  unfold Renderer.initializeShadowMapping in Hd.
  apply lookup_replicate in Hd as [-> _]. intros _. reflexivity.
Qed.

Lemma allCoherent_same_slots (r r' : Renderer.Renderer) :
  Renderer.shadowMaps r' = Renderer.shadowMaps r ->
  Slots.allCoherent r -> Slots.allCoherent r'.
Proof. intros Hm Hco i d Hd. rewrite Hm in Hd. exact (Hco i d Hd). Qed.

(** replacing slot [i] by a coherent slot *)
Lemma allCoherent_insert (r : Renderer.Renderer) (i : nat) (d : Renderer.ShadowMapData) :
  Slots.allCoherent r -> Slots.coherent d ->
  Slots.allCoherent (Renderer.set_shadowMaps (<[i := d]> (Renderer.shadowMaps r)) r).
Proof.
  intros Hco Hd j dj Hj. simpl in Hj.
  destruct (decide (j = i)) as [->|Hne].
  - apply list_lookup_insert_Some in Hj as [(_ & <- & _) | (Hne & _)]; [exact Hd | congruence].
  - rewrite list_lookup_insert_ne in Hj by auto. exact (Hco j dj Hj).
Qed.

Lemma cleanupShadowMap_coherent (d : Renderer.ShadowMapData) :
  Slots.coherent (fst (Renderer.cleanupShadowMap d)).
Proof. intros _. reflexivity. Qed.

Lemma allocateShadowMap_coherent (light : Lighting.Light) (sz : Z) (n : N)
    (d : Renderer.ShadowMapData) :
  Slots.coherent (fst (fst (Renderer.allocateShadowMap light sz n d))).
Proof.
  destruct (allocateShadowMap_spec light sz n d) as (Ha & _).
  intros Hi. rewrite Ha in Hi. discriminate.
Qed.

Lemma updateShadowMap_coherent (i : nat) (r : Renderer.Renderer) :
  Slots.allCoherent r -> Slots.allCoherent (Renderer.run (Renderer.updateShadowMap i) r).
Proof.
  intros Hco. unfold Renderer.run, Renderer.updateShadowMap.
  destruct (Renderer.lights r !! i) as [light|]; [|exact Hco].
  destruct (Renderer.shadowMaps r !! i) as [d|] eqn:Ed; [|exact Hco].
  destruct (Renderer.needsReallocation _ _ _); [|exact Hco].
  assert (H1 : Slots.coherent
                 (fst (if Renderer.isActive d then Renderer.cleanupShadowMap d else (d, [])))).
  { destruct (Renderer.isActive d);
      [apply cleanupShadowMap_coherent | exact (Hco i d Ed)]. }
  destruct (if Renderer.isActive d then Renderer.cleanupShadowMap d else (d, []))
    as [d1 e1].
  simpl in H1.
  destruct (negb (Lighting.castShadows light)); simpl.
  - apply allCoherent_insert; assumption.
  - pose proof (allocateShadowMap_coherent light
                  (Renderer.requiredSizeFor (Renderer.shadowParams r) light)
                  (Renderer.glNext r) d1) as H2.
    destruct (Renderer.allocateShadowMap _ _ _ _) as [[d2 next] e2]. simpl in *.
    apply (allCoherent_same_slots
             (Renderer.set_shadowMaps (<[i := d2]> (Renderer.shadowMaps r)) r));
      [reflexivity | apply allCoherent_insert; assumption].
Qed.

Lemma removeUnusedShadowMap_coherent (i : nat) (r : Renderer.Renderer) :
  Slots.allCoherent r ->
  Slots.allCoherent (Renderer.run (Renderer.removeUnusedShadowMap i) r).
Proof.
  intros Hco. unfold Renderer.run, Renderer.removeUnusedShadowMap.
  destruct (Renderer.shadowMaps r !! i) as [d|]; [|exact Hco].
  destruct (Renderer.isActive d); [|exact Hco].
  pose proof (cleanupShadowMap_coherent d) as H1.
  destruct (Renderer.cleanupShadowMap d) as [d1 e1]. simpl in *.
  apply allCoherent_insert; assumption.
Qed.

Lemma updateShadowMaps_coherent (r : Renderer.Renderer) :
  Slots.allCoherent r -> Slots.allCoherent (Renderer.run Renderer.updateShadowMaps r).
Proof.
  intros Hco. unfold Renderer.updateShadowMaps, Renderer.run. cbv beta zeta.
  rewrite fst_run, run_andThen.
  apply (forLoop_preserves Slots.allCoherent).
  { intros j r' _. apply removeUnusedShadowMap_coherent. }
  apply (forLoop_preserves Slots.allCoherent); [|exact Hco].
  intros j r' _. apply updateShadowMap_coherent.
Qed.

Lemma shadowMapPass_light_coherent (i : nat) (r : Renderer.Renderer) :
  Slots.allCoherent r ->
  Slots.allCoherent (Renderer.run (Renderer.shadowMapPass_light i) r).
Proof.
  intros Hco.
  destruct (shadowMapPass_light_frame i r) as [[_ Hother] Hflags].
  unfold Renderer.shadowMapPass_light, Renderer.run in *. cbv beta in *.
  destruct (Renderer.lights r !! i) as [light|]; [|exact Hco].
  destruct (Renderer.shadowMaps r !! i) as [d|] eqn:Ed; [|exact Hco].
  destruct (Renderer.isActive d) eqn:Ea; [|exact Hco]. simpl negb in *. cbv iota in *.
  destruct (Lighting.isStatic light && Renderer.hasRendered d); [exact Hco|].
  intros j dj Hj.
  destruct (decide (j = i)) as [->|Hne].
  - destruct (Hflags d Ed) as (d' & Hd' & Ha' & _).
    assert (dj = d') by congruence. subst dj.
    intros Hi. rewrite Ha', Ea in Hi. discriminate.
  - rewrite Hother in Hj by exact Hne. exact (Hco j dj Hj).
Qed.

Lemma shadowMapPass_coherent (r : Renderer.Renderer) :
  Slots.allCoherent r -> Slots.allCoherent (Renderer.run Renderer.shadowMapPass r).
Proof.
  intros Hco. unfold Renderer.shadowMapPass, Renderer.run. cbv beta.
  destruct (negb _ || negb _); [exact Hco|].
  rewrite fst_run.
  apply (forLoop_preserves Slots.allCoherent); [|exact Hco].
  intros j r' _. apply shadowMapPass_light_coherent.
Qed.

(** the passes after the shadow pass do not touch the slots *)
Lemma screen_passes_keep_slots (camera : Renderer.Camera) (r : Renderer.Renderer) :
  Renderer.shadowMaps
    (Renderer.run (Renderer.andThen (Renderer.geometryPass camera)
                     (Renderer.andThen (Renderer.lightingPass camera)
                        (Renderer.andThen Renderer.edgeDetectionPass
                                          Renderer.compositePass))) r)
  = Renderer.shadowMaps r.
Proof.
  rewrite !run_andThen.
  assert (Hg : forall r0, Renderer.shadowMaps (Renderer.run (Renderer.geometryPass camera) r0)
                          = Renderer.shadowMaps r0).
  { intros r0. unfold Renderer.geometryPass, Renderer.run. cbv beta zeta.
    destruct (Renderer.geometryShader (Renderer.shaders (Renderer.setup r0))) eqn:Es;
      [|reflexivity].
    rewrite fst_run.
    destruct (renderModels_frame
                (Renderer.geometryModels
                   (Renderer.setup
                      (Renderer.set_gBuffer
                         (Renderer.rasterGBuffer (Renderer.setup r0) camera true) r0)))
                true
                (Renderer.set_gBuffer
                   (Renderer.rasterGBuffer (Renderer.setup r0) camera true) r0))
      as [_ ->].
    reflexivity. }
  assert (Hl : forall r0, Renderer.shadowMaps (Renderer.run (Renderer.lightingPass camera) r0)
                          = Renderer.shadowMaps r0).
  { intros r0. unfold Renderer.lightingPass, Renderer.run.
    destruct (Renderer.hybridCelShader _); reflexivity. }
  assert (He : forall r0, Renderer.shadowMaps (Renderer.run Renderer.edgeDetectionPass r0)
                          = Renderer.shadowMaps r0).
  { intros r0. unfold Renderer.edgeDetectionPass, Renderer.run.
    destruct (Renderer.edgeDetectionShader _); reflexivity. }
  assert (Hc : forall r0, Renderer.shadowMaps (Renderer.run Renderer.compositePass r0)
                          = Renderer.shadowMaps r0).
  { intros r0. unfold Renderer.compositePass, Renderer.run.
    destruct (Renderer.compositeShader _); reflexivity. }
  rewrite Hc, He, Hl, Hg. reflexivity.
Qed.

(** Every frame preserves the coherence of the slots. *)
Lemma render_coherent (camera : Renderer.Camera) (r : Renderer.Renderer) :
  Slots.allCoherent r -> Slots.allCoherent (Renderer.run (Renderer.render camera) r).
Proof.
  intros Hco. unfold Renderer.render. rewrite 4!run_andThen.
  eapply allCoherent_same_slots; [apply screen_passes_keep_slots|].
  apply shadowMapPass_coherent.
  eapply allCoherent_same_slots; [apply updateLights_frame|].
  apply updateShadowMaps_coherent.
  eapply allCoherent_same_slots; [|exact Hco]. reflexivity.
Qed.



(** ** Frame statistics *)

Lemma stats_after_frame_sample :
  Renderer.stats (Renderer.run (Renderer.render Sample.camera)
                    (Sample.constructed Sample.oneCrate [Sample.lamp]))
  = Renderer.MkStats 2 6.
Proof. reflexivity. Qed.

Lemma tally_app (st : Renderer.Stats) (a b : list Renderer.Event) :
  Slots.tally st (a ++ b) = Slots.tally (Slots.tally st a) b.
Proof. unfold Slots.tally. apply foldl_app. Qed.

Lemma tally_quiet (st : Renderer.Stats) (evs : list Renderer.Event) :
  Forall (fun e => Slots.isDraw e = false) evs -> Slots.tally st evs = st.
Proof.
  induction 1 as [|e evs He _ IH]; [reflexivity|].
  unfold Slots.tally in *. simpl. destruct e; try discriminate He; exact IH.
Qed.

Lemma accounted_andThen (c1 c2 : Renderer.Cmd) :
  Slots.accounted c1 -> Slots.accounted c2 -> Slots.accounted (Renderer.andThen c1 c2).
Proof.
  intros H1 H2 r. rewrite run_andThen, calls_andThen, tally_app, H2, H1. reflexivity.
Qed.

Lemma accounted_skip : Slots.accounted Renderer.skip.
Proof. intros r. reflexivity. Qed.

Lemma accounted_forLoop (body : nat -> Renderer.Cmd) :
  (forall i, Slots.accounted (body i)) ->
  forall count from, Slots.accounted (Renderer.forLoop count from body).
Proof.
  intros Hbody. induction count as [|count IH]; intros from.
  - apply accounted_skip.
  - rewrite forLoop_S. apply accounted_andThen; auto.
Qed.

(** a command that leaves the counters alone and issues no model draw *)
Lemma accounted_quiet (c : Renderer.Cmd) :
  (forall r, Renderer.stats (Renderer.run c r) = Renderer.stats r
             /\ Forall (fun e => Slots.isDraw e = false) (Renderer.calls c r)) ->
  Slots.accounted c.
Proof. intros H r. destruct (H r) as [Hs Hq]. rewrite tally_quiet; auto. Qed.

Lemma accounted_ext (c c' : Renderer.Cmd) :
  (forall r, c r = c' r) -> Slots.accounted c' -> Slots.accounted c.
Proof.
  intros He H r. unfold Renderer.run, Renderer.calls. rewrite He. apply H.
Qed.

Lemma accounted_renderModel (m : option Renderer.Model) (shader : bool) :
  Slots.accounted (Renderer.renderModel m shader).
Proof. intros r. unfold Renderer.renderModel. destruct m, shader; reflexivity. Qed.

Lemma accounted_renderModels (ms : list (option Renderer.Model)) (shader : bool) :
  Slots.accounted (Renderer.renderModels ms shader).
Proof.
  induction ms as [|m ms IH]; simpl.
  - apply accounted_skip.
  - apply accounted_andThen; [apply accounted_renderModel | exact IH].
Qed.



Lemma cleanupShadowMap_quiet (d : Renderer.ShadowMapData) :
  Forall (fun e => Slots.isDraw e = false) (snd (Renderer.cleanupShadowMap d)).
Proof.
  unfold Renderer.cleanupShadowMap. simpl.
  destruct (_ =? _)%N, (_ =? _)%N, (_ =? _)%N; simpl; repeat constructor.
Qed.

Lemma allocateShadowMap_quiet (light : Lighting.Light) (sz : Z) (n : N)
    (d : Renderer.ShadowMapData) :
  Forall (fun e => Slots.isDraw e = false) (snd (Renderer.allocateShadowMap light sz n d)).
Proof.
  unfold Renderer.allocateShadowMap. destruct (bool_decide _); simpl; repeat constructor.
Qed.

Lemma accounted_updateShadowMap (i : nat) : Slots.accounted (Renderer.updateShadowMap i).
Proof.
  apply accounted_quiet. intros r.
  unfold Renderer.run, Renderer.calls, Renderer.updateShadowMap.
  destruct (Renderer.lights r !! i) as [light|]; [|simpl; auto].
  destruct (Renderer.shadowMaps r !! i) as [d|]; [|simpl; auto].
  destruct (Renderer.needsReallocation _ _ _); [|simpl; auto].
  pose proof (cleanupShadowMap_quiet d) as Hc.
  destruct (Renderer.isActive d).
  - destruct (Renderer.cleanupShadowMap d) as [d1 e1]. simpl in Hc.
    destruct (negb (Lighting.castShadows light)); [simpl; auto|].
    pose proof (allocateShadowMap_quiet light
                  (Renderer.requiredSizeFor (Renderer.shadowParams r) light)
                  (Renderer.glNext r) d1) as Ha.
    destruct (Renderer.allocateShadowMap _ _ _ _) as [[d2 next] e2]. simpl in *.
    split; [reflexivity | apply Forall_app; auto].
  - destruct (negb (Lighting.castShadows light)); [simpl; auto|].
    pose proof (allocateShadowMap_quiet light
                  (Renderer.requiredSizeFor (Renderer.shadowParams r) light)
                  (Renderer.glNext r) d) as Ha.
    destruct (Renderer.allocateShadowMap _ _ _ _) as [[d2 next] e2]. simpl in *.
    split; [reflexivity | exact Ha].
Qed.

Lemma accounted_removeUnusedShadowMap (i : nat) :
  Slots.accounted (Renderer.removeUnusedShadowMap i).
Proof.
  apply accounted_quiet. intros r.
  unfold Renderer.run, Renderer.calls, Renderer.removeUnusedShadowMap.
  destruct (Renderer.shadowMaps r !! i) as [d|]; [|simpl; auto].
  pose proof (cleanupShadowMap_quiet d) as Hc.
  destruct (Renderer.isActive d); [|simpl; auto].
  destruct (Renderer.cleanupShadowMap d) as [d1 e1]. simpl in *. auto.
Qed.

Lemma accounted_updateShadowMaps : Slots.accounted Renderer.updateShadowMaps.
Proof.
  intros r. unfold Renderer.updateShadowMaps, Renderer.run, Renderer.calls. cbv beta zeta.
  rewrite fst_run, snd_calls.
  apply accounted_andThen; apply accounted_forLoop;
    [apply accounted_updateShadowMap | apply accounted_removeUnusedShadowMap].
Qed.








Lemma accounted_geometryPass (camera : Renderer.Camera) :
  Slots.accounted (Renderer.geometryPass camera).
Proof.
  intros r. unfold Renderer.geometryPass, Renderer.run, Renderer.calls. cbv beta zeta.
  destruct (Renderer.geometryShader (Renderer.shaders (Renderer.setup r))); [|reflexivity].
  rewrite fst_run, snd_calls.
  rewrite (accounted_renderModels _ true). reflexivity.
Qed.

Lemma accounted_renderQuad : Slots.accounted Renderer.renderQuad.
Proof. intros r. reflexivity. Qed.







(** ** The lighting pass sees the first eight lights only *)









(** ** Light directions *)

Lemma length3_normalize (v : vec3) : 0 < dot3 v v -> length3 (normalize v) = 1.
Proof.
  intros Hv. unfold length3.
  assert (Hs : 0 < sqrt (dot3 v v)) by (apply sqrt_lt_R0; exact Hv).
  replace (dot3 (normalize v) (normalize v)) with 1; [apply sqrt_1|].
  unfold normalize, scale3, dot3 in *. simpl.
  set (q := x3 v * x3 v + y3 v * y3 v + z3 v * z3 v) in *.
  assert (Hq : q * (1 / sqrt q) * (1 / sqrt q) = 1).
  { rewrite <- (sqrt_sqrt q) at 1 by lra. field. lra. }
  etransitivity; [symmetry; exact Hq | unfold q; ring].
Qed.

Lemma isUnit_of_length (v : vec3) : length3 v = 1 -> Lighting.isUnit v.
Proof. intros H. unfold Lighting.isUnit. rewrite H, Rminus_diag, Rabs_R0. lra. Qed.

Lemma isUnit_normalize (v : vec3) : 0 < dot3 v v -> Lighting.isUnit (normalize v).
Proof. intros H. apply isUnit_of_length, length3_normalize, H. Qed.

Lemma isUnit_default_direction : Lighting.isUnit (Vec3 0 (-1) 0).
Proof.
  apply isUnit_of_length. unfold length3, dot3. simpl.
  replace (0 * 0 + -1 * -1 + 0 * 0) with 1 by ring. apply sqrt_1.
Qed.

Lemma length3_half_x : length3 (Vec3 (1 / 2) 0 0) = 1 / 2.
Proof.
  unfold length3, dot3. simpl.
  replace (1 / 2 * (1 / 2) + 0 * 0 + 0 * 0) with ((1 / 2) * (1 / 2)) by ring.
  apply sqrt_square. lra.
Qed.

Lemma length3_two_down : length3 (Vec3 0 (-2) 0) = 2.
Proof.
  unfold length3, dot3. simpl.
  replace (0 * 0 + -2 * -2 + 0 * 0) with (2 * 2) by ring.
  apply sqrt_square. lra.
Qed.

(** C3, as the claim states it, fails for two of the mutations it names:
    the direction slider of the lighting window stores the vector it is
    given, and so does updateLight.  A sun whose slider is moved to
    (0.5, 0, 0) has a direction of length 0.5; replacing it by a light with
    direction (0, -2, 0) leaves a direction of length 2. *)
Lemma direction_unit_claim_fails :
  let sun := Renderer.celestialLight (Vec3 0 (-1) 0) (Vec3 1 1 1) in
  let edited :=
    Lighting.renderLightingWindow_edit 0 (Lighting.DirectionSlider (Vec3 (1 / 2) 0 0))
                                       [sun] in
  let replaced :=
    Lighting.updateLight 0 (Lighting.set_direction (Vec3 0 (-2) 0) sun) [sun] in
  (exists l, edited !! 0%nat = Some l /\ Lighting.direction l = Vec3 (1 / 2) 0 0
             /\ ~ Lighting.isUnit (Lighting.direction l))
  /\ (exists l, replaced !! 0%nat = Some l /\ Lighting.direction l = Vec3 0 (-2) 0
                /\ ~ Lighting.isUnit (Lighting.direction l)).
Proof.
  cbv zeta. split; eexists; (split; [reflexivity|]); (split; [reflexivity|]);
    unfold Lighting.isUnit; simpl Lighting.direction.
  - rewrite length3_half_x. unfold Rabs. destruct (Rcase_abs _); lra.
  - rewrite length3_two_down. unfold Rabs. destruct (Rcase_abs _); lra.
Qed.

Lemma orbit_direction_dot (a tilt : R) :
  dot3 (Vec3 (- cos a) (- (sin a * cos tilt)) (- (sin a * sin tilt)))
       (Vec3 (- cos a) (- (sin a * cos tilt)) (- (sin a * sin tilt))) = 1.
Proof.
  unfold dot3. simpl.
  pose proof (sin2_cos2 a) as Ha. pose proof (sin2_cos2 tilt) as Ht.
  unfold Rsqr in *. nra.
Qed.

Lemma updateCelestia_unit (l : Lighting.Light) (t s e hi lo : R) :
  Lighting.isUnit (Lighting.direction (Renderer.updateCelestia l t s e hi lo)).
Proof.
  unfold Renderer.updateCelestia. cbv zeta.
  destruct (fleb _ _); simpl; apply isUnit_normalize.
  - rewrite orbit_direction_dot. lra.
  - unfold dot3. simpl. lra.
Qed.

(** C3 (amended): the factories (given a nonzero direction), the default
    constructor and the day/night animation store a direction of unit length;
    the flicker animation does not touch the direction; updateLight's in-place
    replace and the direction slider of the lighting window store the value
    they are given as it is, normalised or not. *)
Theorem direction_normalized_where_set
    (d p c : vec3) (x inner outer : R) (l : Lighting.Light)
    (t startT endT maxI minI : R) (i : nat) (ls : list Lighting.Light) :
  (0 < dot3 d d ->
   Lighting.isUnit (Lighting.direction (Lighting.createDirectionalLight d c x))
   /\ Lighting.isUnit (Lighting.direction (Lighting.createSpotLight p d c inner outer x)))
  /\ Lighting.isUnit (Lighting.direction Lighting.Light_default)
  /\ Lighting.isUnit (Lighting.direction (Lighting.createPointLight p c x))
  /\ Lighting.isUnit
       (Lighting.direction (Renderer.updateCelestia l t startT endT maxI minI))
  /\ Lighting.direction (Renderer.flickerLight t l) = Lighting.direction l
  /\ ((i < length ls)%nat -> Lighting.updateLight i l ls !! i = Some l)
  /\ (forall l0, ls !! i = Some l0 -> Lighting.type l0 <> Lighting.POINT ->
        exists l', Lighting.renderLightingWindow_edit i (Lighting.DirectionSlider d) ls !! i
                   = Some l'
                   /\ Lighting.direction l' = d).
Proof.
  split; [|split; [|split; [|split; [|split; [|split]]]]].
  - intros Hd. split; apply isUnit_normalize; exact Hd.
  - exact isUnit_default_direction.
  - exact isUnit_default_direction.
  - apply updateCelestia_unit.
  - unfold Renderer.flickerLight. destruct (Lighting.flicker l); reflexivity.
  - intros Hi. unfold Lighting.updateLight.
    rewrite (proj2 (Nat.ltb_lt _ _) Hi). apply list_lookup_insert_eq. exact Hi.
  - intros l0 Hl0 Hty. unfold Lighting.renderLightingWindow_edit. rewrite Hl0.
    rewrite list_lookup_insert_eq by (eapply lookup_lt_Some; eauto).
    eexists. split; [reflexivity|].
    unfold Lighting.editLight, Lighting.typeIs.
    rewrite bool_decide_eq_false_2 by exact Hty. reflexivity.
Qed.

Lemma direction_normalized_where_set_witness :
  Lighting.isUnit
    (Lighting.direction (Lighting.createDirectionalLight (Vec3 0 (-3) 0) (Vec3 1 1 1) 1))
  /\ Lighting.updateLight 0 Sample.torch [Sample.lamp] !! 0%nat = Some Sample.torch.
Proof.
  pose proof (direction_normalized_where_set (Vec3 0 (-3) 0) Sample.zero3 (Vec3 1 1 1) 1
                (125 / 10) 15 Sample.torch 0 0 1 1 0 0 [Sample.lamp]) as H.
  split.
  - apply (proj1 H). unfold dot3. simpl. lra.
  - apply (proj1 (proj2 (proj2 (proj2 (proj2 (proj2 H)))))). simpl. lia.
Defined.

(** ** The two spot-light matrices *)








Lemma dot3_normalize (v : vec3) : 0 < dot3 v v -> dot3 (normalize v) (normalize v) = 1.
Proof.
  intros Hv.
  assert (Hs : 0 < sqrt (dot3 v v)) by (apply sqrt_lt_R0; exact Hv).
  unfold normalize, scale3, dot3 in *. simpl.
  set (q := x3 v * x3 v + y3 v * y3 v + z3 v * z3 v) in *.
  assert (Hq : q * (1 / sqrt q) * (1 / sqrt q) = 1).
  { rewrite <- (sqrt_sqrt q) at 1 by lra. field. lra. }
  etransitivity; [|exact Hq]. unfold q. ring.
Qed.

Lemma dot3_normalize_l (v w : vec3) :
  dot3 (normalize v) w = dot3 v w * (1 / sqrt (dot3 v v)).
Proof. unfold normalize, scale3, dot3. simpl. ring. Qed.

Lemma cross_orthogonal (f up : vec3) : dot3 (cross f up) f = 0.
Proof. unfold cross, dot3. simpl. ring. Qed.

Lemma lagrange_identity (s f : vec3) :
  dot3 (cross s f) (cross s f) = dot3 s s * dot3 f f - dot3 s f * dot3 s f.
Proof. unfold cross, dot3. simpl. ring. Qed.









(** * Further properties of the code *)

(** ** Shadow factors *)

Lemma gtOne_range (a b : R) : 0 <= HybridCelLighting.gtOne a b <= 1.
Proof. unfold HybridCelLighting.gtOne. destruct (fgtb a b); lra. Qed.

Lemma sumR_app (l1 l2 : list R) :
  HybridCelLighting.sumR (l1 ++ l2) = HybridCelLighting.sumR l1 + HybridCelLighting.sumR l2.
Proof.
  unfold HybridCelLighting.sumR. induction l1 as [|x l1 IH]; simpl; [ring|].
  rewrite IH. ring.
Qed.

(** a sum over a loop nest: each inner sum in [0, c] *)
Lemma sumR_bind_bounds {A : Type} (f : A -> list R) (c : R) (l : list A) :
  (forall x, 0 <= HybridCelLighting.sumR (f x) <= c) ->
  0 <= HybridCelLighting.sumR (l ≫= f) <= INR (length l) * c.
Proof.
  intros Hf. induction l as [|x l IH].
  - simpl. unfold HybridCelLighting.sumR. simpl. lra.
  - rewrite bind_cons, sumR_app. change (length (x :: l)) with (S (length l)).
    rewrite S_INR. specialize (Hf x). lra.
Qed.

Lemma sumR_singleton_bounds (x : R) :
  0 <= x <= 1 -> 0 <= HybridCelLighting.sumR [x] <= 1.
Proof. unfold HybridCelLighting.sumR. simpl. lra. Qed.

Lemma directionalSpotShadowTest_range (u : HybridCelLighting.Uniforms) (i : nat)
    (fragPos normal lightDir : vec3) :
  0 <= HybridCelLighting.directionalSpotShadowTest u i fragPos normal lightDir <= 1.
Proof.
  unfold HybridCelLighting.directionalSpotShadowTest. cbv zeta.
  destruct (HybridCelLighting.enablePCF u && (0 <? HybridCelLighting.shadowPCFSamples u)%Z)
    eqn:Hpcf; [|apply gtOne_range].
  apply andb_true_iff in Hpcf as [_ Hk]. apply Z.ltb_lt in Hk.
  set (k := HybridCelLighting.shadowPCFSamples u) in *.
  set (taps := seqZ (- k) (2 * k + 1)).
  match goal with
  | |- 0 <= HybridCelLighting.sumR ?l / _ <= 1 => set (S := HybridCelLighting.sumR l)
  end.
  assert (Hn : INR (length taps) = IZR (k * 2 + 1)).
  { unfold taps. rewrite length_seqZ, INR_IZR_INZ, Z2Nat.id by lia. f_equal. lia. }
  assert (HS : 0 <= S <= INR (length taps) * (INR (length taps) * 1)).
  { unfold S. apply sumR_bind_bounds. intros x.
    apply sumR_bind_bounds. intros y.
    apply sumR_singleton_bounds, gtOne_range. }
  rewrite Hn in HS. rewrite mult_IZR.
  assert (Hpos : 0 < IZR (k * 2 + 1)) by (apply IZR_lt; lia).
  set (n := IZR (k * 2 + 1)) in *.
  assert (Hnn : 0 < n * n) by nra.
  split.
  - apply Rmult_le_reg_r with (n * n); [exact Hnn|].
    unfold Rdiv. rewrite Rmult_assoc, Rinv_l by lra. lra.
  - apply Rmult_le_reg_r with (n * n); [exact Hnn|].
    unfold Rdiv. rewrite Rmult_assoc, Rinv_l by lra. lra.
Qed.

Lemma pointShadowTest_range (u : HybridCelLighting.Uniforms) (i : nat)
    (fragPos lightPos : vec3) :
  0 <= HybridCelLighting.pointShadowTest u i fragPos lightPos <= 1.
Proof.
  unfold HybridCelLighting.pointShadowTest. cbv zeta.
  destruct (HybridCelLighting.enablePCF u && (0 <? HybridCelLighting.shadowPCFSamples u)%Z);
    [|apply gtOne_range].
  pose proof floatRange_pointShadow as Hsteps. cbv zeta in Hsteps. rewrite Hsteps.
  match goal with
  | |- 0 <= HybridCelLighting.sumR ?l / _ <= 1 =>
      assert (HS : 0 <= HybridCelLighting.sumR l <= INR 4 * (INR 4 * (INR 4 * 1)))
  end.
  { apply (sumR_bind_bounds _ _ [_; _; _; _]). intros x.
    apply (sumR_bind_bounds _ _ [_; _; _; _]). intros y.
    apply (sumR_bind_bounds _ _ [_; _; _; _]). intros z.
    apply sumR_singleton_bounds, gtOne_range. }
  simpl INR in HS. lra.
Qed.

(** X1: the weighted shadow factor stays between [shadowIntensity] and 1.
    Whatever the shadow maps hold and whatever the filter setting, both shadow
    functions return a value in [[shadowIntensity, 1]] when the configured
    shadow intensity lies in [[0, 1]] (the range of its slider). *)
Theorem shadow_factor_range (u : HybridCelLighting.Uniforms) (i : nat)
    (fragPos lightPos normal lightDir : vec3) :
  0 <= HybridCelLighting.shadowIntensity u <= 1 ->
  HybridCelLighting.shadowIntensity u
    <= HybridCelLighting.calculatePointShadow u i fragPos lightPos <= 1
  /\ HybridCelLighting.shadowIntensity u
     <= HybridCelLighting.calculateDirectionalSpotShadow u i fragPos normal lightDir <= 1.
Proof.
  intros Hsi.
  pose proof (pointShadowTest_range u i fragPos lightPos) as Hp.
  pose proof (directionalSpotShadowTest_range u i fragPos normal lightDir) as Hd.
  unfold HybridCelLighting.calculatePointShadow,
    HybridCelLighting.calculateDirectionalSpotShadow.
  rewrite !effectiveShadow_unfold.
  split; [nra|].
  destruct (HybridCelLighting.outsideShadowMap _); [lra | nra].
Qed.

Lemma shadow_factor_range_witness :
  7 / 10 <= HybridCelLighting.calculatePointShadow (Sample.occluded (7 / 10)) 0
              (Vec3 1 0 0) Sample.zero3 <= 1.
Proof.
  apply (shadow_factor_range (Sample.occluded (7 / 10)) 0 (Vec3 1 0 0) Sample.zero3
           Sample.zero3 Sample.zero3).
  simpl. lra.
Defined.

(** ** Quantization levels *)

Lemma floor_bounds (x : R) : GLSL.floor x <= x < GLSL.floor x + 1.
Proof. unfold GLSL.floor. pose proof (base_Int_part x). lra. Qed.

Lemma Int_part_monotone (x y : R) : x <= y -> (Int_part x <= Int_part y)%Z.
Proof.
  intros Hxy. pose proof (base_Int_part x). pose proof (base_Int_part y).
  assert (H1 : IZR (Int_part x) < IZR (Int_part y + 1)) by (rewrite plus_IZR; lra).
  apply lt_IZR in H1. lia.
Qed.

Lemma clamp_monotone (x y lo hi : R) : x <= y -> clamp x lo hi <= clamp y lo hi.
Proof.
  intros Hxy. unfold clamp, Rmin, Rmax.
  repeat destruct (Rle_dec _ _); lra.
Qed.

(** the band an intensity falls into, with 2 or more bands *)
Lemma quantizeDiffuse_band (x : R) (N : Z) :
  (2 <= N)%Z ->
  let k := Int_part (clamp x 0 1 * IZR N + 5 / 10) in
  (0 <= k <= N)%Z /\ HybridCelLighting.quantizeDiffuseIntensity x N = IZR k / IZR N.
Proof.
  intros HN k.
  assert (HNr : 2 <= IZR N) by (apply IZR_le; exact HN).
  pose proof (clamp_bounds x 0 1 ltac:(lra)) as Hc.
  pose proof (base_Int_part (clamp x 0 1 * IZR N + 5 / 10)) as Hk. fold k in Hk.
  split.
  - split.
    + assert (H0 : IZR (-1) < IZR k) by (simpl; nra). apply lt_IZR in H0. lia.
    + assert (H1 : IZR k < IZR (N + 1)) by (rewrite plus_IZR; nra).
      apply lt_IZR in H1. lia.
  - unfold HybridCelLighting.quantizeDiffuseIntensity.
    destruct (Z.leb_spec N 1); [lia | reflexivity].
Qed.

(** X2: with 2 or more bands the diffuse quantization returns one of the
    [N + 1] levels [0, 1/N, ..., 1]; it is idempotent (a quantized intensity
    is a fixed point) and monotone in the intensity. *)
Theorem quantize_diffuse_levels (x y : R) (N : Z) :
  (2 <= N)%Z ->
  (exists k : Z, (0 <= k <= N)%Z
                 /\ HybridCelLighting.quantizeDiffuseIntensity x N = IZR k / IZR N)
  /\ HybridCelLighting.quantizeDiffuseIntensity
       (HybridCelLighting.quantizeDiffuseIntensity x N) N
     = HybridCelLighting.quantizeDiffuseIntensity x N
  /\ (x <= y -> HybridCelLighting.quantizeDiffuseIntensity x N
                <= HybridCelLighting.quantizeDiffuseIntensity y N).
Proof.
  intros HN.
  assert (HNr : 2 <= IZR N) by (apply IZR_le; exact HN).
  destruct (quantizeDiffuse_band x N HN) as [Hk Hq].
  set (k := Int_part (clamp x 0 1 * IZR N + 5 / 10)) in *.
  split; [exists k; auto|]. split.
  - rewrite Hq.
    assert (Hk0 : 0 <= IZR k) by (apply IZR_le; lia).
    assert (HkN : IZR k <= IZR N) by (apply IZR_le; lia).
    assert (Hr : 0 <= IZR k / IZR N <= 1).
    { split.
      - apply Rmult_le_reg_r with (IZR N); [lra|].
        unfold Rdiv. rewrite Rmult_assoc, Rinv_l by lra. lra.
      - apply Rmult_le_reg_r with (IZR N); [lra|].
        unfold Rdiv. rewrite Rmult_assoc, Rinv_l by lra. lra. }
    unfold HybridCelLighting.quantizeDiffuseIntensity at 1.
    destruct (Z.leb_spec N 1); [lia|]. cbv zeta.
    rewrite clamp_inside by exact Hr.
    replace (IZR k / IZR N * IZR N + 5 / 10) with (IZR k + 5 / 10) by (field; lra).
    rewrite (floor_unique _ k) by lra. reflexivity.
  - intros Hxy.
    destruct (quantizeDiffuse_band y N HN) as [_ Hqy]. rewrite Hq, Hqy.
    assert (Hm : (k <= Int_part (clamp y 0 1 * IZR N + 5 / 10))%Z).
    { apply Int_part_monotone.
      pose proof (clamp_monotone x y 0 1 Hxy). nra. }
    apply IZR_le in Hm. unfold Rdiv.
    apply Rmult_le_compat_r; [|exact Hm].
    apply Rlt_le, Rinv_0_lt_compat. lra.
Qed.

Lemma quantize_diffuse_levels_witness :
  HybridCelLighting.quantizeDiffuseIntensity
    (HybridCelLighting.quantizeDiffuseIntensity (73 / 100) 5) 5
  = HybridCelLighting.quantizeDiffuseIntensity (73 / 100) 5.
Proof.
  apply (proj1 (proj2 (quantize_diffuse_levels (73 / 100) 1 5 ltac:(lia)))).
Defined.

(** X3: the specular quantization has three levels, 0, 0.8 and 0.95; it is
    0 exactly below the first (clamped) threshold, and it is monotone in the
    intensity.  The first threshold is at most 0.99, so that the clamp of the
    second one is well defined. *)
Theorem quantize_specular_levels (x y t1 t2 : R) :
  t1 <= 99 / 100 ->
  (HybridCelLighting.quantizeSpecularIntensity x t1 t2 = 0
   \/ HybridCelLighting.quantizeSpecularIntensity x t1 t2 = 8 / 10
   \/ HybridCelLighting.quantizeSpecularIntensity x t1 t2 = 95 / 100)
  /\ (HybridCelLighting.quantizeSpecularIntensity x t1 t2 = 0
      <-> clamp x 0 1 < clamp t1 0 1)
  /\ (x <= y -> HybridCelLighting.quantizeSpecularIntensity x t1 t2
                <= HybridCelLighting.quantizeSpecularIntensity y t1 t2).
Proof.
  intros Ht1. unfold HybridCelLighting.quantizeSpecularIntensity. cbv zeta.
  set (c1 := clamp t1 0 1). set (c2 := clamp t2 (c1 + 1 / 100) 1).
  split; [|split].
  - destruct (fltb (clamp x 0 1) c1); [auto|].
    destruct (fltb (clamp x 0 1) c2); auto.
  - destruct (fltb (clamp x 0 1) c1) eqn:H1.
    + apply fltb_true in H1. tauto.
    + apply fltb_false in H1.
      destruct (fltb (clamp x 0 1) c2); split; intros; lra.
  - intros Hxy. pose proof (clamp_monotone x y 0 1 Hxy) as Hm.
    destruct (fltb (clamp x 0 1) c1) eqn:X1;
      destruct (fltb (clamp y 0 1) c1) eqn:Y1;
      destruct (fltb (clamp x 0 1) c2) eqn:X2;
      destruct (fltb (clamp y 0 1) c2) eqn:Y2;
      try lra;
      repeat match goal with
             | H : fltb _ _ = true |- _ => apply fltb_true in H
             | H : fltb _ _ = false |- _ => apply fltb_false in H
             end; lra.
Qed.

Lemma quantize_specular_levels_witness :
  HybridCelLighting.quantizeSpecularIntensity (2 / 10) (3 / 10) (7 / 10)
  <= HybridCelLighting.quantizeSpecularIntensity (9 / 10) (3 / 10) (7 / 10).
Proof.
  apply (proj2 (proj2 (quantize_specular_levels (2 / 10) (9 / 10) (3 / 10) (7 / 10)
                         ltac:(lra)))).
  lra.
Defined.

(** ** Pixels without light *)





(** X5: a pixel whose G-buffer normal is not the zero vector never takes
    the background exit of the lighting shader: sampleGBuffer normalises the
    normal, so its length is 1 and the test [length < 0.1] fails.  Such a pixel
    gets the shaded colour, with alpha 1. *)
Theorem lit_pixel_never_background (u : HybridCelLighting.Uniforms) (uv : vec2) :
  0 < dot3 (xyz (texture (HybridCelLighting.gNormal u) uv))
           (xyz (texture (HybridCelLighting.gNormal u) uv)) ->
  let gData := HybridCelLighting.sampleGBuffer u uv in
  length3 (HybridCelLighting.worldNormal gData) = 1
  /\ HybridCelLighting.main u uv
     = vec4_of (HybridCelLighting.calculateHybridCelShading u uv gData
                  (normalize (sub3 (HybridCelLighting.viewPos u)
                                   (HybridCelLighting.worldPosition gData)))) 1.
Proof.
  intros Hn gData.
  assert (Hlen : length3 (HybridCelLighting.worldNormal gData) = 1)
    by (apply length3_normalize; exact Hn).
  split; [exact Hlen|].
  unfold HybridCelLighting.main. cbv zeta. fold gData. rewrite Hlen.
  rewrite (proj2 (fltb_false 1 (1 / 10))) by lra. reflexivity.
Qed.

Lemma lit_pixel_never_background_witness :
  length3 (HybridCelLighting.worldNormal
             (HybridCelLighting.sampleGBuffer (Cases.facingZ (7 / 10)) (Vec2 (1 / 2) (1 / 2))))
  = 1.
Proof.
  apply (lit_pixel_never_background (Cases.facingZ (7 / 10)) (Vec2 (1 / 2) (1 / 2))).
  unfold dot3. simpl. lra.
Defined.

(** ** Range of the edge intensity *)

Lemma smoothstep_range (e0 e1 x : R) : 0 <= smoothstep e0 e1 x <= 1.
Proof.
  unfold smoothstep.
  pose proof (clamp_bounds ((x - e0) / (e1 - e0)) 0 1 ltac:(lra)) as Ht.
  set (t := clamp _ 0 1) in *. cbv zeta.
  assert (H1 : 0 <= t * t) by nra.
  assert (H2 : 0 <= (t * t) * (3 - 2 * t)) by (apply Rmult_le_pos; lra).
  assert (H3 : 0 <= (1 - t) * (1 - t)) by nra.
  assert (H4 : 0 <= ((1 - t) * (1 - t)) * (1 + 2 * t)) by (apply Rmult_le_pos; lra).
  split; [exact H2 | lra].
Qed.

Lemma getEdgeIntensity_range (u : EdgeDetection.Uniforms) (val threshold : R) :
  0 <= EdgeDetection.getEdgeIntensity u val threshold <= 1.
Proof. unfold EdgeDetection.getEdgeIntensity. apply smoothstep_range. Qed.

Lemma Rmax_unit (a b : R) : 0 <= a <= 1 -> 0 <= b <= 1 -> 0 <= Rmax a b <= 1.
Proof. intros Ha Hb. unfold Rmax. destruct (Rle_dec a b); lra. Qed.

Lemma techniques_range (u : EdgeDetection.Uniforms) (uv : vec2) :
  0 <= EdgeDetection.depthEdgeDetection u uv <= 1
  /\ 0 <= EdgeDetection.normalEdgeDetection u uv <= 1
  /\ 0 <= EdgeDetection.normalSobelDetection u uv <= 1
  /\ 0 <= EdgeDetection.colorEdgeDetection u uv <= 1
  /\ 0 <= EdgeDetection.laplacianEdgeDetection u uv <= 1.
Proof. repeat split; apply getEdgeIntensity_range. Qed.

(** X6: the edge pass writes a valid coverage.  For every input and every
    combination of techniques, with a positive smoothing width, the edge
    intensity lies in [[0, 1]]; the texel written is the edge colour scaled by
    it, with the intensity itself as alpha. *)
Theorem edge_intensity_range (u : EdgeDetection.Uniforms) (uv : vec2) :
  0 < EdgeDetection.smoothWidth u ->
  0 <= EdgeDetection.edgeIntensity u uv <= 1
  /\ EdgeDetection.main u uv
     = vec4_of (scale3 (EdgeDetection.edgeColor u) (EdgeDetection.edgeIntensity u uv))
               (EdgeDetection.edgeIntensity u uv).
Proof.
  intros _. split; [|reflexivity].
  destruct (techniques_range u uv) as (H1 & H2 & H3 & H4 & H5).
  unfold EdgeDetection.edgeIntensity. cbv zeta.
  assert (H0 : 0 <= 0 <= 1) by lra.
  destruct (EdgeDetection.enabled u EdgeDetection.DEPTH_BASED);
    destruct (EdgeDetection.enabled u EdgeDetection.NORMAL_BASED);
    destruct (EdgeDetection.enabled u EdgeDetection.SOBEL);
    destruct (EdgeDetection.enabled u EdgeDetection.COLOR_BASED);
    destruct (EdgeDetection.enabled u EdgeDetection.LAPLACIAN);
    repeat apply Rmax_unit; assumption.
Qed.

Lemma edge_intensity_range_witness :
  0 <= EdgeDetection.edgeIntensity
         (Sample.flatScene (Vec3 0 0 1) Sample.zero3 31 (1 / 1000) 1 Sample.zero3)
         (Vec2 (1 / 2) (1 / 2)) <= 1.
Proof.
  apply (edge_intensity_range
           (Sample.flatScene (Vec3 0 0 1) Sample.zero3 31 (1 / 1000) 1 Sample.zero3)
           (Vec2 (1 / 2) (1 / 2))).
  simpl. lra.
Defined.

(** ** A depth step is an edge *)

Lemma sqrt_sum_squares_ge (a b : R) : 0 <= a -> a <= sqrt (a * a + b * b).
Proof.
  intros Ha. rewrite <- (sqrt_square a) at 1 by exact Ha.
  apply sqrt_le_1; nra.
Qed.

Lemma Rmax_one_r (a : R) : a <= 1 -> Rmax a 1 = 1.
Proof. intros H. apply Rmax_right. exact H. Qed.

Lemma Rmax_one_l (b : R) : b <= 1 -> Rmax 1 b = 1.
Proof. intros H. apply Rmax_left. exact H. Qed.

(** X7: a depth step is an edge.  With the depth technique enabled and a
    positive smoothing width, a pixel whose right and left neighbours differ in
    (linearised) depth by at least [depthThreshold + 0.01 * smoothWidth] gets
    the full edge intensity 1, whatever the other techniques report. *)
Theorem depth_step_is_edge (u : EdgeDetection.Uniforms) (uv : vec2) :
  0 < EdgeDetection.smoothWidth u ->
  EdgeDetection.enabled u EdgeDetection.DEPTH_BASED = true ->
  let tx := x2 (EdgeDetection.texelSize u) in
  let depthE := EdgeDetection.getLinearDepth u
                  (x4 (texture (EdgeDetection.gDepth u) (add2 uv (Vec2 tx 0)))) in
  let depthW := EdgeDetection.getLinearDepth u
                  (x4 (texture (EdgeDetection.gDepth u) (sub2 uv (Vec2 tx 0)))) in
  EdgeDetection.depthThreshold u + EdgeDetection.smoothWidth u * (1 / 100)
    <= Rabs (depthE - depthW) ->
  EdgeDetection.depthEdgeDetection u uv = 1 /\ EdgeDetection.edgeIntensity u uv = 1.
Proof.
  intros Hw Hen tx depthE depthW Hstep.
  assert (Hd : EdgeDetection.depthEdgeDetection u uv = 1).
  { unfold EdgeDetection.depthEdgeDetection. cbv zeta.
    fold tx. fold depthE. fold depthW.
    unfold EdgeDetection.getEdgeIntensity. cbv zeta.
    apply smoothstep_above; [lra|].
    pose proof (sqrt_sum_squares_ge (Rabs (depthE - depthW))
                  (Rabs (EdgeDetection.getLinearDepth u
                           (x4 (texture (EdgeDetection.gDepth u)
                                  (add2 uv (Vec2 0 (y2 (EdgeDetection.texelSize u))))))
                         - EdgeDetection.getLinearDepth u
                             (x4 (texture (EdgeDetection.gDepth u)
                                    (sub2 uv (Vec2 0 (y2 (EdgeDetection.texelSize u))))))))
                  (Rabs_pos _)) as Hs.
    lra. }
  split; [exact Hd|].
  destruct (techniques_range u uv) as (_ & H2 & H3 & H4 & H5).
  unfold EdgeDetection.edgeIntensity. cbv zeta. rewrite Hen, Hd.
  rewrite (Rmax_one_r 0) by lra.
  destruct (EdgeDetection.enabled u EdgeDetection.NORMAL_BASED);
    destruct (EdgeDetection.enabled u EdgeDetection.SOBEL);
    destruct (EdgeDetection.enabled u EdgeDetection.COLOR_BASED);
    destruct (EdgeDetection.enabled u EdgeDetection.LAPLACIAN);
    rewrite ?Rmax_one_l by lra; reflexivity.
Qed.

Lemma depth_step_is_edge_witness :
  EdgeDetection.edgeIntensity Cases.steppedScene (Vec2 (1 / 2) (1 / 2)) = 1.
Proof.
  apply (depth_step_is_edge Cases.steppedScene (Vec2 (1 / 2) (1 / 2))).
  - simpl. lra.
  - reflexivity.
  - cbv zeta. unfold EdgeDetection.getLinearDepth. simpl.
    rewrite (proj2 (fltb_false (1 / 2 + 1 / 1920) (1 / 2))) by lra.
    rewrite (proj2 (fltb_true (1 / 2 - 1 / 1920) (1 / 2))) by lra.
    simpl. unfold GLSL.pow, feqb.
    destruct (Req_dec_T 1 0) as [H|_]; [lra|].
    destruct (Req_dec_T 0 0) as [_|H]; [|lra].
    rewrite Rpower_1 by lra.
    rewrite Rabs_pos_eq by lra. lra.
Defined.

(** ** Frames without outlines *)

Lemma land_submask (f m b : Z) : Z.land m b = b -> Z.land f m = 0%Z -> Z.land f b = 0%Z.
Proof.
  intros Hb Hm. rewrite <- Hb, Z.land_assoc, Hm. apply Z.land_0_l.
Qed.

Lemma no_technique_no_edge (u : EdgeDetection.Uniforms) (uv : vec2) :
  Z.land (EdgeDetection.edgeFlags u) 31 = 0%Z ->
  EdgeDetection.edgeIntensity u uv = 0 /\ EdgeDetection.main u uv = Vec4 0 0 0 0.
Proof.
  intros Hf.
  assert (He : forall b, Z.land 31 b = b -> EdgeDetection.enabled u b = false).
  { intros b Hb. unfold EdgeDetection.enabled.
    rewrite (land_submask _ 31 b Hb Hf). reflexivity. }
  assert (H0 : EdgeDetection.edgeIntensity u uv = 0).
  { unfold EdgeDetection.edgeIntensity. cbv zeta.
    rewrite (He EdgeDetection.DEPTH_BASED), (He EdgeDetection.NORMAL_BASED),
      (He EdgeDetection.SOBEL), (He EdgeDetection.COLOR_BASED),
      (He EdgeDetection.LAPLACIAN) by reflexivity.
    reflexivity. }
  split; [exact H0|].
  unfold EdgeDetection.main. cbv zeta. rewrite H0.
  unfold vec4_of, scale3. simpl. f_equal; ring.
Qed.

(** X8: a frame without outlines shows the lit image.  With the edge and
    composite programs loaded, if outlining is disabled, or if it is enabled
    but none of the five technique bits is set in the edge flags, then after
    the edge pass and the composite pass every screen pixel is the lit colour
    with alpha 1. *)
Theorem screen_without_outline (r : Renderer.Renderer) (uv : vec2) :
  Renderer.edgeDetectionShader (Renderer.shaders (Renderer.setup r)) = true ->
  Renderer.compositeShader (Renderer.shaders (Renderer.setup r)) = true ->
  Renderer.enableOutlining (Renderer.edgeParams r) = false
  \/ Z.land (Renderer.edgeDetectionFlags r) 31 = 0%Z ->
  Renderer.screen
    (Renderer.run (Renderer.andThen Renderer.edgeDetectionPass Renderer.compositePass) r) uv
  = vec4_of (xyz (texture (Renderer.lightingTexture r) uv)) 1.
Proof.
  intros He Hc Hoff. rewrite run_andThen.
  destruct (compositePass_reads_edgePass r uv He Hc) as (Hedge & Hlit & Hscreen).
  cbv zeta in Hedge, Hlit, Hscreen. rewrite Hscreen.
  unfold Composite.main. cbv zeta. rewrite Hedge, Hlit.
  assert (Hout : Composite.enableOutlining
                   (Renderer.compositeUniforms (Renderer.run Renderer.edgeDetectionPass r))
                 = Renderer.enableOutlining (Renderer.edgeParams r)).
  { unfold Renderer.run, Renderer.edgeDetectionPass. rewrite He. reflexivity. }
  rewrite Hout.
  destruct (Renderer.enableOutlining (Renderer.edgeParams r)) eqn:Eo; [|reflexivity].
  destruct Hoff as [Hoff|Hoff]; [discriminate|].
  destruct (no_technique_no_edge (Renderer.edgeUniforms r) uv Hoff) as [_ ->].
  f_equal. unfold mix3, mix, xyz. simpl.
  destruct (xyz (texture (Renderer.lightingTexture r) uv)) as [a b c]. simpl.
  f_equal; ring.
Qed.

Lemma screen_without_outline_witness :
  Renderer.screen
    (Renderer.run (Renderer.andThen Renderer.edgeDetectionPass Renderer.compositePass)
                  Cases.noTechniques) (Vec2 (1 / 2) (1 / 2))
  = vec4_of (xyz (texture (Renderer.lightingTexture Cases.noTechniques)
                          (Vec2 (1 / 2) (1 / 2)))) 1.
Proof.
  apply (screen_without_outline Cases.noTechniques (Vec2 (1 / 2) (1 / 2))).
  - reflexivity.
  - reflexivity.
  - right. reflexivity.
Defined.

(** ** The light registry *)

Lemma apply_capacity (op : Registry.Op) (ls : list Lighting.Light) :
  (length ls <= Lighting.MAX_LIGHTS)%nat ->
  (length (Registry.apply op ls) <= Lighting.MAX_LIGHTS)%nat.
Proof.
  intros H. destruct op as [l | i | i l | | i w]; simpl.
  - unfold Lighting.addLight.
    destruct (Nat.ltb_spec (length ls) Lighting.MAX_LIGHTS); [|exact H].
    rewrite length_app. simpl. lia.
  - unfold Lighting.removeLight.
    destruct (Nat.ltb_spec i (length ls)); [|exact H].
    rewrite length_delete by (apply lookup_lt_is_Some; lia). lia.
  - unfold Lighting.updateLight.
    destruct (i <? length ls)%nat; [|exact H].
    rewrite length_insert. exact H.
  - unfold Lighting.MAX_LIGHTS. lia.
  - unfold Lighting.renderLightingWindow_edit.
    destruct (ls !! i); [|exact H]. rewrite length_insert. exact H.
Qed.

(** X9: the registry never holds more than [MAX_LIGHTS = 32] lights.
    Starting within capacity, every sequence of addLight, removeLight,
    updateLight, clearLights and widget edits stays within capacity; at
    capacity addLight drops the new light and leaves the registry as it is,
    below capacity it appends it as the last light. *)
Theorem registry_capacity (ops : list Registry.Op) (light : Lighting.Light)
    (ls : list Lighting.Light) :
  (length ls <= Lighting.MAX_LIGHTS)%nat ->
  (length (Registry.applyAll ops ls) <= Lighting.MAX_LIGHTS)%nat
  /\ (length ls = Lighting.MAX_LIGHTS -> Lighting.addLight light ls = ls)
  /\ ((length ls < Lighting.MAX_LIGHTS)%nat ->
      Lighting.addLight light ls !! length ls = Some light
      /\ length (Lighting.addLight light ls) = S (length ls)).
Proof.
  intros H. split; [|split].
  - revert ls H. unfold Registry.applyAll.
    induction ops as [|op ops IH]; intros ls H; simpl; [exact H|].
    apply IH, apply_capacity, H.
  - intros Hfull. unfold Lighting.addLight.
    rewrite (proj2 (Nat.ltb_ge _ _)) by lia. reflexivity.
  - intros Hroom. unfold Lighting.addLight.
    rewrite (proj2 (Nat.ltb_lt _ _)) by exact Hroom.
    rewrite length_app. simpl. split; [|lia].
    rewrite lookup_app_r by lia. rewrite Nat.sub_diag. reflexivity.
Qed.

Lemma registry_capacity_witness :
  (length (Registry.applyAll
             [Registry.AddLight Sample.lamp; Registry.RemoveLight 0;
              Registry.AddLight Sample.torch]
             []) <= Lighting.MAX_LIGHTS)%nat.
Proof.
  apply (registry_capacity _ Sample.lamp []).
  simpl. unfold Lighting.MAX_LIGHTS. lia.
Defined.

(** X10: indexing in the registry.  removeLight with a valid index erases
    that light and moves every later light one index down; updateLight with a
    valid index replaces that light and no other; with an index at or beyond
    the count both leave the registry unchanged. *)
Theorem registry_indexing (i j : nat) (l : Lighting.Light) (ls : list Lighting.Light) :
  ((length ls <= i)%nat ->
     Lighting.removeLight i ls = ls /\ Lighting.updateLight i l ls = ls)
  /\ ((i < length ls)%nat ->
      length (Lighting.removeLight i ls) = pred (length ls)
      /\ Lighting.removeLight i ls !! j = (if (j <? i)%nat then ls !! j else ls !! S j)
      /\ length (Lighting.updateLight i l ls) = length ls
      /\ Lighting.updateLight i l ls !! j = (if (j =? i)%nat then Some l else ls !! j)).
Proof.
  unfold Lighting.removeLight, Lighting.updateLight. split.
  - intros H. rewrite (proj2 (Nat.ltb_ge _ _)) by exact H. auto.
  - intros H. rewrite (proj2 (Nat.ltb_lt _ _)) by exact H.
    split; [|split; [|split]].
    + rewrite length_delete by (apply lookup_lt_is_Some; exact H). lia.
    + destruct (Nat.ltb_spec j i).
      * apply list_lookup_delete_lt. assumption.
      * apply list_lookup_delete_ge. assumption.
    + apply length_insert.
    + destruct (Nat.eqb_spec j i) as [->|Hne].
      * apply list_lookup_insert_eq. exact H.
      * apply list_lookup_insert_ne. auto.
Qed.

Lemma registry_indexing_witness :
  Lighting.removeLight 0 [Sample.lamp; Sample.torch] !! 0%nat
  = [Sample.lamp; Sample.torch] !! 1%nat
  /\ Lighting.removeLight 5 [Sample.lamp; Sample.torch] = [Sample.lamp; Sample.torch].
Proof.
  pose proof (registry_indexing 0 0 Sample.lamp [Sample.lamp; Sample.torch]) as H0.
  pose proof (registry_indexing 5 0 Sample.lamp [Sample.lamp; Sample.torch]) as H5.
  split.
  - apply (proj2 H0). simpl. lia.
  - apply (proj1 H5). simpl. lia.
Defined.

(** ** What the shadow bookkeeping leaves behind *)

(** X11: after updateShadowMaps a shadow slot is active exactly for a
    shadow-casting light among the first 8.  A slot whose index holds a light
    and is below 8 is active iff that light casts shadows, and an active slot
    has its light's type and required size; every other slot is inactive. *)
Theorem updateShadowMaps_activates_casters
    (r : Renderer.Renderer) (j : nat) (d : Renderer.ShadowMapData) :
  Renderer.shadowMaps (Renderer.run Renderer.updateShadowMaps r) !! j = Some d ->
  match Renderer.lights r !! j with
  | Some light =>
      if (j <? Renderer.MAX_SHADOW_CASTING_LIGHTS)%nat then
        Renderer.isActive d = Lighting.castShadows light
        /\ (Renderer.isActive d = true ->
            Renderer.type d = Lighting.type light
            /\ Renderer.size d = Renderer.requiredSizeFor (Renderer.shadowParams r) light)
      else Renderer.isActive d = false
  | None => Renderer.isActive d = false
  end.
Proof.
  intros Hd.
  destruct (updateShadowMaps_settled r) as ((Hl & Hp & _) & Hlit & Hunused).
  set (r1 := Renderer.run Renderer.updateShadowMaps r) in *.
  assert (Hout : (Renderer.shadowLightCount r <= j)%nat -> Renderer.isActive d = false).
  { intros Hj. specialize (Hunused j Hj). unfold Slots.settledUnused in Hunused.
    rewrite Hd in Hunused. exact Hunused. }
  destruct (Renderer.lights r !! j) as [light|] eqn:El.
  - destruct (Nat.ltb_spec j Renderer.MAX_SHADOW_CASTING_LIGHTS) as [Hj|Hj].
    + assert (Hc : (j < Renderer.shadowLightCount r)%nat).
      { apply lookup_lt_Some in El. unfold Renderer.shadowLightCount. lia. }
      specialize (Hlit j Hc). unfold Slots.settledLit in Hlit.
      rewrite Hl, El, Hd, Hp in Hlit.
      destruct Hlit as [Hn | [Hc0 Ha0]].
      * apply needsReallocation_false in Hn as (Ha & Ht & Hs & Hcast).
        rewrite Ha, Hcast. auto.
      * rewrite Ha0, Hc0. split; [reflexivity | discriminate].
    + apply Hout. unfold Renderer.shadowLightCount. lia.
  - apply Hout. apply lookup_ge_None in El. unfold Renderer.shadowLightCount. lia.
Qed.

Lemma updateShadowMaps_activates_casters_witness :
  let fresh := Sample.constructed Sample.oneCrate [Sample.lamp] in
  exists d, Renderer.shadowMaps (Renderer.run Renderer.updateShadowMaps fresh) !! 0%nat
            = Some d
            /\ Renderer.isActive d = Lighting.castShadows Sample.lamp.
Proof.
  cbv zeta. eexists. split; [reflexivity|].
  apply (updateShadowMaps_activates_casters
           (Sample.constructed Sample.oneCrate [Sample.lamp]) 0 _ eq_refl).
Defined.






(** ** Frames without shadow programs *)

Lemma calls_renderModels (ms : list (option Renderer.Model)) (shader : bool) :
  forall r, Renderer.calls (Renderer.renderModels ms shader) r
            = if shader then Renderer.Model_draw <$> omap (fun m => m) ms else [].
Proof.
  induction ms as [|m ms IH]; intros r.
  - destruct shader; reflexivity.
  - simpl Renderer.renderModels. rewrite calls_andThen, IH.
    unfold Renderer.calls, Renderer.renderModel.
    destruct m as [m|], shader; reflexivity.
Qed.

Lemma calls_geometryPass (camera : Renderer.Camera) (r : Renderer.Renderer) :
  Renderer.calls (Renderer.geometryPass camera) r
  = if Renderer.geometryShader (Renderer.shaders (Renderer.setup r))
    then Renderer.Model_draw <$> omap (fun m => m) (Renderer.geometryModels (Renderer.setup r))
    else [].
Proof.
  unfold Renderer.geometryPass, Renderer.calls. cbv beta zeta.
  destruct (Renderer.geometryShader (Renderer.shaders (Renderer.setup r))); [|reflexivity].
  rewrite snd_calls. apply (calls_renderModels _ true).
Qed.

Lemma forLoop_quiet (body : nat -> Renderer.Cmd) :
  (forall i r, Forall (fun e => Slots.isDraw e = false) (Renderer.calls (body i) r)) ->
  forall count from r,
    Forall (fun e => Slots.isDraw e = false)
           (Renderer.calls (Renderer.forLoop count from body) r).
Proof.
  intros Hbody. induction count as [|count IH]; intros from r.
  - constructor.
  - rewrite forLoop_S, calls_andThen. apply Forall_app. auto.
Qed.

Lemma updateShadowMap_quiet (i : nat) (r : Renderer.Renderer) :
  Forall (fun e => Slots.isDraw e = false) (Renderer.calls (Renderer.updateShadowMap i) r).
Proof.
  unfold Renderer.calls, Renderer.updateShadowMap.
  destruct (Renderer.lights r !! i) as [light|]; [|constructor].
  destruct (Renderer.shadowMaps r !! i) as [d|]; [|constructor].
  destruct (Renderer.needsReallocation _ _ _); [|constructor].
  assert (Hc : Forall (fun e => Slots.isDraw e = false)
                 (snd (if Renderer.isActive d then Renderer.cleanupShadowMap d
                       else (d, [])))).
  { destruct (Renderer.isActive d); [apply cleanupShadowMap_quiet | constructor]. }
  destruct (if Renderer.isActive d then Renderer.cleanupShadowMap d else (d, []))
    as [d1 e1]. simpl in Hc.
  destruct (negb (Lighting.castShadows light)); [exact Hc|].
  pose proof (allocateShadowMap_quiet light
                (Renderer.requiredSizeFor (Renderer.shadowParams r) light)
                (Renderer.glNext r) d1) as Ha.
  destruct (Renderer.allocateShadowMap _ _ _ _) as [[d2 next] e2]. simpl in *.
  apply Forall_app. auto.
Qed.

Lemma removeUnusedShadowMap_quiet (i : nat) (r : Renderer.Renderer) :
  Forall (fun e => Slots.isDraw e = false)
         (Renderer.calls (Renderer.removeUnusedShadowMap i) r).
Proof.
  unfold Renderer.calls, Renderer.removeUnusedShadowMap.
  destruct (Renderer.shadowMaps r !! i) as [d|]; [|constructor].
  pose proof (cleanupShadowMap_quiet d) as Hc.
  destruct (Renderer.isActive d); [|constructor].
  destruct (Renderer.cleanupShadowMap d) as [d1 e1]. exact Hc.
Qed.

Lemma updateShadowMaps_stats (r : Renderer.Renderer) :
  Renderer.stats (Renderer.run Renderer.updateShadowMaps r) = Renderer.stats r.
Proof.
  rewrite accounted_updateShadowMaps. apply tally_quiet.
  unfold Renderer.updateShadowMaps, Renderer.calls. cbv beta zeta.
  rewrite snd_calls, calls_andThen. apply Forall_app. split.
  - apply forLoop_quiet, updateShadowMap_quiet.
  - apply forLoop_quiet, removeUnusedShadowMap_quiet.
Qed.

Lemma shadowMapPass_disabled (r : Renderer.Renderer) :
  Renderer.shadowMapShader (Renderer.shaders (Renderer.setup r)) = false
  \/ Renderer.pointShadowShader (Renderer.shaders (Renderer.setup r)) = false ->
  Renderer.shadowMapPass r = (r, []).
Proof.
  intros H. unfold Renderer.shadowMapPass.
  destruct H as [-> | ->]; [reflexivity|].
  rewrite orb_true_r. reflexivity.
Qed.

Lemma screen_passes_stats (camera : Renderer.Camera) (r : Renderer.Renderer) :
  Renderer.stats
    (Renderer.run (Renderer.andThen (Renderer.lightingPass camera)
                     (Renderer.andThen Renderer.edgeDetectionPass
                                       Renderer.compositePass)) r)
  = Renderer.stats r.
Proof.
  rewrite !run_andThen.
  assert (Hl : forall r0, Renderer.stats (Renderer.run (Renderer.lightingPass camera) r0)
                          = Renderer.stats r0).
  { intros r0. unfold Renderer.lightingPass, Renderer.run.
    destruct (Renderer.hybridCelShader _); reflexivity. }
  assert (He : forall r0, Renderer.stats (Renderer.run Renderer.edgeDetectionPass r0)
                          = Renderer.stats r0).
  { intros r0. unfold Renderer.edgeDetectionPass, Renderer.run.
    destruct (Renderer.edgeDetectionShader _); reflexivity. }
  assert (Hc : forall r0, Renderer.stats (Renderer.run Renderer.compositePass r0)
                          = Renderer.stats r0).
  { intros r0. unfold Renderer.compositePass, Renderer.run.
    destruct (Renderer.compositeShader _); reflexivity. }
  rewrite Hc, He, Hl. reflexivity.
Qed.

(** X13: a renderer whose shadow programs failed to load keeps rendering,
    without shadows.  If either shadow program is missing, the shadow pass of
    a frame does nothing, and the frame's counters count the geometry pass
    alone: one draw, and its vertices, per loaded model of the geometry pass
    (none if the geometry program is missing too). *)
Theorem frame_without_shadow_programs (camera : Renderer.Camera) (r : Renderer.Renderer) :
  Renderer.shadowMapShader (Renderer.shaders (Renderer.setup r)) = false
  \/ Renderer.pointShadowShader (Renderer.shaders (Renderer.setup r)) = false ->
  let before := Renderer.run
                  (Renderer.andThen Renderer.resetStats
                     (Renderer.andThen Renderer.updateShadowMaps
                        (Renderer.updateLights (16 / 1000)))) r in
  Renderer.shadowMapPass before = (before, [])
  /\ Renderer.stats (Renderer.run (Renderer.render camera) r)
     = Slots.tally (Renderer.MkStats 0 0)
         (if Renderer.geometryShader (Renderer.shaders (Renderer.setup r))
          then Renderer.Model_draw <$> omap (fun m => m)
                                            (Renderer.geometryModels (Renderer.setup r))
          else []).
Proof.
  intros Hmiss before.
  assert (Hsetup : Renderer.setup before = Renderer.setup r).
  { unfold before. rewrite !run_andThen.
    destruct (updateLights_frame (16 / 1000)
                (Renderer.run Renderer.updateShadowMaps (Renderer.run Renderer.resetStats r)))
      as (_ & -> & _).
    destruct (updateShadowMaps_settled (Renderer.run Renderer.resetStats r))
      as ((_ & _ & -> & _) & _).
    reflexivity. }
  assert (Hstats : Renderer.stats before = Renderer.MkStats 0 0).
  { unfold before. rewrite !run_andThen.
    change (Renderer.stats
              (Renderer.run Renderer.updateShadowMaps (Renderer.run Renderer.resetStats r))
            = Renderer.MkStats 0 0).
    rewrite updateShadowMaps_stats. reflexivity. }
  assert (Hpass : Renderer.shadowMapPass before = (before, []))
    by (apply shadowMapPass_disabled; rewrite Hsetup; exact Hmiss).
  split; [exact Hpass|].
  unfold Renderer.render.
  rewrite run_andThen, (run_andThen Renderer.updateShadowMaps),
    (run_andThen (Renderer.updateLights (16 / 1000))).
  assert (Hb : Renderer.run (Renderer.updateLights (16 / 1000))
                 (Renderer.run Renderer.updateShadowMaps (Renderer.run Renderer.resetStats r))
               = before)
    by (unfold before; rewrite !run_andThen; reflexivity).
  rewrite Hb, (run_andThen Renderer.shadowMapPass).
  replace (Renderer.run Renderer.shadowMapPass before) with before
    by (unfold Renderer.run; rewrite Hpass; reflexivity).
  rewrite (run_andThen (Renderer.geometryPass camera)), screen_passes_stats.
  rewrite accounted_geometryPass, Hstats, calls_geometryPass, Hsetup. reflexivity.
Qed.

Lemma frame_without_shadow_programs_witness :
  Renderer.stats
    (Renderer.run (Renderer.render Sample.camera)
                  (Sample.constructed Cases.withoutShadowPrograms [Sample.lamp]))
  = Renderer.MkStats 1 3.
Proof.
  destruct (frame_without_shadow_programs Sample.camera
              (Sample.constructed Cases.withoutShadowPrograms [Sample.lamp])
              (or_introl eq_refl)) as [_ ->].
  reflexivity.
Defined.

(** ** The light animation *)

Lemma flicker_noise_bound (a b c : R) :
  Rabs ((sin a + sin b + sin c) * (33 / 100)) <= 99 / 100.
Proof.
  pose proof (SIN_bound a). pose proof (SIN_bound b). pose proof (SIN_bound c).
  apply Rabs_le. lra.
Qed.

(** X14: a flickering light stays within 7.92 percent of its base intensity,
    its colour components stay in [0,1], and the animation reads the base
    values only: whatever intensity and colour the light has when the frame
    starts (a value a slider wrote, or the flicker of the frame before) makes
    no difference to the result, so the flicker cannot drift. *)
Theorem flicker_stays_near_base (t : R) (l : Lighting.Light) (x : R) (c : vec3) :
  Lighting.flicker l = true ->
  let l' := Renderer.flickerLight t l in
  Rabs (Lighting.intensity l' - Lighting.baseIntensity l)
    <= 792 / 10000 * Rabs (Lighting.baseIntensity l)
  /\ (0 <= x3 (Lighting.color l') <= 1
      /\ 0 <= y3 (Lighting.color l') <= 1
      /\ 0 <= z3 (Lighting.color l') <= 1)
  /\ Renderer.flickerLight t (Lighting.set_color c (Lighting.set_intensity x l)) = l'
  /\ forall s, Renderer.flickerLight s l' = Renderer.flickerLight s l.
Proof.
  intros Hf l'. subst l'. unfold Renderer.flickerLight. rewrite Hf. cbv zeta.
  split; [|split; [|split]].
  - simpl.
    match goal with
    | |- Rabs (?b * (1 + ?n * (8 / 100)) - ?b) <= _ =>
        replace (b * (1 + n * (8 / 100)) - b) with (b * (n * (8 / 100))) by ring;
        assert (Hn : Rabs n <= 99 / 100) by apply flicker_noise_bound;
        rewrite Rabs_mult, (Rabs_mult n);
        rewrite (Rabs_pos_eq (8 / 100)) by lra;
        pose proof (Rabs_pos b); pose proof (Rabs_pos n)
    end.
    nra.
  - simpl. repeat split; apply clamp_bounds; lra.
  - simpl. rewrite Hf. reflexivity.
  - intros s. simpl. rewrite Hf. reflexivity.
Qed.

Lemma flicker_stays_near_base_witness :
  Rabs (Lighting.intensity (Renderer.flickerLight 2 Sample.torch)
        - Lighting.baseIntensity Sample.torch)
    <= 792 / 10000 * Rabs (Lighting.baseIntensity Sample.torch).
Proof.
  apply (flicker_stays_near_base 2 Sample.torch 0 Sample.zero3 eq_refl).
Defined.

Lemma mix_between (lo hi a : R) : lo <= hi -> 0 <= a <= 1 -> lo <= mix lo hi a <= hi.
Proof. intros Hlh Ha. unfold mix. split; nra. Qed.

Lemma updateCelestia_intensity (l : Lighting.Light) (t s e hi lo : R) :
  0 <= lo <= hi ->
  0 <= Lighting.intensity (Renderer.updateCelestia l t s e hi lo) <= hi.
Proof.
  intros Hr. unfold Renderer.updateCelestia. cbv zeta.
  destruct (fleb _ _); simpl; [|lra].
  match goal with
  | |- _ <= mix _ _ ?a <= _ =>
      pose proof (mix_between lo hi a (proj2 Hr) (smoothstep_range _ _ _))
  end.
  lra.
Qed.

(** X15: after updateLights, on a registry of at least two lights whose first
    two do not flicker, the sun (light 0) has an intensity in [0,1] and the
    moon (light 1) one in [0,1/2], and each of the two casts shadows exactly
    if its intensity is above 0.001.  Lights from index 2 on keep their
    castShadows flag. *)
Theorem celestial_lights_after_update (dt : R) (r : Renderer.Renderer)
    (sun moon : Lighting.Light) (rest : list Lighting.Light) :
  Renderer.lights r = sun :: moon :: rest ->
  Lighting.flicker sun = false ->
  Lighting.flicker moon = false ->
  exists sun' moon' rest',
    Renderer.lights (Renderer.run (Renderer.updateLights dt) r) = sun' :: moon' :: rest'
    /\ 0 <= Lighting.intensity sun' <= 1
    /\ 0 <= Lighting.intensity moon' <= 1 / 2
    /\ Lighting.castShadows sun' = fgtb (Lighting.intensity sun') (1 / 1000)
    /\ Lighting.castShadows moon' = fgtb (Lighting.intensity moon') (1 / 1000)
    /\ Lighting.castShadows <$> rest' = Lighting.castShadows <$> rest.
Proof.
  intros Hl Hs Hm. unfold Renderer.run, Renderer.updateLights. cbv zeta.
  rewrite Hl. simpl.
  assert (Hflick : forall (t : R) (l : Lighting.Light),
             Lighting.flicker l = false -> Renderer.flickerLight t l = l).
  { intros t l H. unfold Renderer.flickerLight. rewrite H. reflexivity. }
  assert (Hkeep : forall (l : Lighting.Light) t s e hi lo,
             Lighting.flicker (Renderer.updateCelestia l t s e hi lo) = Lighting.flicker l).
  { intros. unfold Renderer.updateCelestia. cbv zeta. destruct (fleb _ _); reflexivity. }
  rewrite !Hflick by (simpl; rewrite Hkeep; assumption).
  do 3 eexists. split; [reflexivity|]. simpl.
  split; [apply updateCelestia_intensity; lra|].
  split; [replace (1 / 2) with (5 / 10) by lra; apply updateCelestia_intensity; lra|].
  split; [reflexivity|]. split; [reflexivity|].
  rewrite <- list_fmap_compose. apply list_fmap_ext. intros i l _. simpl.
  unfold Renderer.flickerLight. destruct (Lighting.flicker l); reflexivity.
Qed.

Lemma celestial_lights_after_update_witness :
  exists sun' moon' rest',
    Renderer.lights (Renderer.run (Renderer.updateLights (16 / 1000))
                                  (Sample.constructed Sample.oneCrate
                                                      Renderer.initializeLights))
    = sun' :: moon' :: rest'
    /\ 0 <= Lighting.intensity sun' <= 1
    /\ 0 <= Lighting.intensity moon' <= 1 / 2
    /\ Lighting.castShadows sun' = fgtb (Lighting.intensity sun') (1 / 1000)
    /\ Lighting.castShadows moon' = fgtb (Lighting.intensity moon') (1 / 1000)
    /\ Lighting.castShadows <$> rest'
       = Lighting.castShadows <$> skipn 2 Renderer.initializeLights.
Proof.
  apply (celestial_lights_after_update (16 / 1000)
           (Sample.constructed Sample.oneCrate Renderer.initializeLights)
           _ _ _ eq_refl eq_refl eq_refl).
Defined.

(** ** Where the directional shadow map lies *)

Lemma mulMV_mulMM (a b : mat4) (v : vec4) : mulMV (mulMM a b) v = mulMV a (mulMV b v).
Proof.
  destruct a as [[] [] [] []], b as [[] [] [] []], v.
  unfold mulMM, mulMV. simpl. f_equal; ring.
Qed.

(** the view matrix of a camera looking at the world origin maps the origin
    to the point straight ahead, at the distance of the eye *)
Lemma lookAt_origin (eye up : vec3) :
  0 < dot3 eye eye ->
  mulMV (GLM.lookAt eye (splat3 0) up) (Vec4 0 0 0 1)
  = Vec4 0 0 (- sqrt (dot3 eye eye)) 1.
Proof.
  intros He.
  assert (Hs : sqrt (dot3 eye eye) * sqrt (dot3 eye eye) = dot3 eye eye)
    by (apply sqrt_sqrt; lra).
  assert (Hpos : 0 < sqrt (dot3 eye eye)) by (apply sqrt_lt_R0; exact He).
  assert (Hc : dot3 (sub3 (splat3 0) eye) (sub3 (splat3 0) eye) = dot3 eye eye)
    by (destruct eye; unfold dot3, sub3, splat3; simpl; ring).
  unfold GLM.lookAt, mulMV. cbv zeta. simpl.
  unfold normalize at 1 2 3. rewrite !Hc.
  set (k := 1 / sqrt (dot3 eye eye)).
  set (k2 := 1 / sqrt (dot3 (cross (normalize (sub3 (splat3 0) eye)) up)
                            (cross (normalize (sub3 (splat3 0) eye)) up))).
  unfold normalize. rewrite Hc. fold k.
  assert (Hk : dot3 eye eye * k = sqrt (dot3 eye eye)).
  { unfold k. field_simplify_eq; [|lra]. lra. }
  destruct eye as [ex ey ez], up as [ux uy uz].
  unfold dot3, cross, scale3, sub3, splat3 in *. simpl in *.
  f_equal; try ring.
  rewrite <- Hk. ring.
Qed.

(** X16: the shadow map of a directional light is centred on the world
    origin, wherever the camera is: the origin projects to the middle
    (1/2, 1/2) of the map, at depth (far - 2 near) / (2 (far - near)), and is
    never rejected as outside the map. *)
Theorem directional_shadow_centred_on_origin
    (u : HybridCelLighting.Uniforms) (i : nat)
    (p : Renderer.ShadowParams) (light : Lighting.Light) :
  0 < dot3 (Lighting.direction light) (Lighting.direction light) ->
  0 < Renderer.farPlane p ->
  Renderer.nearPlane p < Renderer.farPlane p ->
  Renderer.orthoSize p <> 0 ->
  lightSpaceMatrices u i = Renderer.directionalLightSpaceMatrix p light ->
  projectToLight u i (Vec3 0 0 0)
  = Vec3 (1 / 2) (1 / 2)
         ((Renderer.farPlane p - 2 * Renderer.nearPlane p)
          / (2 * (Renderer.farPlane p - Renderer.nearPlane p)))
  /\ outsideShadowMap (projectToLight u i (Vec3 0 0 0)) = false.
Proof.
  intros Hd Hfar Hnf Ho Hm.
  assert (Hunit : dot3 (normalize (Lighting.direction light))
                       (normalize (Lighting.direction light)) = 1)
    by (apply dot3_normalize; exact Hd).
  set (eye := scale3 (neg3 (normalize (Lighting.direction light)))
                     (Renderer.farPlane p * (5 / 10))).
  assert (Heye : dot3 eye eye
                 = (Renderer.farPlane p * (5 / 10)) * (Renderer.farPlane p * (5 / 10))).
  { unfold eye. revert Hunit.
    destruct (normalize (Lighting.direction light)) as [a b c].
    unfold dot3, scale3, neg3. simpl. intros Hunit.
    replace (- a * (Renderer.farPlane p * (5 / 10)) * (- a * (Renderer.farPlane p * (5 / 10)))
             + - b * (Renderer.farPlane p * (5 / 10)) * (- b * (Renderer.farPlane p * (5 / 10)))
             + - c * (Renderer.farPlane p * (5 / 10)) * (- c * (Renderer.farPlane p * (5 / 10))))
      with ((a * a + b * b + c * c)
            * ((Renderer.farPlane p * (5 / 10)) * (Renderer.farPlane p * (5 / 10)))) by ring.
    rewrite Hunit. ring. }
  assert (Hlen : sqrt (dot3 eye eye) = Renderer.farPlane p * (5 / 10)).
  { rewrite Heye. apply sqrt_square. lra. }
  assert (Hproj : projectToLight u i (Vec3 0 0 0)
                  = Vec3 (1 / 2) (1 / 2)
                      ((Renderer.farPlane p - 2 * Renderer.nearPlane p)
                       / (2 * (Renderer.farPlane p - Renderer.nearPlane p)))).
  { unfold projectToLight. cbv zeta. rewrite Hm.
    unfold Renderer.directionalLightSpaceMatrix. cbv zeta. fold eye.
    change (vec4_of (Vec3 0 0 0) 1) with (Vec4 0 0 0 1).
    rewrite mulMV_mulMM, lookAt_origin by (rewrite Heye; nra).
    rewrite Hlen. unfold GLM.ortho, mulMV, add3, scale3, splat3. simpl.
    f_equal; field; lra. }
  split; [exact Hproj|]. rewrite Hproj.
  unfold outsideShadowMap. simpl.
  assert (Hz : (Renderer.farPlane p - 2 * Renderer.nearPlane p)
               / (2 * (Renderer.farPlane p - Renderer.nearPlane p)) <= 1).
  { replace 1 with ((2 * (Renderer.farPlane p - Renderer.nearPlane p))
                     / (2 * (Renderer.farPlane p - Renderer.nearPlane p)))
      by (field; lra).
    apply Rmult_le_compat_r; [left; apply Rinv_0_lt_compat; lra | lra]. }
  unfold fgtb, fltb.
  repeat (destruct (Rlt_dec _ _) as [Hlt|_]; [exfalso; lra|]). reflexivity.
Qed.

Lemma directional_shadow_centred_on_origin_witness :
  outsideShadowMap (projectToLight Cases.sunlit 0 (Vec3 0 0 0)) = false.
Proof.
  apply (directional_shadow_centred_on_origin Cases.sunlit 0
           Renderer.ShadowParams_default Cases.downLight).
  - unfold dot3. simpl. lra.
  - simpl. lra.
  - simpl. lra.
  - simpl. lra.
  - reflexivity.
Defined.

(** ** Point-light shadows: the depth written and the depth compared *)

(** X17: the far plane cancels between the depth shader of a point light and
    the lighting shader.  With hard shadows, if the cube-map texel towards
    the fragment holds the depth point_shadow.frag wrote for a surface point
    [q] (within the far plane, with the same light position and far plane),
    the fragment is in shadow exactly if it is farther from the light than
    [q] by more than 2.5 times the shadow bias: then its shadow factor is
    shadowIntensity, otherwise 1.  So, for a bias that is not negative, a
    fragment no farther from the light than [q], and [q] itself, is lit. *)
Theorem point_shadow_compares_distances
    (u : HybridCelLighting.Uniforms) (i : nat) (fragPos lightPos q : vec3) :
  0 < shadowFarPlane u ->
  length3 (sub3 q lightPos) <= shadowFarPlane u ->
  enablePCF u && (0 <? shadowPCFSamples u)%Z = false ->
  x4 (textureCube (shadowCubeMaps u i) (sub3 fragPos lightPos))
  = PointShadow.main (PointShadow.MkUniforms lightPos (shadowFarPlane u)) (vec4_of q 1) ->
  calculatePointShadow u i fragPos lightPos
  = (if fgtb (length3 (sub3 fragPos lightPos) - shadowBias u * (25 / 10))
             (length3 (sub3 q lightPos))
     then shadowIntensity u else 1)
  /\ (0 <= shadowBias u ->
      length3 (sub3 fragPos lightPos) <= length3 (sub3 q lightPos) ->
      calculatePointShadow u i fragPos lightPos = 1).
Proof.
  intros Hfar Hin Hhard Htex.
  assert (Hdepth : x4 (textureCube (shadowCubeMaps u i) (sub3 fragPos lightPos))
                   * shadowFarPlane u
                   = length3 (sub3 q lightPos)).
  { rewrite Htex. unfold PointShadow.main. cbv zeta. simpl.
    change (xyz (vec4_of q 1)) with (Vec3 (x3 q) (y3 q) (z3 q)).
    replace (Vec3 (x3 q) (y3 q) (z3 q)) with q by (destruct q; reflexivity).
    field. lra. }
  assert (Hval : calculatePointShadow u i fragPos lightPos
                 = (if fgtb (length3 (sub3 fragPos lightPos) - shadowBias u * (25 / 10))
                            (length3 (sub3 q lightPos))
                    then shadowIntensity u else 1)).
  { unfold calculatePointShadow, pointShadowTest. cbv zeta.
    rewrite Hhard, Hdepth. unfold gtOne, effectiveShadow, mix.
    destruct (fgtb _ _); ring. }
  split; [exact Hval|].
  intros Hbias Hnear. rewrite Hval.
  destruct (fgtb _ _) eqn:Hgt; [|reflexivity].
  apply fgtb_true in Hgt. lra.
Qed.

Lemma point_shadow_compares_distances_witness :
  calculatePointShadow Cases.lampCube 0 (Vec3 0 0 3) Sample.zero3 = 7 / 10.
Proof.
  destruct (point_shadow_compares_distances Cases.lampCube 0 (Vec3 0 0 3) Sample.zero3
              (Vec3 0 0 2)) as [-> _].
  - simpl. lra.
  - unfold length3, dot3. simpl.
    replace ((0 - 0) * (0 - 0) + (0 - 0) * (0 - 0) + (2 - 0) * (2 - 0)) with (2 * 2) by ring.
    rewrite sqrt_square; lra.
  - reflexivity.
  - reflexivity.
  - unfold length3, dot3. simpl.
    replace ((0 - 0) * (0 - 0) + (0 - 0) * (0 - 0) + (3 - 0) * (3 - 0)) with (3 * 3) by ring.
    replace ((0 - 0) * (0 - 0) + (0 - 0) * (0 - 0) + (2 - 0) * (2 - 0)) with (2 * 2) by ring.
    rewrite !sqrt_square by lra.
    unfold fgtb. rewrite (proj2 (fltb_true _ _)) by lra. reflexivity.
Defined.

(** ** What the geometry pass writes and the lighting pass reads *)

Lemma normalize_unit (v : vec3) : dot3 v v = 1 -> normalize v = v.
Proof.
  intros Hv. unfold normalize. rewrite Hv, sqrt_1.
  destruct v. unfold scale3. simpl. f_equal; field.
Qed.

Lemma Int_part_half (z : Z) : Int_part (IZR z + 5 / 10) = z.
Proof.
  apply eq_IZR. apply (floor_unique (IZR z + 5 / 10) z). lra.
Qed.



(** ** Surfaces that face away from a light *)

Lemma feqb_refl (a : R) : feqb a a = true.
Proof. unfold feqb. destruct (Req_dec_T a a); [reflexivity|congruence]. Qed.

Lemma length3_zero : length3 (Vec3 0 0 0) = 0.
Proof.
  unfold length3, dot3. simpl.
  replace (0 * 0 + 0 * 0 + 0 * 0) with 0 by ring. apply sqrt_0.
Qed.

Lemma calculateSpecularIntensity_back (L V N : vec3) (sh : R) :
  dot3 N L <= 0 -> calculateSpecularIntensity L V N sh = 0.
Proof.
  intros H. unfold calculateSpecularIntensity. cbv zeta.
  rewrite Rmax_right by exact H. rewrite (proj2 (fleb_true 0 0)) by lra. reflexivity.
Qed.

Lemma calculateOrenNayar_back (N L V : vec3) (rough : R) (albedo : vec3) :
  dot3 N L <= 0 -> calculateOrenNayar N L V rough albedo = Vec3 0 0 0.
Proof.
  intros H. unfold calculateOrenNayar. cbv zeta.
  rewrite !(Rmax_right (dot3 N L) 0) by exact H.
  destruct (fltb 0 (Rmax (dot3 N V) 0)); unfold scale3; simpl; f_equal; ring.
Qed.

Lemma calculateAshikhminShirley_back (N L V : vec3) (nu nv : R) (albedo : vec3) :
  dot3 N L <= 0 -> calculateAshikhminShirley N L V nu nv albedo = Vec3 0 0 0.
Proof.
  intros H. unfold calculateAshikhminShirley, determineTangentFrame. cbv zeta.
  rewrite !(Rmax_right (dot3 N L) 0) by exact H.
  rewrite feqb_refl. reflexivity.
Qed.

Lemma calculateCookTorrance_back (N L V : vec3) (rough f0 : R) (albedo : vec3) :
  dot3 N L <= 0 -> calculateCookTorrance N L V rough f0 albedo = Vec3 0 0 0.
Proof.
  intros H. unfold calculateCookTorrance. cbv zeta.
  rewrite !(Rmax_right (dot3 N L) 0) by exact H.
  rewrite feqb_refl. reflexivity.
Qed.

Lemma quantizeDiffuseIntensity_zero (bands : Z) : quantizeDiffuseIntensity 0 bands = 0.
Proof.
  unfold quantizeDiffuseIntensity. destruct (bands <=? 1)%Z eqn:Hb; [reflexivity|].
  cbv zeta. apply Z.leb_gt in Hb.
  rewrite clamp_inside by lra.
  replace (0 * IZR bands + 5 / 10) with (5 / 10) by ring.
  rewrite (floor_unique (5 / 10) 0) by (simpl; lra).
  unfold Rdiv. ring.
Qed.

Lemma hybridCelShading_dark (base : vec3) (d s : R) (bands : Z) (t1 t2 sf : R) :
  d = 0 -> s = 0 -> 0 < t1 ->
  hybridCelShading base d s bands t1 t2 sf = Vec3 0 0 0.
Proof.
  intros -> -> Ht. unfold hybridCelShading. cbv zeta.
  replace (0 * sf) with 0 by ring.
  rewrite quantizeDiffuseIntensity_zero.
  assert (Hs : quantizeSpecularIntensity 0 t1 t2 = 0).
  { unfold quantizeSpecularIntensity. cbv zeta.
    rewrite (clamp_inside 0 0 1) by lra.
    rewrite (proj2 (fltb_true 0 (clamp t1 0 1))); [reflexivity|].
    unfold clamp. apply Rmin_glb_lt; [|lra].
    apply Rlt_le_trans with t1; [exact Ht | apply Rmax_l]. }
  rewrite Hs. destruct base as [a b c]. unfold pow3, add3, scale3, splat3, pow. simpl.
  replace (a * 0 + 0 * (6 / 10)) with 0 by ring.
  replace (b * 0 + 0 * (6 / 10)) with 0 by ring.
  replace (c * 0 + 0 * (6 / 10)) with 0 by ring.
  rewrite feqb_refl. reflexivity.
Qed.

Lemma add3_dark (total v color : vec3) :
  v = Vec3 0 0 0 -> add3 total (mul3 v color) = total.
Proof.
  intros ->. destruct total, color. unfold add3, mul3. simpl. f_equal; ring.
Qed.

(** X19: a light behind a surface adds nothing to it.  If the normal stored
    in the G-buffer and the direction towards the light have a dot product
    that is not positive, a directional, point or spot light leaves
    [totalLighting] as it is, for every illumination model except Minnaert's
    (model 1), with or without quantization; with quantization the first
    specular threshold has to be positive.  Minnaert's model is the
    exception: its diffuse term for such a light is 0.001^k, which is
    positive. *)
Theorem back_facing_surface_unlit (u : HybridCelLighting.Uniforms) (tc : vec2)
    (gData : GBufferData) (viewDir total : vec3) (i : nat) :
  let light := lights u i in
  let toLight :=
    if (type light =? 0)%Z then normalize (neg3 (direction light))
    else normalize (sub3 (position light) (worldPosition gData)) in
  (0 <= type light <= 2)%Z ->
  dot3 (worldNormal gData) toLight <= 0 ->
  (Int_part (materialType gData + 5 / 10) <> 1%Z ->
   (enableQuantization u = true -> 0 < specularThreshold1 u) ->
   accumulate u tc gData viewDir total i = total)
  /\ (forall k : R,
        calculateMinnaert (worldNormal gData) toLight viewDir k
        = splat3 (Rpower (1 / 1000) k)
        /\ 0 < Rpower (1 / 1000) k).
Proof.
  intros light toLight Hty Hdot. split.
  2:{ intros k. split; [|apply exp_pos].
      unfold calculateMinnaert. cbv zeta.
      rewrite (Rmax_right (dot3 (worldNormal gData) toLight) 0) by exact Hdot.
      replace (0 * Rmax (dot3 (worldNormal gData) viewDir) 0) with 0 by ring.
      rewrite Rmax_right by lra. unfold pow, feqb.
      destruct (Req_dec_T (1 / 1000) 0); [lra|reflexivity]. }
  intros Hmat Hspec. subst light toLight.
  unfold accumulate, lightContribution. cbv zeta.
  destruct (fleb (intensity (lights u i)) 0); [reflexivity|].
  set (M := Int_part (materialType gData + 5 / 10)) in *.
  assert (Hshade : forall (lightDir : vec3) (attenuation shadowFactor : R),
    dot3 (worldNormal gData) lightDir <= 0 ->
    match
      (if fleb attenuation (1 / 1000) then None
       else
         let
         '(diffuseIntensity, diffuseColor) :=
          if (M =? 0)%Z
          then
           (Rmax (dot3 (worldNormal gData) lightDir) 0,
            scale3 (baseColor gData) (Rmax (dot3 (worldNormal gData) lightDir) 0))
          else
           if (M =? 1)%Z
           then
            (x3 (calculateMinnaert (worldNormal gData) lightDir viewDir
                   (x4 (texture (gQuantization u) tc))),
             mul3 (baseColor gData)
               (calculateMinnaert (worldNormal gData) lightDir viewDir
                  (x4 (texture (gQuantization u) tc))))
           else
            if (M =? 2)%Z
            then
             (length3
                (calculateOrenNayar (worldNormal gData) lightDir viewDir
                   (y4 (texture (gQuantization u) tc)) (baseColor gData)) /
              length3 (add3 (baseColor gData) (splat3 (1 / 1000))),
              calculateOrenNayar (worldNormal gData) lightDir viewDir
                (y4 (texture (gQuantization u) tc)) (baseColor gData))
            else
             if (M =? 3)%Z
             then
              (length3
                 (calculateAshikhminShirley (worldNormal gData) lightDir viewDir
                    (x4 (texture (gQuantization u) tc))
                    (y4 (texture (gQuantization u) tc)) (baseColor gData)) /
               length3 (add3 (baseColor gData) (splat3 (1 / 1000))),
               calculateAshikhminShirley (worldNormal gData) lightDir viewDir
                 (x4 (texture (gQuantization u) tc))
                 (y4 (texture (gQuantization u) tc)) (baseColor gData))
             else
              if (M =? 4)%Z
              then
               (length3
                  (calculateCookTorrance (worldNormal gData) lightDir viewDir
                     (x4 (texture (gQuantization u) tc))
                     (y4 (texture (gQuantization u) tc)) (baseColor gData)) /
                length3 (add3 (baseColor gData) (splat3 (1 / 1000))),
                calculateCookTorrance (worldNormal gData) lightDir viewDir
                  (x4 (texture (gQuantization u) tc))
                  (y4 (texture (gQuantization u) tc)) (baseColor gData))
              else (0, splat3 0) in
          if enableQuantization u
          then
           Some
             (mul3
                (hybridCelShading (baseColor gData)
                   (diffuseIntensity * (intensity (lights u i) * attenuation))
                   (if negb (M =? 3)%Z && negb (M =? 4)%Z
                    then
                     calculateSpecularIntensity lightDir viewDir (worldNormal gData)
                       (specularShininess gData) * intensity (lights u i) *
                     attenuation * (3 / 10)
                    else 0) (diffuseQuantizationBands u) (specularThreshold1 u)
                   (specularThreshold2 u) shadowFactor) (color (lights u i)))
          else
           Some
             (mul3
                (add3
                   (scale3
                      (scale3 diffuseColor (intensity (lights u i) * attenuation))
                      shadowFactor)
                   (splat3
                      ((if negb (M =? 3)%Z && negb (M =? 4)%Z
                        then
                         calculateSpecularIntensity lightDir viewDir
                           (worldNormal gData) (specularShininess gData) *
                         intensity (lights u i) * attenuation * (3 / 10)
                        else 0) * shadowFactor))) (color (lights u i))))
    with
    | Some lightContrib => add3 total lightContrib
    | None => total
    end = total).
  { intros L att sf HL.
    destruct (fleb att (1 / 1000)); [reflexivity|].
    assert (Hsp : (if negb (M =? 3)%Z && negb (M =? 4)%Z
                   then calculateSpecularIntensity L viewDir (worldNormal gData)
                          (specularShininess gData)
                        * intensity (lights u i) * att * (3 / 10)
                   else 0) = 0).
    { destruct (negb (M =? 3)%Z && negb (M =? 4)%Z); [|reflexivity].
      rewrite calculateSpecularIntensity_back by exact HL. ring. }
    rewrite Hsp.
    rewrite (Rmax_right (dot3 (worldNormal gData) L) 0) by exact HL.
    rewrite calculateOrenNayar_back, calculateAshikhminShirley_back,
      calculateCookTorrance_back by exact HL.
    rewrite length3_zero.
    destruct (M =? 0)%Z.
    - destruct (enableQuantization u) eqn:Hq.
      + apply add3_dark, hybridCelShading_dark; [ring|reflexivity|auto].
      + apply add3_dark. destruct (baseColor gData).
        unfold add3, scale3, splat3. simpl. f_equal; ring.
    - destruct (M =? 1)%Z eqn:E1; [apply Z.eqb_eq in E1; contradiction|].
      assert (Hz : forall c : R, 0 / c = 0) by (intros; unfold Rdiv; ring).
      destruct (M =? 2)%Z; [|destruct (M =? 3)%Z; [|destruct (M =? 4)%Z]];
        (destruct (enableQuantization u) eqn:Hq;
         [ apply add3_dark, hybridCelShading_dark;
           [rewrite ?Hz; ring | reflexivity | auto]
         | apply add3_dark; unfold add3, scale3, splat3; simpl; f_equal; ring ]). }
  assert (Hcases : (type (lights u i) = 0 \/ type (lights u i) = 1
                    \/ type (lights u i) = 2)%Z) by lia.
  destruct Hcases as [H|[H|H]]; rewrite H in *; simpl in Hdot; simpl;
    apply Hshade; exact Hdot.
Qed.

Lemma back_facing_surface_unlit_witness :
  accumulate (Sample.occluded (7 / 10)) (Vec2 0 0) Cases.wallPixel (Vec3 0 0 1)
             (Vec3 1 1 1) 0
  = Vec3 1 1 1.
Proof.
  refine (proj1 (back_facing_surface_unlit (Sample.occluded (7 / 10)) (Vec2 0 0)
                   Cases.wallPixel (Vec3 0 0 1) (Vec3 1 1 1) 0 _ _) _ _).
  - unfold Sample.occluded, Sample.darkLight. simpl. lia.
  - unfold Sample.occluded, Sample.darkLight, Cases.wallPixel, Sample.zero3,
      dot3, normalize, scale3, sub3.
    simpl. lra.
  - simpl. replace (0 + 5 / 10) with (IZR 0 + 5 / 10) by (simpl; ring).
    rewrite Int_part_half. discriminate.
  - intros _. unfold Sample.occluded. simpl. lra.
Defined.

(** ** The cone of a spot light *)

Lemma dot3_normalize_le (v : vec3) : dot3 (normalize v) (normalize v) <= 1.
Proof.
  assert (Hnn : 0 <= dot3 v v) by (destruct v; unfold dot3; simpl; nra).
  destruct (Rle_lt_or_eq_dec _ _ Hnn) as [Hpos|Hz].
  - rewrite dot3_normalize by exact Hpos. lra.
  - unfold normalize. rewrite <- Hz, sqrt_0.
    destruct v. unfold dot3, scale3. simpl. unfold Rdiv. rewrite Rinv_0. lra.
Qed.

Lemma dot3_unit_le (a b : vec3) : dot3 a a <= 1 -> dot3 b b <= 1 -> dot3 a b <= 1.
Proof.
  intros Ha Hb.
  pose proof (lagrange_identity a b) as HL.
  assert (Hc : 0 <= dot3 (cross a b) (cross a b))
    by (destruct (cross a b); unfold dot3; simpl; nra).
  assert (Haa : 0 <= dot3 a a) by (destruct a; unfold dot3; simpl; nra).
  assert (Hbb : 0 <= dot3 b b) by (destruct b; unfold dot3; simpl; nra).
  nra.
Qed.

(** X20: the cone of a spot light.  With the cone given as cosines
    (outerCutOff below cutOff), a fragment whose direction from the light
    makes with the light's axis an angle of cosine at most outerCutOff gets
    nothing from the light: the loop body leaves through [continue].  With
    the values the lighting window produces (its button and sliders work in
    degrees: 1 <= cutOff < outerCutOff), the cone factor is 1 for every
    fragment, so a spot light without shadows lights the scene exactly as a
    point light with the same fields does. *)
Theorem spot_cone (u : HybridCelLighting.Uniforms) (tc : vec2) (gData : GBufferData)
    (viewDir : vec3) (i : nat) :
  let light := lights u i in
  let theta := dot3 (normalize (sub3 (position light) (worldPosition gData)))
                    (normalize (neg3 (direction light))) in
  type light = 2%Z ->
  0 < dot3 (direction light) (direction light) ->
  0 < dot3 (sub3 (position light) (worldPosition gData))
           (sub3 (position light) (worldPosition gData)) ->
  (outerCutOff light < cutOff light -> theta <= outerCutOff light ->
   lightContribution u tc gData viewDir i = None)
  /\ (1 <= cutOff light < outerCutOff light -> castShadows light = false ->
      lightContribution u tc gData viewDir i
      = lightContribution (Upload.setLight u i (Upload.asPointLight light))
                          tc gData viewDir i).
Proof.
  intros light theta Hty _ _. subst light theta. split.
  - intros Hcone Hout. unfold lightContribution. cbv zeta.
    destruct (fleb (intensity (lights u i)) 0); [reflexivity|].
    rewrite Hty. simpl.
    rewrite clamp_below; [| lra |].
    + rewrite Rmult_0_r. rewrite (proj2 (fleb_true 0 (1 / 1000))) by lra. reflexivity.
    + apply Rmult_le_reg_r with (cutOff (lights u i) - outerCutOff (lights u i)); [lra|].
      unfold Rdiv. rewrite Rmult_assoc, Rinv_l by lra. lra.
  - intros Hcone Hsh.
    assert (Htheta : dot3 (normalize (sub3 (position (lights u i)) (worldPosition gData)))
                          (normalize (neg3 (direction (lights u i)))) <= 1)
      by (apply dot3_unit_le; apply dot3_normalize_le).
    unfold lightContribution. cbv zeta.
    unfold Upload.setLight at 1 2 3 4 5 6 7 8 9. simpl.
    unfold Renderer.upd. rewrite Nat.eqb_refl. simpl.
    rewrite Hty, Hsh. simpl.
    rewrite clamp_above; [| lra |].
    + rewrite Rmult_1_r. reflexivity.
    + apply Rmult_le_reg_r with (outerCutOff (lights u i) - cutOff (lights u i)); [lra|].
      replace ((dot3 (normalize (sub3 (position (lights u i)) (worldPosition gData)))
                  (normalize (neg3 (direction (lights u i)))) - outerCutOff (lights u i))
               / (cutOff (lights u i) - outerCutOff (lights u i))
               * (outerCutOff (lights u i) - cutOff (lights u i)))
        with (outerCutOff (lights u i)
              - dot3 (normalize (sub3 (position (lights u i)) (worldPosition gData)))
                     (normalize (neg3 (direction (lights u i)))))
        by (field; lra).
      lra.
Qed.

Lemma spot_cone_witness :
  lightContribution (Upload.setLight (Sample.occluded (7 / 10)) 0 Cases.guiSpot)
                    (Vec2 0 0) Cases.wallPixel (Vec3 0 0 1) 0
  = lightContribution
      (Upload.setLight (Upload.setLight (Sample.occluded (7 / 10)) 0 Cases.guiSpot) 0
                       (Upload.asPointLight Cases.guiSpot))
      (Vec2 0 0) Cases.wallPixel (Vec3 0 0 1) 0.
Proof.
  refine (proj2 (spot_cone (Upload.setLight (Sample.occluded (7 / 10)) 0 Cases.guiSpot)
                   (Vec2 0 0) Cases.wallPixel (Vec3 0 0 1) 0 _ _ _) _ _).
  - reflexivity.
  - change (0 < dot3 (normalize (Vec3 0 (-1) 0)) (normalize (Vec3 0 (-1) 0))).
    rewrite dot3_normalize; [lra|]. unfold dot3. simpl. lra.
  - unfold dot3. simpl. lra.
  - simpl. lra.
  - reflexivity.
Defined.

(** ** The technique checkboxes *)

Lemma land_pow2 (f k : Z) :
  (0 <= k)%Z -> negb (Z.land f (2 ^ k) =? 0)%Z = Z.testbit f k.
Proof.
  intros Hk.
  assert (H : Z.land f (2 ^ k) = if Z.testbit f k then (2 ^ k)%Z else 0%Z).
  { apply Z.bits_inj'. intros n Hn. rewrite Z.land_spec, Z.pow2_bits_eqb by exact Hk.
    destruct (Z.eqb_spec k n) as [->|Hne].
    - destruct (Z.testbit f n); [rewrite Z.pow2_bits_true by exact Hn; reflexivity|].
      rewrite Z.bits_0. reflexivity.
    - rewrite andb_false_r.
      destruct (Z.testbit f k); [|rewrite Z.bits_0; reflexivity].
      rewrite Z.pow2_bits_false by (try lia; congruence). reflexivity. }
  rewrite H. destruct (Z.testbit f k).
  - assert (0 < 2 ^ k)%Z by (apply Z.pow_pos_nonneg; lia).
    destruct (Z.eqb_spec (2 ^ k) 0); [lia|reflexivity].
  - reflexivity.
Qed.

Lemma techniqueCheckbox_bits (k : Z) (clicked : bool) (f n : Z) :
  (0 <= k)%Z -> (0 <= n)%Z ->
  Z.testbit (GUI.techniqueCheckbox (2 ^ k) (Z.testbit f k) clicked f) n
  = if (n =? k)%Z then xorb (Z.testbit f k) clicked else Z.testbit f n.
Proof.
  intros Hk Hn. unfold GUI.techniqueCheckbox.
  destruct clicked.
  - destruct (Z.testbit f k) eqn:Hb; simpl.
    + rewrite Z.land_spec, Z.lnot_spec, Z.pow2_bits_eqb by lia.
      destruct (Z.eqb_spec n k) as [->|Hne].
      * rewrite Z.eqb_refl, Hb. reflexivity.
      * destruct (Z.eqb_spec k n); [congruence|]. simpl. apply andb_true_r.
    + rewrite Z.lor_spec, Z.pow2_bits_eqb by lia.
      destruct (Z.eqb_spec n k) as [->|Hne].
      * rewrite Z.eqb_refl, Hb. reflexivity.
      * destruct (Z.eqb_spec k n); [congruence|]. apply orb_false_r.
  - destruct (Z.eqb_spec n k) as [->|Hne]; [rewrite xorb_false_r|]; reflexivity.
Qed.

Lemma techniqueCheckbox_bit (k : Z) (box clicked : bool) (f n : Z) :
  (0 <= k)%Z -> (0 <= n)%Z -> box = Z.testbit f k ->
  Z.testbit (GUI.techniqueCheckbox (2 ^ k) box clicked f) n
  = if (n =? k)%Z then xorb (Z.testbit f k) clicked else Z.testbit f n.
Proof. intros Hk Hn ->. apply techniqueCheckbox_bits; assumption. Qed.

Lemma flagOf_pow2 (t : GUI.Technique) : GUI.flagOf t = (2 ^ GUI.bitOf t)%Z.
Proof. destruct t; reflexivity. Qed.

Lemma bitOf_range (t : GUI.Technique) : (0 <= GUI.bitOf t < 5)%Z.
Proof. destruct t; simpl; lia. Qed.

Lemma techniques_bits (clicked : GUI.Technique -> bool) (f n : Z) :
  (0 <= n)%Z ->
  let b t := negb (Z.land f (GUI.flagOf t) =? 0)%Z in
  let f1 := GUI.techniqueCheckbox (GUI.flagOf GUI.DepthBased) (b GUI.DepthBased)
              (clicked GUI.DepthBased) f in
  let f2 := GUI.techniqueCheckbox (GUI.flagOf GUI.NormalBased) (b GUI.NormalBased)
              (clicked GUI.NormalBased) f1 in
  let f3 := GUI.techniqueCheckbox (GUI.flagOf GUI.Sobel) (b GUI.Sobel)
              (clicked GUI.Sobel) f2 in
  let f4 := GUI.techniqueCheckbox (GUI.flagOf GUI.ColorBased) (b GUI.ColorBased)
              (clicked GUI.ColorBased) f3 in
  let f5 := GUI.techniqueCheckbox (GUI.flagOf GUI.Laplacian) (b GUI.Laplacian)
              (clicked GUI.Laplacian) f4 in
  Z.testbit f5 n
  = if (n =? 0)%Z then xorb (Z.testbit f 0) (clicked GUI.DepthBased)
    else if (n =? 1)%Z then xorb (Z.testbit f 1) (clicked GUI.NormalBased)
    else if (n =? 2)%Z then xorb (Z.testbit f 2) (clicked GUI.Sobel)
    else if (n =? 3)%Z then xorb (Z.testbit f 3) (clicked GUI.ColorBased)
    else if (n =? 4)%Z then xorb (Z.testbit f 4) (clicked GUI.Laplacian)
    else Z.testbit f n.
Proof.
  intros Hn b f1 f2 f3 f4 f5.
  assert (Hb : forall t, b t = Z.testbit f (GUI.bitOf t)).
  { intros t. unfold b. rewrite flagOf_pow2. apply land_pow2. apply bitOf_range. }
  assert (H1 : forall m, (0 <= m)%Z ->
             Z.testbit f1 m = if (m =? 0)%Z then xorb (Z.testbit f 0) (clicked GUI.DepthBased)
                              else Z.testbit f m).
  { intros m Hm. unfold f1. rewrite (flagOf_pow2 GUI.DepthBased).
    apply techniqueCheckbox_bit; [simpl; lia | exact Hm | apply Hb]. }
  assert (H2 : forall m, (0 <= m)%Z ->
             Z.testbit f2 m = if (m =? 1)%Z then xorb (Z.testbit f 1) (clicked GUI.NormalBased)
                              else Z.testbit f1 m).
  { intros m Hm. unfold f2. rewrite (flagOf_pow2 GUI.NormalBased).
    rewrite techniqueCheckbox_bit; [| simpl; lia | exact Hm |].
    - simpl GUI.bitOf. rewrite (H1 1%Z) by lia. reflexivity.
    - rewrite Hb. simpl GUI.bitOf. rewrite (H1 1%Z) by lia. reflexivity. }
  assert (H3 : forall m, (0 <= m)%Z ->
             Z.testbit f3 m = if (m =? 2)%Z then xorb (Z.testbit f 2) (clicked GUI.Sobel)
                              else Z.testbit f2 m).
  { intros m Hm. unfold f3. rewrite (flagOf_pow2 GUI.Sobel).
    rewrite techniqueCheckbox_bit; [| simpl; lia | exact Hm |].
    - simpl GUI.bitOf. rewrite (H2 2%Z), (H1 2%Z) by lia. reflexivity.
    - rewrite Hb. simpl GUI.bitOf. rewrite (H2 2%Z), (H1 2%Z) by lia. reflexivity. }
  assert (H4 : forall m, (0 <= m)%Z ->
             Z.testbit f4 m = if (m =? 3)%Z then xorb (Z.testbit f 3) (clicked GUI.ColorBased)
                              else Z.testbit f3 m).
  { intros m Hm. unfold f4. rewrite (flagOf_pow2 GUI.ColorBased).
    rewrite techniqueCheckbox_bit; [| simpl; lia | exact Hm |].
    - simpl GUI.bitOf. rewrite (H3 3%Z), (H2 3%Z), (H1 3%Z) by lia. reflexivity.
    - rewrite Hb. simpl GUI.bitOf. rewrite (H3 3%Z), (H2 3%Z), (H1 3%Z) by lia. reflexivity. }
  assert (H5 : forall m, (0 <= m)%Z ->
             Z.testbit f5 m = if (m =? 4)%Z then xorb (Z.testbit f 4) (clicked GUI.Laplacian)
                              else Z.testbit f4 m).
  { intros m Hm. unfold f5. rewrite (flagOf_pow2 GUI.Laplacian).
    rewrite techniqueCheckbox_bit; [| simpl; lia | exact Hm |].
    - simpl GUI.bitOf. rewrite (H4 4%Z), (H3 4%Z), (H2 4%Z), (H1 4%Z) by lia. reflexivity.
    - rewrite Hb. simpl GUI.bitOf.
      rewrite (H4 4%Z), (H3 4%Z), (H2 4%Z), (H1 4%Z) by lia. reflexivity. }
  rewrite H5, H4, H3, H2, H1 by exact Hn.
  destruct (Z.eqb_spec n 0), (Z.eqb_spec n 1), (Z.eqb_spec n 2), (Z.eqb_spec n 3),
    (Z.eqb_spec n 4); try lia; reflexivity.
Qed.

(** X21: a click on a technique checkbox of the global parameters window
    flips that technique, and nothing else, in the edge shader.  With
    outlining enabled and the settings header open, after the window code a
    technique is enabled in the uniforms of the edge pass exactly if it was
    enabled before and not clicked, or disabled before and clicked; the bits
    of the flag word above the five techniques are kept; a frame without a
    click keeps the flag word. *)
Theorem technique_checkbox_flips_one (clicked : GUI.Technique -> bool)
    (r : Renderer.Renderer) :
  Renderer.enableOutlining (Renderer.edgeParams r) = true ->
  let r' := Renderer.run (GUI.renderGlobalParamsWindow_techniques true clicked) r in
  (forall t, EdgeDetection.enabled (Renderer.edgeUniforms r') (GUI.flagOf t)
             = xorb (EdgeDetection.enabled (Renderer.edgeUniforms r) (GUI.flagOf t))
                    (clicked t))
  /\ (forall n, (5 <= n)%Z ->
        Z.testbit (Renderer.edgeDetectionFlags r') n
        = Z.testbit (Renderer.edgeDetectionFlags r) n)
  /\ ((forall t, clicked t = false) ->
      Renderer.edgeDetectionFlags r' = Renderer.edgeDetectionFlags r).
Proof.
  intros Hout r'.
  assert (Hflags : forall n, (0 <= n)%Z ->
            Z.testbit (Renderer.edgeDetectionFlags r') n
            = if (n =? 0)%Z
              then xorb (Z.testbit (Renderer.edgeDetectionFlags r) 0)
                        (clicked GUI.DepthBased)
              else if (n =? 1)%Z
              then xorb (Z.testbit (Renderer.edgeDetectionFlags r) 1)
                        (clicked GUI.NormalBased)
              else if (n =? 2)%Z
              then xorb (Z.testbit (Renderer.edgeDetectionFlags r) 2) (clicked GUI.Sobel)
              else if (n =? 3)%Z
              then xorb (Z.testbit (Renderer.edgeDetectionFlags r) 3)
                        (clicked GUI.ColorBased)
              else if (n =? 4)%Z
              then xorb (Z.testbit (Renderer.edgeDetectionFlags r) 4)
                        (clicked GUI.Laplacian)
              else Z.testbit (Renderer.edgeDetectionFlags r) n).
  { intros n Hn. unfold r', Renderer.run, GUI.renderGlobalParamsWindow_techniques.
    rewrite Hout. cbv zeta. simpl.
    apply (techniques_bits clicked (Renderer.edgeDetectionFlags r) n Hn). }
  split; [|split].
  - intros t. unfold EdgeDetection.enabled. simpl.
    rewrite !flagOf_pow2, !land_pow2 by apply bitOf_range.
    rewrite Hflags by apply bitOf_range.
    destruct t; reflexivity.
  - intros n Hn. rewrite Hflags by lia.
    destruct (Z.eqb_spec n 0), (Z.eqb_spec n 1), (Z.eqb_spec n 2), (Z.eqb_spec n 3),
      (Z.eqb_spec n 4); try lia; reflexivity.
  - intros Hnone. unfold r', Renderer.run, GUI.renderGlobalParamsWindow_techniques.
    rewrite Hout, !Hnone. reflexivity.
Qed.

Lemma technique_checkbox_flips_one_witness :
  EdgeDetection.enabled
    (Renderer.edgeUniforms
       (Renderer.run (GUI.renderGlobalParamsWindow_techniques true Cases.clickSobel)
                     (Sample.constructed Sample.oneCrate [Sample.lamp])))
    EdgeDetection.SOBEL
  = true.
Proof.
  exact (proj1 (technique_checkbox_flips_one Cases.clickSobel
                  (Sample.constructed Sample.oneCrate [Sample.lamp]) eq_refl)
               GUI.Sobel).
Defined.

(** ** Presets *)

Lemma deserialize_serialize (p q : Presets.MaterialParams) :
  Presets.deserializeMaterialParams (Presets.serializeMaterialParams p) q = Presets.Done p.
Proof.
  destruct p as [? ? ? ? ? ? ? ? ? [] ? ? ? ? ?]. reflexivity.
Qed.

(** X22: material parameters survive the trip through JSON.  Reading back
    what serializeMaterialParams wrote gives the parameters that were
    written, whatever the target held before, and raises no exception; a
    JSON value without members (null, a number, an array, the empty object)
    leaves the target as it is.  A vector written by to_json is read back by
    from_json; anything but an array of at least three elements leaves the
    vector untouched. *)
Theorem material_params_round_trip (p q : Presets.MaterialParams) (v w : vec3) :
  Presets.deserializeMaterialParams (Presets.serializeMaterialParams p) q = Presets.Done p
  /\ (forall j, (forall key, Json.contains j key = false) ->
        Presets.deserializeMaterialParams j q = Presets.Done q)
  /\ Json.from_json (Json.to_json v) w = Some v
  /\ (forall j, (forall a b c rest, j <> Json.array (a :: b :: c :: rest)) ->
        Json.from_json j w = Some w).
Proof.
  split; [|split; [|split]].
  - apply deserialize_serialize.
  - intros j Hj. unfold Presets.deserializeMaterialParams, Presets.andThen, Presets.assignIf.
    rewrite !Hj. reflexivity.
  - destruct v. reflexivity.
  - intros j Hj. destruct j as [| | | | |[|a [|b [|c rest]]]|]; try reflexivity.
    exfalso. exact (Hj a b c rest eq_refl).
Qed.

(** X23: a preset that was saved can be loaded back.  If the file can be
    written, loading preset [index] right after saving it restores, over any
    current settings, the global material parameters, the global
    illumination model, the edge parameters and flags, seven of the ten
    shadow parameters, and the illumination model and parameters of each of
    the 24 materials.  What the file does not hold stays as it currently is:
    orthoSize, nearPlane and farPlane, the names of the materials, and the
    lights. *)
Theorem preset_round_trip (index : Z) (saved current : Presets.Settings)
    (disk : Presets.Disk) :
  Presets.writable disk index = true ->
  let loaded := Presets.loadPreset index (Presets.savePreset index saved disk) current in
  Presets.materialParams loaded = Presets.materialParams saved
  /\ Presets.globalIlluminationModel loaded = Presets.globalIlluminationModel saved
  /\ Presets.edgeParams loaded = Presets.edgeParams saved
  /\ Presets.edgeDetectionFlags loaded = Presets.edgeDetectionFlags saved
  /\ Presets.shadowParams loaded
     = Renderer.MkShadowParams
         (Renderer.shadowMapSize (Presets.shadowParams saved))
         (Renderer.cubeShadowMapSize (Presets.shadowParams saved))
         (Renderer.shadowBias (Presets.shadowParams saved))
         (Renderer.shadowNormalBias (Presets.shadowParams saved))
         (Renderer.shadowPCFSamples (Presets.shadowParams saved))
         (Renderer.shadowIntensity (Presets.shadowParams saved))
         (Renderer.enablePCF (Presets.shadowParams saved))
         (Renderer.orthoSize (Presets.shadowParams current))
         (Renderer.nearPlane (Presets.shadowParams current))
         (Renderer.farPlane (Presets.shadowParams current))
  /\ (forall m,
        Presets.materials loaded m
        = Presets.MkModelMaterial (Presets.model (Presets.materials saved m))
                                  (Presets.params (Presets.materials saved m))
                                  (Presets.name (Presets.materials current m)))
  /\ Presets.lights loaded = Presets.lights current.
Proof.
  intros Hw loaded. subst loaded.
  unfold Presets.loadPreset, Presets.savePreset. rewrite Hw. simpl Presets.files.
  rewrite Z.eqb_refl.
  destruct saved as [mp gi ep fl sp mats ls].
  split; [|split; [|split; [|split; [|split; [|split]]]]].
  - destruct mp as [? ? ? ? ? ? ? ? ? [] ? ? ? ? ?]. reflexivity.
  - reflexivity.
  - destruct ep as [? ? ? ? ? ? [] ? ? ? ? ? ?]. reflexivity.
  - reflexivity.
  - reflexivity.
  - intros m.
    destruct m; vm_compute;
      match goal with
      | |- context [mats ?m] =>
          destruct (mats m) as [? [? ? ? ? ? ? ? ? ? [] ? ? ? ? ?] ?]
      end; reflexivity.
  - reflexivity.
Qed.

Lemma preset_round_trip_witness :
  Presets.edgeDetectionFlags
    (Presets.loadPreset 2
       (Presets.savePreset 2 (Presets.set_edgeDetectionFlags 31 Presets.constructed)
                           Cases.emptyDisk)
       Presets.constructed)
  = 31%Z.
Proof.
  exact (proj1 (proj2 (proj2 (proj2
           (preset_round_trip 2 (Presets.set_edgeDetectionFlags 31 Presets.constructed)
                              Presets.constructed Cases.emptyDisk eq_refl))))).
Defined.

Lemma preserves_andThen {S A : Type} (P : S -> A) (a b : S -> Presets.Outcome S) :
  Presets.preserves P a -> Presets.preserves P b ->
  Presets.preserves P (Presets.andThen a b).
Proof.
  intros Ha Hb s. unfold Presets.andThen.
  specialize (Ha s). destruct (a s) as [s1|s1]; simpl in *.
  - rewrite Hb. exact Ha.
  - exact Ha.
Qed.

Lemma preserves_assignIf {S A B : Type} (P : S -> A) (j : Json.json)
    (key : String.string) (get : Json.json -> option B) (store : B -> S -> S) :
  (forall v s, P (store v s) = P s) ->
  Presets.preserves P (Presets.assignIf j key get store).
Proof.
  intros H s. unfold Presets.assignIf.
  destruct (Json.contains j key); [|reflexivity].
  destruct (Json.at_key j key ≫= get); simpl; [apply H | reflexivity].
Qed.

Lemma preserves_ifContains {S A : Type} (P : S -> A) (j : Json.json)
    (key : String.string) (body : Json.json -> S -> Presets.Outcome S) :
  (forall sub, Presets.preserves P (body sub)) ->
  Presets.preserves P (Presets.ifContains j key body).
Proof.
  intros H s. unfold Presets.ifContains.
  destruct (Json.contains j key); [|reflexivity].
  destruct (Json.at_key j key); [apply H | reflexivity].
Qed.

(** a statement sequence on a part the observation does not look at *)
Lemma preserves_within_other {S A B : Type} (P : S -> A) (part : S -> B)
    (store : B -> S -> S) (body : B -> Presets.Outcome B) :
  (forall b s, P (store b s) = P s) ->
  Presets.preserves P (Presets.within part store body).
Proof.
  intros H s. unfold Presets.within.
  destruct (body (part s)); simpl; apply H.
Qed.

(** a statement sequence on the part the observation looks at *)
Lemma preserves_within_part {S A B : Type} (Q : B -> A) (part : S -> B)
    (store : B -> S -> S) (body : B -> Presets.Outcome B) :
  (forall b s, part (store b s) = b) -> Presets.preserves Q body ->
  Presets.preserves (fun s => Q (part s)) (Presets.within part store body).
Proof.
  intros Hps Hb s. unfold Presets.within.
  specialize (Hb (part s)).
  destruct (body (part s)); simpl in *; rewrite Hps; exact Hb.
Qed.

Ltac frame_steps :=
  repeat (first [ apply preserves_andThen | apply preserves_assignIf
                | apply preserves_ifContains; intros ?
                | apply preserves_within_other ]; try (intros; reflexivity)).

Lemma loadDocument_lights (root : Json.json) :
  Presets.preserves Presets.lights (Presets.loadDocument root).
Proof. unfold Presets.loadDocument, Presets.loadModelMat. frame_steps. Qed.

Lemma loadDocument_frustum (root : Json.json) :
  Presets.preserves (fun s => (Renderer.orthoSize (Presets.shadowParams s),
                               Renderer.nearPlane (Presets.shadowParams s),
                               Renderer.farPlane (Presets.shadowParams s)))
                    (Presets.loadDocument root).
Proof.
  unfold Presets.loadDocument, Presets.loadModelMat.
  repeat (first [ apply preserves_andThen | apply preserves_assignIf
                | apply preserves_ifContains; intros ?
                | apply (preserves_within_part
                           (fun p => (Renderer.orthoSize p, Renderer.nearPlane p,
                                      Renderer.farPlane p))
                           Presets.shadowParams Presets.set_shadowParams)
                | apply preserves_within_other ]; try (intros; reflexivity)).
Qed.

Lemma loadDocument_names (root : Json.json) (m : Presets.Material) :
  Presets.preserves (fun s => Presets.name (Presets.materials s m))
                    (Presets.loadDocument root).
Proof.
  unfold Presets.loadDocument.
  assert (Hmat : forall mj key m',
             Presets.preserves (fun s => Presets.name (Presets.materials s m))
                               (Presets.loadModelMat mj key m')).
  { intros mj key m'. unfold Presets.loadModelMat.
    apply preserves_ifContains. intros item s. unfold Presets.within.
    match goal with
    | |- context [Presets.andThen ?a ?b] =>
        assert (Hn : Presets.preserves Presets.name (Presets.andThen a b))
    end.
    { apply preserves_andThen; [apply preserves_assignIf; reflexivity|].
      apply preserves_ifContains. intros pj. apply preserves_within_other. reflexivity. }
    specialize (Hn (Presets.materials s m')).
    destruct (Presets.andThen _ _ (Presets.materials s m')) as [a|a]; simpl in *;
      destruct (decide (m = m')) as [->|Hne]; try reflexivity; exact Hn. }
  repeat (first [ apply preserves_andThen | apply Hmat | apply preserves_assignIf
                | apply preserves_ifContains; intros ?
                | apply preserves_within_other ]; try (intros; reflexivity)).
Qed.

(** X24: whatever a preset file holds (nothing, text that does not parse, a
    document of any shape, values of the wrong type), loading it never
    changes the lights, the three frustum parameters of the shadow maps
    (orthoSize, nearPlane, farPlane), or the name of a material. *)
Theorem loadPreset_never_touches (index : Z) (disk : Presets.Disk)
    (s : Presets.Settings) :
  let s' := Presets.loadPreset index disk s in
  Presets.lights s' = Presets.lights s
  /\ Renderer.orthoSize (Presets.shadowParams s')
     = Renderer.orthoSize (Presets.shadowParams s)
  /\ Renderer.nearPlane (Presets.shadowParams s')
     = Renderer.nearPlane (Presets.shadowParams s)
  /\ Renderer.farPlane (Presets.shadowParams s')
     = Renderer.farPlane (Presets.shadowParams s)
  /\ forall m, Presets.name (Presets.materials s' m) = Presets.name (Presets.materials s m).
Proof.
  intros s'. subst s'. unfold Presets.loadPreset.
  destruct (Presets.files disk index) as [[|root]|]; try (repeat split; reflexivity).
  pose proof (loadDocument_lights root s) as Hl.
  pose proof (loadDocument_frustum root s) as Hf. cbv beta in Hf.
  pose proof (fun m => loadDocument_names root m s) as Hn. cbv beta in Hn.
  split; [exact Hl|].
  split; [exact (f_equal (fun t => fst (fst t)) Hf)|].
  split; [exact (f_equal (fun t => snd (fst t)) Hf)|].
  split; [exact (f_equal snd Hf)|].
  exact Hn.
Qed.

Lemma at_key_contains (j : Json.json) (key : String.string) (v : Json.json) :
  Json.at_key j key = Some v -> Json.contains j key = true.
Proof.
  destruct j; simpl; try discriminate. intros ->. reflexivity.
Qed.

(** X25: loading a preset is not all-or-nothing.  If the document has a
    "globalIlluminationModel" member that is neither a number nor a boolean,
    the conversion throws and loadPreset stops there: the illumination
    model, the edge parameters and flags, the shadow parameters and all
    materials stay as they were, while the "globalParams" member, which is
    read first, has already been applied. *)
Theorem loadPreset_stops_at_bad_value (index : Z) (disk : Presets.Disk)
    (s : Presets.Settings) (root j : Json.json) :
  Presets.files disk index = Some (Presets.Document root) ->
  Json.at_key root "globalIlluminationModel"%string = Some j ->
  Json.get_int j = None ->
  let s' := Presets.loadPreset index disk s in
  Presets.globalIlluminationModel s' = Presets.globalIlluminationModel s
  /\ Presets.edgeParams s' = Presets.edgeParams s
  /\ Presets.edgeDetectionFlags s' = Presets.edgeDetectionFlags s
  /\ Presets.shadowParams s' = Presets.shadowParams s
  /\ Presets.materials s' = Presets.materials s
  /\ (forall p, Json.at_key root "globalParams"%string
                = Some (Presets.serializeMaterialParams p) ->
        Presets.materialParams s' = p).
Proof.
  intros Hfile Hkey Hbad s'. subst s'. unfold Presets.loadPreset. rewrite Hfile.
  unfold Presets.loadDocument.
  set (rest := Presets.andThen (Presets.ifContains root "edgeParams"%string _) _).
  set (first := Presets.ifContains root "globalParams"%string _).
  assert (Hstop : forall s1,
            Presets.andThen
              (Presets.assignIf root "globalIlluminationModel"%string Json.get_int
                                Presets.set_globalIlluminationModel) rest s1
            = Presets.Thrown s1).
  { intros s1. unfold Presets.andThen, Presets.assignIf.
    rewrite (at_key_contains _ _ _ Hkey), Hkey. simpl. rewrite Hbad. reflexivity. }
  assert (Hfirst : exists mp, Presets.state (first s) = Presets.set_materialParams mp s
                              /\ (forall p, Json.at_key root "globalParams"%string
                                            = Some (Presets.serializeMaterialParams p) ->
                                            mp = p)).
  { unfold first, Presets.ifContains.
    destruct (Json.contains root "globalParams"%string) eqn:Hc.
    - destruct (Json.at_key root "globalParams"%string) as [gj|] eqn:Hg.
      + unfold Presets.within.
        destruct (Presets.deserializeMaterialParams gj (Presets.materialParams s))
          as [mp|mp] eqn:Hd; exists mp; (split; [reflexivity|]);
          intros p Hp; injection Hp as ->;
          rewrite deserialize_serialize in Hd; congruence.
      + exists (Presets.materialParams s). split; [destruct s; reflexivity|].
        intros p Hp. discriminate.
    - exists (Presets.materialParams s). split; [destruct s; reflexivity|].
      intros p Hp. rewrite (at_key_contains _ _ _ Hp) in Hc. discriminate. }
  destruct Hfirst as (mp & Hst & Hmp).
  assert (Hall : Presets.state (Presets.andThen first
                   (Presets.andThen
                      (Presets.assignIf root "globalIlluminationModel"%string Json.get_int
                                        Presets.set_globalIlluminationModel) rest) s)
                 = Presets.set_materialParams mp s).
  { unfold Presets.andThen at 1. destruct (first s) as [s1|s1]; simpl in Hst.
    - rewrite Hstop. simpl. exact Hst.
    - exact Hst. }
  rewrite Hall. repeat split. exact Hmp.
Qed.

Lemma loadPreset_stops_at_bad_value_witness :
  Presets.edgeDetectionFlags (Presets.loadPreset 0 Cases.badDisk Presets.constructed) = 1%Z
  /\ Presets.diffuseQuantizationBands
       (Presets.materialParams (Presets.loadPreset 0 Cases.badDisk Presets.constructed))
     = 3%Z.
Proof.
  destruct (loadPreset_stops_at_bad_value 0 Cases.badDisk Presets.constructed
              Cases.badPreset (Json.str "Minnaert"%string) eq_refl eq_refl eq_refl)
    as (_ & _ & Hflags & _ & _ & Hmp).
  split; [exact Hflags|].
  rewrite (Hmp _ eq_refl). reflexivity.
Defined.

(** X26: "Reset All to Defaults" spares the torch.  resetParamsToDefaults
    puts the global parameters, the illumination model, the edge flags and
    parameters and the shadow parameters back to their initial values, and
    every material except the torch material back to the Lambertian model
    with default parameters under its display name; the torch material and
    the lights are left as they are.  applyPreset does the same whatever its
    index is, and then restores the initial lights. *)
Theorem reset_spares_the_torch (s : Presets.Settings) (i j : Z) :
  let s' := Presets.resetParamsToDefaults s in
  Presets.materialParams s' = Presets.MaterialParams_default
  /\ Presets.globalIlluminationModel s' = 0%Z
  /\ Presets.edgeDetectionFlags s' = EdgeDetection.DEPTH_BASED
  /\ Presets.edgeParams s' = Presets.EdgeParams_default
  /\ Presets.shadowParams s' = Renderer.ShadowParams_default
  /\ (forall m, m <> Presets.torchMaterial ->
        Presets.materials s' m = Presets.materials Presets.constructed m)
  /\ Presets.materials s' Presets.torchMaterial = Presets.materials s Presets.torchMaterial
  /\ Presets.lights s' = Presets.lights s
  /\ Presets.applyPreset i s = Presets.applyPreset j s
  /\ Presets.lights (Presets.applyPreset i s) = Renderer.initializeLights
  /\ Presets.materials (Presets.applyPreset i s) Presets.torchMaterial
     = Presets.materials s Presets.torchMaterial.
Proof.
  intros s'. subst s'.
  repeat split; try reflexivity.
  intros m Hm. destruct m; try contradiction; reflexivity.
Qed.

(** ** The G-buffer object *)

Lemma generated_app (a b : list GBufferObject.Call) : GBufferObject.generated (a ++ b) = GBufferObject.generated a ++ GBufferObject.generated b.
Proof. unfold GBufferObject.generated. apply omap_app. Qed.

Lemma deleted_app (a b : list GBufferObject.Call) : GBufferObject.deleted (a ++ b) = GBufferObject.deleted a ++ GBufferObject.deleted b.
Proof. unfold GBufferObject.deleted. apply omap_app. Qed.

Lemma law_trans (g g1 g2 : GBufferObject.GBuffer) (e1 e2 : list GBufferObject.Call) :
  GBufferObject.law g e1 g1 -> GBufferObject.law g1 e2 g2 -> GBufferObject.law g (e1 ++ e2) g2.
Proof.
  unfold GBufferObject.law. intros H1 H2. rewrite generated_app, deleted_app.
  rewrite <- (assoc_L (++) (GBufferObject.deleted e1)), <- H2.
  rewrite (assoc_L (++) (GBufferObject.deleted e1)), (comm (++) (GBufferObject.deleted e1)), <- (assoc_L (++) (GBufferObject.generated e2)).
  rewrite <- H1.
  rewrite !(assoc_L (++)). f_equiv. apply (comm (++)).
Qed.

Lemma cleanup_law (g : GBufferObject.GBuffer) (next : N) :
  let '(_, g', next', e) := GBufferObject.cleanup g next in
  GBufferObject.generated e = [] /\ GBufferObject.deleted e = GBufferObject.held g /\ GBufferObject.held g' = [] /\ next' = next
  /\ GBufferObject.rboDepth g' = 0%N /\ GBufferObject.width g' = GBufferObject.width g /\ GBufferObject.height g' = GBufferObject.height g
  /\ (GBufferObject.rboDepth g = 0%N -> forall n, GBufferObject.glDeleteRenderbuffers n ∉ e).
Proof.
  unfold GBufferObject.cleanup, GBufferObject.held. destruct g as [a b c d e f r w h]. simpl.
  assert (Hf : forall n : N, filter (fun n => n <> 0%N) [n] = if (n =? 0)%N then [] else [n]).
  { intros n. destruct (N.eqb_spec n 0) as [->|Hn]; [reflexivity|].
    rewrite filter_cons_True by exact Hn. reflexivity. }
  repeat split.
  - destruct (a =? 0)%N, (b =? 0)%N, (c =? 0)%N, (d =? 0)%N, (e =? 0)%N, (f =? 0)%N,
      (r =? 0)%N; reflexivity.
  - change [a; b; c; d; e; f; r] with ([a] ++ [b] ++ [c] ++ [d] ++ [e] ++ [f] ++ [r]).
    rewrite !filter_app, !Hf.
    destruct (a =? 0)%N, (b =? 0)%N, (c =? 0)%N, (d =? 0)%N, (e =? 0)%N, (f =? 0)%N,
      (r =? 0)%N; reflexivity.
  - intros -> n Hn. simpl in Hn.
    rewrite app_nil_r in Hn.
    destruct (a =? 0)%N, (b =? 0)%N, (c =? 0)%N, (d =? 0)%N, (e =? 0)%N, (f =? 0)%N;
      simpl in Hn;
      repeat match goal with
             | H : _ ∈ [] |- _ => inversion H
             | H : _ ∈ _ :: _ |- _ => apply elem_of_cons in H; destruct H as [H|H];
                                      [discriminate|]
             end.
Qed.

Lemma held_blank (g : GBufferObject.GBuffer) : GBufferObject.blank g -> GBufferObject.held g = [].
Proof.
  destruct g. unfold GBufferObject.blank, GBufferObject.held. simpl. intros (-> & -> & -> & -> & -> & -> & ->).
  reflexivity.
Qed.

Lemma cleanup_blank (g : GBufferObject.GBuffer) (next : N) :
  GBufferObject.rboDepth g = 0%N -> GBufferObject.blank (snd (fst (fst (GBufferObject.cleanup g next)))).
Proof. intros _. unfold GBufferObject.cleanup, GBufferObject.blank. simpl. repeat split. Qed.

Lemma init_law (complete : bool) (w h : Z) (g : GBufferObject.GBuffer) (next : N) :
  (0 < next)%N -> GBufferObject.blank g ->
  let '(ok, g', next', e) := GBufferObject.init complete w h g next in
  GBufferObject.law g e g' /\ (0 < next')%N /\ GBufferObject.rboDepth g' = 0%N
  /\ ok = complete /\ (complete = false -> GBufferObject.blank g')
  /\ GBufferObject.width g' = w /\ GBufferObject.height g' = h
  /\ (forall n, GBufferObject.glDeleteRenderbuffers n ∉ e).
Proof.
  intros Hnext Hb. rewrite (surjective_pairing (GBufferObject.init complete w h g next)).
  rewrite (surjective_pairing (fst (GBufferObject.init complete w h g next))).
  rewrite (surjective_pairing (fst (fst (GBufferObject.init complete w h g next)))).
  unfold GBufferObject.law. rewrite (held_blank g Hb), app_nil_r.
  destruct Hb as (_ & _ & _ & _ & _ & _ & Hr).
  assert (Hnz : forall n : N, N.succ n <> 0%N) by (intros n; lia).
  assert (Hn0 : next <> 0%N) by lia.
  unfold GBufferObject.init. destruct complete; simpl.
  - unfold GBufferObject.held. simpl. rewrite Hr.
    rewrite !filter_cons_True by (first [exact Hn0 | apply Hnz]).
    rewrite filter_cons_False by (intros Hc; apply Hc; reflexivity).
    rewrite filter_nil.
    split; [reflexivity|].
    split; [lia|]. split; [reflexivity|]. split; [reflexivity|].
    split; [discriminate|]. split; [reflexivity|]. split; [reflexivity|].
    intros n Hn.
    repeat (apply elem_of_cons in Hn; destruct Hn as [Hn|Hn]; [discriminate|]).
    inversion Hn.
  - rewrite Hr. simpl.
    destruct (N.eqb_spec next 0) as [|_]; [contradiction|].
    repeat match goal with
           | |- context [(N.succ ?n =? 0)%N] =>
               destruct (N.eqb_spec (N.succ n) 0) as [Hc|_]; [exfalso; lia|]
           end.
    simpl. unfold GBufferObject.held. simpl.
    repeat (rewrite filter_cons_False by (intros Hc; apply Hc; reflexivity)).
    rewrite ?filter_nil.
    split; [rewrite ?app_nil_r; reflexivity|].
    split; [lia|]. split; [reflexivity|]. split; [reflexivity|].
    split; [intros _; unfold GBufferObject.blank; simpl; repeat split|].
    split; [reflexivity|]. split; [reflexivity|].
    intros n Hn.
    repeat (apply elem_of_cons in Hn; destruct Hn as [Hn|Hn]; [discriminate|]).
    inversion Hn.
Qed.

Lemma resize_law (complete : bool) (w h : Z) (g : GBufferObject.GBuffer) (next : N) :
  (0 < next)%N -> GBufferObject.rboDepth g = 0%N ->
  let '(_, g', next', e) := GBufferObject.resize complete w h g next in
  GBufferObject.law g e g' /\ (0 < next')%N /\ GBufferObject.rboDepth g' = 0%N
  /\ (forall n, GBufferObject.glDeleteRenderbuffers n ∉ e).
Proof.
  intros Hnext Hr. unfold GBufferObject.resize.
  destruct ((GBufferObject.width g =? w)%Z && (GBufferObject.height g =? h)%Z).
  - split; [unfold GBufferObject.law; reflexivity|]. split; [exact Hnext|]. split; [exact Hr|].
    intros n Hn. inversion Hn.
  - pose proof (cleanup_law g next) as Hc.
    pose proof (cleanup_blank g next Hr) as Hb.
    destruct (GBufferObject.cleanup g next) as [[[[] g1] next1] e1]. simpl in Hb.
    destruct Hc as (Hgen & Hdel & Hheld & -> & _ & _ & _ & Hrbo).
    pose proof (init_law complete w h g1 next Hnext Hb) as Hi.
    destruct (GBufferObject.init complete w h g1 next) as [[[ok g2] next2] e2].
    destruct Hi as (Hlaw & Hn2 & Hr2 & _ & _ & _ & _ & Hrbo2).
    split.
    + apply (law_trans g g1 g2); [|exact Hlaw].
      unfold GBufferObject.law. rewrite Hgen, Hdel, Hheld, app_nil_r. reflexivity.
    + split; [exact Hn2|]. split; [exact Hr2|].
      intros n Hn. apply elem_of_app in Hn. destruct Hn as [Hn|Hn].
      * exact (Hrbo Hr n Hn).
      * exact (Hrbo2 n Hn).
Qed.

Lemma applyAll_law (ops : list GBufferObject.Op) :
  forall (g : GBufferObject.GBuffer) (next : N),
    (0 < next)%N -> GBufferObject.rboDepth g = 0%N ->
    let '(_, g', next', e) := GBufferObject.applyAll ops g next in
    GBufferObject.law g e g' /\ (forall n, GBufferObject.glDeleteRenderbuffers n ∉ e).
Proof.
  induction ops as [|op ops IH]; intros g next Hnext Hr.
  - simpl. split; [unfold GBufferObject.law; reflexivity|]. intros n Hn. inversion Hn.
  - simpl.
    assert (Hop : let '(_, g', next', e) := GBufferObject.apply op g next in
                  GBufferObject.law g e g' /\ (0 < next')%N /\ GBufferObject.rboDepth g' = 0%N
                  /\ (forall n, GBufferObject.glDeleteRenderbuffers n ∉ e)).
    { destruct op as [c w h|].
      - simpl. apply resize_law; assumption.
      - change (GBufferObject.apply GBufferObject.Destroy g next) with (GBufferObject.cleanup g next).
        pose proof (cleanup_law g next) as Hc.
        destruct (GBufferObject.cleanup g next) as [[[[] g1] next1] e1].
        destruct Hc as (Hgen & Hdel & Hheld & -> & Hr1 & _ & _ & Hrbo).
        split; [unfold GBufferObject.law; rewrite Hgen, Hdel, Hheld, app_nil_r; reflexivity|].
        split; [exact Hnext|]. split; [exact Hr1|]. exact (Hrbo Hr). }
    destruct (GBufferObject.apply op g next) as [[[[] g1] next1] e1].
    destruct Hop as (Hlaw1 & Hn1 & Hr1 & Hrbo1).
    specialize (IH g1 next1 Hn1 Hr1).
    destruct (GBufferObject.applyAll ops g1 next1) as [[[[] g2] next2] e2].
    destruct IH as (Hlaw2 & Hrbo2).
    split; [exact (law_trans _ _ _ _ _ Hlaw1 Hlaw2)|].
    intros n Hn. apply elem_of_app in Hn. destruct Hn as [Hn|Hn].
    + exact (Hrbo1 n Hn).
    + exact (Hrbo2 n Hn).
Qed.

(** X27: the G-buffer object leaks no GL object.  From construction and a
    first init (successful or not), through any sequence of resizes (each
    successful or not) and cleanups, the names generated so far are the names
    deleted so far together with the names the object holds; no renderbuffer
    is ever deleted; and once the destructor has run, everything that was
    generated has been deleted. *)
Theorem gbuffer_conserves_objects (complete : bool) (w h : Z) (ops : list GBufferObject.Op) (next : N) :
  (0 < next)%N ->
  let '(_, g1, next1, e1) := GBufferObject.init complete w h GBufferObject.GBuffer_new next in
  let '(_, g2, _, e2) := GBufferObject.applyAll ops g1 next1 in
  GBufferObject.generated (e1 ++ e2) ≡ₚ GBufferObject.deleted (e1 ++ e2) ++ GBufferObject.held g2
  /\ (forall n, GBufferObject.glDeleteRenderbuffers n ∉ e1 ++ e2)
  /\ let '(_, g3, _, e3) := GBufferObject.cleanup g2 next1 in
     GBufferObject.generated (e1 ++ e2 ++ e3) ≡ₚ GBufferObject.deleted (e1 ++ e2 ++ e3) /\ GBufferObject.held g3 = [].
Proof.
  intros Hnext.
  assert (Hblank : GBufferObject.blank GBufferObject.GBuffer_new) by (unfold GBufferObject.blank; simpl; repeat split).
  pose proof (init_law complete w h GBufferObject.GBuffer_new next Hnext Hblank) as Hi.
  destruct (GBufferObject.init complete w h GBufferObject.GBuffer_new next) as [[[ok g1] next1] e1].
  destruct Hi as (Hlaw1 & Hn1 & Hr1 & _ & _ & _ & _ & Hrbo1).
  pose proof (applyAll_law ops g1 next1 Hn1 Hr1) as Ha.
  destruct (GBufferObject.applyAll ops g1 next1) as [[[[] g2] next2] e2].
  destruct Ha as (Hlaw2 & Hrbo2).
  pose proof (law_trans _ _ _ _ _ Hlaw1 Hlaw2) as Hlaw.
  unfold GBufferObject.law in Hlaw. simpl GBufferObject.held in Hlaw. rewrite app_nil_r in Hlaw.
  split; [exact Hlaw|]. split.
  - intros n Hn. apply elem_of_app in Hn. destruct Hn as [Hn|Hn].
    + exact (Hrbo1 n Hn).
    + exact (Hrbo2 n Hn).
  - pose proof (cleanup_law g2 next1) as Hc.
    destruct (GBufferObject.cleanup g2 next1) as [[[[] g3] next3] e3].
    destruct Hc as (Hgen & Hdel & Hheld & _).
    split; [|exact Hheld].
    rewrite !(assoc_L (++) e1 e2 e3), generated_app, deleted_app, Hgen, Hdel, app_nil_r.
    exact Hlaw.
Qed.

Lemma gbuffer_conserves_objects_witness :
  let '(_, g1, next1, e1) := GBufferObject.init true 1920 1080 GBufferObject.GBuffer_new 1%N in
  let '(_, g2, _, e2) :=
    GBufferObject.applyAll [GBufferObject.Resize true 800 600] g1 next1 in
  GBufferObject.generated (e1 ++ e2)
  ≡ₚ GBufferObject.deleted (e1 ++ e2) ++ GBufferObject.held g2.
Proof.
  exact (proj1 (gbuffer_conserves_objects true 1920 1080
                  [GBufferObject.Resize true 800 600] 1%N eq_refl)).
Defined.

(** X28: a G-buffer whose framebuffer was found incomplete is left without
    objects but with the new size recorded, so resizing it to that same size
    does nothing, however often it is tried: the buffer is rebuilt only when
    the size changes. *)
Theorem failed_init_is_not_retried (w h : Z) (g : GBufferObject.GBuffer) (next : N) (retries : list bool) :
  let '(ok, g1, next1, e1) := GBufferObject.init false w h g next in
  ok = false
  /\ GBufferObject.held g1 = []
  /\ GBufferObject.applyAll (map (fun c => GBufferObject.Resize c w h) retries) g1 next1 = (tt, g1, next1, [])
  /\ (forall w' h', (w' <> w \/ h' <> h) -> (0 < next1)%N ->
        let '(_, g2, _, e2) := GBufferObject.resize true w' h' g1 next1 in
        length (GBufferObject.held g2) = 6%nat /\ GBufferObject.width g2 = w' /\ GBufferObject.height g2 = h').
Proof.
  unfold GBufferObject.init. simpl.
  set (g1 := GBufferObject.MkGBuffer 0 0 0 0 0 0 0 w h).
  split; [reflexivity|]. split; [reflexivity|]. split.
  - induction retries as [|c cs IH]; [reflexivity|].
    simpl. unfold GBufferObject.resize at 1. simpl. rewrite !Z.eqb_refl. simpl. rewrite IH. reflexivity.
  - intros w' h' Hne Hpos. unfold GBufferObject.resize. simpl.
    assert (Hdiff : (w =? w')%Z && (h =? h')%Z = false).
    { apply andb_false_iff. destruct Hne as [Hne|Hne]; [left|right];
        apply Z.eqb_neq; congruence. }
    rewrite Hdiff. simpl. unfold GBufferObject.held. simpl.
    assert (Hnz : forall n : N, N.succ n <> 0%N) by (intros n; lia).
    rewrite !filter_cons_True by (first [lia | apply Hnz]).
    rewrite filter_cons_False by (intros Hc; apply Hc; reflexivity).
    repeat split.
Qed.

(** ** The camera and the input callbacks *)

Lemma dot3_comm (a b : vec3) : dot3 a b = dot3 b a.
Proof. unfold dot3. ring. Qed.

Lemma dot3_scale_l (a b : vec3) (k : R) : dot3 (scale3 a k) b = dot3 a b * k.
Proof. destruct a, b. unfold dot3, scale3. simpl. ring. Qed.

(** the frame updateCameraVectors builds from a unit [f] and a world up
    that is not parallel to it is orthonormal *)
Lemma frame_orthonormal (f w : vec3) :
  dot3 f f = 1 -> 0 < dot3 (cross f w) (cross f w) ->
  let r := normalize (cross f w) in
  let u := normalize (cross r f) in
  dot3 r r = 1 /\ dot3 u u = 1 /\ dot3 f r = 0 /\ dot3 f u = 0 /\ dot3 r u = 0.
Proof.
  intros Hf Hc r u.
  assert (Hr : dot3 r r = 1) by (apply dot3_normalize; exact Hc).
  assert (Hfr : dot3 r f = 0).
  { unfold r. rewrite dot3_normalize_l, cross_orthogonal. ring. }
  assert (Hrf : dot3 (cross r f) (cross r f) = 1).
  { rewrite lagrange_identity, Hr, Hf, Hfr. ring. }
  assert (Hu : dot3 u u = 1) by (apply dot3_normalize; rewrite Hrf; lra).
  assert (Hun : u = cross r f) by (apply normalize_unit; exact Hrf).
  split; [exact Hr|]. split; [exact Hu|].
  split; [rewrite dot3_comm; exact Hfr|].
  split.
  - rewrite Hun, dot3_comm. destruct r, f. unfold dot3, cross. simpl. ring.
  - rewrite Hun. destruct r, f. unfold dot3, cross. simpl. ring.
Qed.

Lemma cos_radians_pos (p : R) : -89 <= p <= 89 -> 0 < cos (GLM.radians p).
Proof.
  intros Hp. pose proof PI_RGT_0 as Hpi. unfold GLM.radians.
  apply cos_gt_0; nra.
Qed.

(** X29: a mouse movement leaves the camera with an orthonormal frame.  For
    a camera whose world up is +Y, after processMouseMovement with the pitch
    constraint the pitch is within 89 degrees of the horizon, the yaw has
    moved by the scaled horizontal offset, Front, Right and Up have length 1
    and are pairwise perpendicular, Right is horizontal, and the position is
    unchanged. *)
Theorem camera_frame_orthonormal (c : CameraObject.Camera) (xoffset yoffset : R) :
  CameraObject.WorldUp c = Vec3 0 1 0 ->
  let c' := CameraObject.processMouseMovement xoffset yoffset true c in
  -89 <= CameraObject.Pitch c' <= 89
  /\ CameraObject.Yaw c' = CameraObject.Yaw c + xoffset * CameraObject.MouseSensitivity c
  /\ dot3 (CameraObject.Front c') (CameraObject.Front c') = 1
  /\ dot3 (CameraObject.Right c') (CameraObject.Right c') = 1
  /\ dot3 (CameraObject.Up c') (CameraObject.Up c') = 1
  /\ dot3 (CameraObject.Front c') (CameraObject.Right c') = 0
  /\ dot3 (CameraObject.Front c') (CameraObject.Up c') = 0
  /\ dot3 (CameraObject.Right c') (CameraObject.Up c') = 0
  /\ y3 (CameraObject.Right c') = 0
  /\ CameraObject.Position c' = CameraObject.Position c.
Proof.
  intros Hup c'. subst c'. unfold CameraObject.processMouseMovement. cbv zeta.
  set (yaw := CameraObject.Yaw c + xoffset * CameraObject.MouseSensitivity c).
  set (pitch := if fltb (if fgtb _ 89 then 89 else _) (-89) then -89 else _).
  assert (Hpitch : -89 <= pitch <= 89).
  { unfold pitch.
    destruct (fgtb _ 89) eqn:H1.
    - rewrite (proj2 (fltb_false 89 (-89))) by lra. lra.
    - apply fgtb_false in H1.
      destruct (fltb _ (-89)) eqn:H2; [lra|]. apply fltb_false in H2. lra. }
  unfold CameraObject.updateCameraVectors. cbv zeta. simpl. rewrite Hup.
  set (front := Vec3 (cos (GLM.radians yaw) * cos (GLM.radians pitch))
                     (sin (GLM.radians pitch))
                     (sin (GLM.radians yaw) * cos (GLM.radians pitch))).
  assert (Hcp : 0 < cos (GLM.radians pitch)) by (apply cos_radians_pos; exact Hpitch).
  assert (Hfront : dot3 front front = 1).
  { unfold front, dot3. simpl.
    pose proof (sin2_cos2 (GLM.radians yaw)) as Hy.
    pose proof (sin2_cos2 (GLM.radians pitch)) as Hp. unfold Rsqr in *. nra. }
  rewrite (normalize_unit front Hfront).
  assert (Hcross : cross front (Vec3 0 1 0)
                   = Vec3 (- (sin (GLM.radians yaw) * cos (GLM.radians pitch))) 0
                          (cos (GLM.radians yaw) * cos (GLM.radians pitch))).
  { unfold front, cross. simpl. f_equal; ring. }
  assert (Hc : 0 < dot3 (cross front (Vec3 0 1 0)) (cross front (Vec3 0 1 0))).
  { rewrite Hcross. unfold dot3. simpl.
    pose proof (sin2_cos2 (GLM.radians yaw)) as Hy. unfold Rsqr in Hy.
    replace (- (sin (GLM.radians yaw) * cos (GLM.radians pitch))
             * - (sin (GLM.radians yaw) * cos (GLM.radians pitch)) + 0 * 0
             + cos (GLM.radians yaw) * cos (GLM.radians pitch)
               * (cos (GLM.radians yaw) * cos (GLM.radians pitch)))
      with ((sin (GLM.radians yaw) * sin (GLM.radians yaw)
             + cos (GLM.radians yaw) * cos (GLM.radians yaw))
            * (cos (GLM.radians pitch) * cos (GLM.radians pitch))) by ring.
    rewrite Hy. nra. }
  destruct (frame_orthonormal front (Vec3 0 1 0) Hfront Hc) as (Hr & Hu & Hfr & Hfu & Hru).
  cbv zeta in Hr, Hu, Hfr, Hfu, Hru.
  split; [exact Hpitch|]. split; [reflexivity|]. split; [exact Hfront|].
  split; [exact Hr|]. split; [exact Hu|]. split; [exact Hfr|]. split; [exact Hfu|].
  split; [exact Hru|]. split; [|reflexivity].
  rewrite Hcross. unfold normalize, scale3. simpl. ring.
Qed.

Lemma camera_frame_orthonormal_witness :
  y3 (CameraObject.Right (CameraObject.processMouseMovement 10 5 true Cases.viewer)) = 0
  /\ -89 <= CameraObject.Pitch (CameraObject.processMouseMovement 10 5 true Cases.viewer)
     <= 89.
Proof.
  destruct (camera_frame_orthonormal Cases.viewer 10 5 eq_refl)
    as (Hp & _ & _ & _ & _ & _ & _ & _ & Hy & _).
  split; [exact Hy | exact Hp].
Defined.

Lemma processKeyboard_angles (d : CameraObject.Camera_Movement) (dt : R)
    (c : CameraObject.Camera) :
  CameraObject.Yaw (CameraObject.processKeyboard d dt c) = CameraObject.Yaw c
  /\ CameraObject.Pitch (CameraObject.processKeyboard d dt c) = CameraObject.Pitch c
  /\ CameraObject.MouseSensitivity (CameraObject.processKeyboard d dt c)
     = CameraObject.MouseSensitivity c.
Proof. destruct d; repeat split. Qed.

Lemma processInput_key_frame (pressed : Main.Key -> bool) (key : Main.Key)
    (d : CameraObject.Camera_Movement) (s : Main.State) :
  Main.sameView s (Main.processInput_key pressed key d s)
  /\ Main.guiMode (Main.processInput_key pressed key d s) = Main.guiMode s
  /\ Main.firstMouse (Main.processInput_key pressed key d s) = Main.firstMouse s
  /\ Main.tabPressed (Main.processInput_key pressed key d s) = Main.tabPressed s.
Proof.
  unfold Main.processInput_key, Main.sameView.
  destruct (pressed key); [destruct d|]; repeat split.
Qed.

Lemma sameView_trans (s1 s2 s3 : Main.State) :
  Main.sameView s1 s2 -> Main.sameView s2 s3 -> Main.sameView s1 s3.
Proof.
  unfold Main.sameView. intros (A1 & A2 & A3) (B1 & B2 & B3).
  repeat split; congruence.
Qed.

Lemma processInput_move_frame (pressed : Main.Key -> bool) (s : Main.State) :
  Main.sameView s (Main.processInput_move pressed s)
  /\ Main.guiMode (Main.processInput_move pressed s) = Main.guiMode s
  /\ Main.firstMouse (Main.processInput_move pressed s) = Main.firstMouse s
  /\ Main.tabPressed (Main.processInput_move pressed s) = Main.tabPressed s.
Proof.
  unfold Main.processInput_move.
  destruct (negb (Main.guiMode s)); [|unfold Main.sameView; repeat split].
  cbv zeta.
  set (s1 := Main.processInput_key pressed Main.KEY_W CameraObject.FORWARD s).
  set (s2 := Main.processInput_key pressed Main.KEY_S CameraObject.BACKWARD s1).
  set (s3 := Main.processInput_key pressed Main.KEY_A CameraObject.LEFT s2).
  destruct (processInput_key_frame pressed Main.KEY_W CameraObject.FORWARD s)
    as (V1 & G1 & F1 & T1).
  destruct (processInput_key_frame pressed Main.KEY_S CameraObject.BACKWARD s1)
    as (V2 & G2 & F2 & T2).
  destruct (processInput_key_frame pressed Main.KEY_A CameraObject.LEFT s2)
    as (V3 & G3 & F3 & T3).
  destruct (processInput_key_frame pressed Main.KEY_D CameraObject.RIGHT s3)
    as (V4 & G4 & F4 & T4).
  fold s1 in V1, G1, F1, T1. fold s2 in V2, G2, F2, T2. fold s3 in V3, G3, F3, T3.
  split; [exact (sameView_trans _ _ _ (sameView_trans _ _ _ (sameView_trans _ _ _ V1 V2) V3) V4)|].
  repeat split; congruence.
Qed.

(** the first three statements do not touch the camera *)
Lemma processInput_head_camera (pressed : Main.Key -> bool) (s : Main.State) :
  Main.camera (Main.processInput_release pressed
                 (Main.processInput_toggle pressed (Main.processInput_escape pressed s)))
  = Main.camera s.
Proof.
  unfold Main.processInput_release, Main.processInput_toggle, Main.processInput_escape.
  destruct s as [c lx ly fm gm dt tp wc cd].
  destruct (pressed Main.KEY_ESCAPE), (pressed Main.KEY_TAB), tp, gm; reflexivity.
Qed.

(** a new TAB press in GUI mode *)
Lemma processInput_head_leaves_gui (pressed : Main.Key -> bool) (s : Main.State) :
  pressed Main.KEY_TAB = true -> Main.tabPressed s = false -> Main.guiMode s = true ->
  let s' := Main.processInput_release pressed
              (Main.processInput_toggle pressed (Main.processInput_escape pressed s)) in
  Main.guiMode s' = false /\ Main.firstMouse s' = true /\ Main.tabPressed s' = true.
Proof.
  intros Hkey Htab Hgui.
  unfold Main.processInput_release, Main.processInput_toggle, Main.processInput_escape.
  rewrite Hkey. destruct s as [c lx ly fm gm dt tp wc cd].
  simpl in Htab, Hgui. subst tp gm.
  destruct (pressed Main.KEY_ESCAPE); repeat split.
Qed.

(** TAB held down in camera mode *)
Lemma processInput_head_held (pressed : Main.Key -> bool) (s : Main.State) :
  pressed Main.KEY_TAB = true -> Main.tabPressed s = true ->
  Main.guiMode (Main.processInput_release pressed
                  (Main.processInput_toggle pressed (Main.processInput_escape pressed s)))
  = Main.guiMode s.
Proof.
  intros Hkey Htab.
  unfold Main.processInput_release, Main.processInput_toggle, Main.processInput_escape.
  rewrite Hkey. destruct s as [c lx ly fm gm dt tp wc cd]. simpl in Htab. subst tp.
  destruct (pressed Main.KEY_ESCAPE); reflexivity.
Qed.

(** X30: leaving GUI mode does not turn the camera.  In GUI mode the mouse
    and scroll callbacks do nothing.  When TAB is pressed in GUI mode,
    processInput switches to camera mode, and keeps it while TAB is held;
    the first mouse event afterwards, wherever the cursor is by then, leaves
    yaw and pitch as they were, and the next event turns the camera by the
    scaled distance between the two events, so the cursor position from
    before or during GUI mode never reaches the camera. *)
Theorem leaving_gui_mode_does_not_turn_camera
    (constrainPitch : bool) (pressed : Main.Key -> bool) (s : Main.State)
    (x y x2 y2 : R) :
  Main.guiMode s = true ->
  Main.tabPressed s = false ->
  pressed Main.KEY_TAB = true ->
  -89 <= CameraObject.Pitch (Main.camera s) <= 89 ->
  let s1 := Main.processInput pressed s in
  let s2 := Main.mouse_callback constrainPitch x y s1 in
  let s3 := Main.mouse_callback constrainPitch x2 y2 s2 in
  Main.mouse_callback constrainPitch x y s = s
  /\ Main.scroll_callback x y s = s
  /\ Main.guiMode s1 = false
  /\ Main.guiMode (Main.processInput pressed s1) = false
  /\ CameraObject.Yaw (Main.camera s2) = CameraObject.Yaw (Main.camera s)
  /\ CameraObject.Pitch (Main.camera s2) = CameraObject.Pitch (Main.camera s)
  /\ CameraObject.Yaw (Main.camera s3)
     = CameraObject.Yaw (Main.camera s)
       + (x2 - x) * CameraObject.MouseSensitivity (Main.camera s).
Proof.
  intros Hgui Htab Hkey Hpitch s1 s2 s3.
  set (h := Main.processInput_release pressed
              (Main.processInput_toggle pressed (Main.processInput_escape pressed s))).
  assert (Hs1eq : s1 = Main.processInput_move pressed h) by reflexivity.
  destruct (processInput_move_frame pressed h) as ((Vy & Vp & Vs) & Gm & Fm & Tm).
  pose proof (processInput_head_camera pressed s) as Hcam. fold h in Hcam.
  destruct (processInput_head_leaves_gui pressed s Hkey Htab Hgui) as (Hg & Hf & Ht).
  fold h in Hg, Hf, Ht.
  rewrite <- Hs1eq in Vy, Vp, Vs, Gm, Fm, Tm. rewrite Hcam in Vy, Vp, Vs.
  pose proof Vy as Hyaw1. pose proof Vp as Hpitch1. pose proof Vs as Hsens1.
  assert (Hs1 : Main.guiMode s1 = false /\ Main.firstMouse s1 = true
                /\ Main.tabPressed s1 = true)
    by (repeat split; congruence).
  destruct Hs1 as (Hg1 & Hf1 & Ht1).
  assert (Hclamp : forall p, -89 <= p <= 89 ->
            (if constrainPitch
             then if fltb (if fgtb p 89 then 89 else p) (-89) then -89
                  else (if fgtb p 89 then 89 else p)
             else p) = p).
  { intros p Hp. destruct constrainPitch; [|reflexivity].
    rewrite (proj2 (fgtb_false p 89)) by lra.
    rewrite (proj2 (fltb_false p (-89))) by lra. reflexivity. }
  assert (Hs2 : CameraObject.Yaw (Main.camera s2) = CameraObject.Yaw (Main.camera s1)
                /\ CameraObject.Pitch (Main.camera s2) = CameraObject.Pitch (Main.camera s1)
                /\ CameraObject.MouseSensitivity (Main.camera s2)
                   = CameraObject.MouseSensitivity (Main.camera s1)
                /\ Main.lastX s2 = x /\ Main.firstMouse s2 = false
                /\ Main.guiMode s2 = false).
  { unfold s2, Main.mouse_callback. rewrite Hg1, Hf1. simpl.
    replace ((x - x) * CameraObject.MouseSensitivity (Main.camera s1)) with 0 by ring.
    replace ((y - y) * CameraObject.MouseSensitivity (Main.camera s1)) with 0 by ring.
    rewrite !Rplus_0_r. rewrite Hclamp by (rewrite Hpitch1; exact Hpitch).
    repeat split. exact Hg1. }
  destruct Hs2 as (Hyaw2 & Hpitch2 & Hsens2 & Hx2 & Hf2 & Hg2).
  split; [unfold Main.mouse_callback; rewrite Hgui; reflexivity|].
  split; [unfold Main.scroll_callback; rewrite Hgui; reflexivity|].
  split; [exact Hg1|].
  split.
  { change (Main.processInput pressed s1)
      with (Main.processInput_move pressed
              (Main.processInput_release pressed
                 (Main.processInput_toggle pressed
                    (Main.processInput_escape pressed s1)))).
    destruct (processInput_move_frame pressed
                (Main.processInput_release pressed
                   (Main.processInput_toggle pressed
                      (Main.processInput_escape pressed s1)))) as (_ & -> & _).
    rewrite (processInput_head_held pressed s1 Hkey Ht1). exact Hg1. }
  split; [rewrite Hyaw2; exact Hyaw1|].
  split; [rewrite Hpitch2; exact Hpitch1|].
  unfold s3, Main.mouse_callback. rewrite Hg2, Hf2. simpl.
  rewrite Hx2, Hyaw2, Hsens2, Hyaw1, Hsens1. reflexivity.
Qed.

Lemma leaving_gui_mode_does_not_turn_camera_witness :
  CameraObject.Yaw
    (Main.camera (Main.mouse_callback true 100 700
                    (Main.processInput Cases.tabOnly Cases.inGui)))
  = CameraObject.Yaw (Main.camera Cases.inGui).
Proof.
  refine (proj1 (proj2 (proj2 (proj2 (proj2
            (leaving_gui_mode_does_not_turn_camera true Cases.tabOnly Cases.inGui
               100 700 0 0 eq_refl eq_refl eq_refl _)))))).
  unfold Cases.inGui, Cases.viewer. simpl. lra.
Defined.
